(** * Aurora Vibe Charts: schema inference, chart scoring, spec compilation,
      prompt parsing and insight generation

    A shallow embedding of the pure core of the repository
    ([dataAnalyzer], [insightGenerator], [vegaSpecBuilder],
    [chartRecommender], [promptParser]) and the properties proved of it.

    Conventions.
    - A JavaScript number is an IEEE 754 binary64 value: Rocq's primitive
      [float], whose operations round to nearest even as JavaScript's do.
    - A JavaScript string is held as its UTF-8 encoding in a Rocq [string];
      strings are assumed to be well-formed Unicode text (no lone
      surrogates).  Substring search on the encodings then coincides with
      [String.prototype.includes]; the UTF-16 length is [JS.length].
    - An optional property ([x?: T]) is an [option]; JavaScript truthiness of
      an optional string is [JS.truthy]. *)

From Stdlib Require Import ZArith List String Ascii Bool Lia Floats.
From Stdlib Require Import DecimalString Sorted Permutation.
Import ListNotations.

Open Scope string_scope.
Open Scope Z_scope.

(* ================================================================== *)
(** * The JavaScript runtime primitives the sources call *)
(* ================================================================== *)

Module JS.

(** ** Strings *)

Definition byte (n : nat) : ascii := ascii_of_nat n.

Fixpoint bytes (l : list nat) : string :=
  match l with
  | [] => EmptyString
  | n :: l' => String (byte n) (bytes l')
  end.

(** The double quote character, U+0022. *)
Definition dquote : ascii := byte 34.

Definition code (c : ascii) : nat := nat_of_ascii c.

(** [s.length]: the number of UTF-16 code units.  Every code point takes one
    unit, except those of a 4-byte encoding (lead byte 0xF0 and above), which
    take two; continuation bytes 0x80..0xBF are not counted. *)
Fixpoint length (s : string) : Z :=
  match s with
  | EmptyString => 0
  | String c r =>
      let n := code c in
      (if (n <? 128)%nat then 1
       else if (n <? 192)%nat then 0
       else if (n <? 240)%nat then 1
       else 2) + length r
  end.

(** [s.includes(sub)]. *)
Fixpoint includes (s sub : string) : bool :=
  String.prefix sub s
  || match s with
     | EmptyString => false
     | String _ r => includes r sub
     end.

(** [!!x] for [x : string | undefined]: [undefined] and the empty string are
    falsy. *)
Definition truthy (o : option string) : bool :=
  match o with
  | None => false
  | Some s => negb (String.eqb s "")
  end.

(** [a || b] on optional strings. *)
Definition or_else (a b : option string) : option string :=
  if truthy a then a else b.

(** [a || d] where [d] is a string. *)
Definition or_str (a : option string) (d : string) : string :=
  match or_else a (Some d) with
  | Some s => s
  | None => d
  end.

(** The white space and line terminator code points ([\s] of a regular
    expression, and what [trim] and [parseFloat] strip), as UTF-8:
    U+0009..U+000D, U+0020, U+00A0, U+1680, U+2000..U+200A, U+2028, U+2029,
    U+202F, U+205F, U+3000, U+FEFF. *)
Definition white_space : list string :=
  map bytes
    ([ [9]; [10]; [11]; [12]; [13]; [32]; [194; 160]; [225; 154; 128];
      [226; 128; 128]; [226; 128; 129]; [226; 128; 130]; [226; 128; 131];
      [226; 128; 132]; [226; 128; 133]; [226; 128; 134]; [226; 128; 135];
      [226; 128; 136]; [226; 128; 137]; [226; 128; 138];
      [226; 128; 168]; [226; 128; 169]; [226; 128; 175];
      [226; 129; 159]; [227; 128; 128]; [239; 187; 191] ])%nat.

(** Number of bytes of the white space character [s] starts with, [0] when it
    starts with none. *)
Definition ws_len (s : string) : nat :=
  match find (fun w => String.prefix w s) white_space with
  | Some w => String.length w
  | None => 0%nat
  end.

(** [skip] counts the bytes of the current white space character still to be
    dropped. *)
Fixpoint trimStart_from (skip : nat) (s : string) : string :=
  match s with
  | EmptyString => EmptyString
  | String c r =>
      match skip with
      | S k => trimStart_from k r
      | O =>
          match ws_len s with
          | O => s
          | S k => trimStart_from k r
          end
      end
  end.

Definition trimStart (s : string) : string := trimStart_from 0 s.

Definition all_white (s : string) : bool :=
  String.eqb (trimStart s) "".

Fixpoint trimEnd (s : string) : string :=
  match s with
  | EmptyString => EmptyString
  | String c r => if all_white s then EmptyString else String c (trimEnd r)
  end.

(** [s.trim()]. *)
Definition trim (s : string) : string := trimEnd (trimStart s).

(** [s.replace(/\s+/g, ' ')]: [in_ws] tells that the previous character was
    white space, so that a run yields one space. *)
Fixpoint collapse_from (skip : nat) (in_ws : bool) (s : string) : string :=
  match s with
  | EmptyString => EmptyString
  | String c r =>
      match skip with
      | S k => collapse_from k in_ws r
      | O =>
          match ws_len s with
          | O => String c (collapse_from 0 false r)
          | S k =>
              if in_ws then collapse_from k true r
              else String " " (collapse_from k true r)
          end
      end
  end.

Definition collapse_white (s : string) : string := collapse_from 0 false s.

(** [s.replace(/[set]/g, by)] for a class [set] of ASCII characters. *)
Fixpoint replace_chars (set : list ascii) (by_ : string) (s : string) : string :=
  match s with
  | EmptyString => EmptyString
  | String c r =>
      if existsb (Ascii.eqb c) set
      then by_ ++ replace_chars set by_ r
      else String c (replace_chars set by_ r)
  end.

(** ASCII lower-casing: what [toLowerCase] does to text whose code points
    are all below U+0080.  Bytes of other code points are left as they are. *)
Definition lower_ascii (c : ascii) : ascii :=
  let n := code c in
  if ((65 <=? n) && (n <=? 90))%nat then byte (n + 32) else c.

Fixpoint toLowerCase_ascii (s : string) : string :=
  match s with
  | EmptyString => EmptyString
  | String c r => String (lower_ascii c) (toLowerCase_ascii r)
  end.

Fixpoint is_ascii (s : string) : bool :=
  match s with
  | EmptyString => true
  | String c r => (code c <? 128)%nat && is_ascii r
  end.

(** ** Arrays *)

(** [arr.sort(cmp)] is a stable sort (ECMAScript 2019).  [gt a b] stands for
    [cmp(a, b) > 0]; a comparator result that is [NaN] counts as [0].  For a
    consistent comparator every stable sort yields this list. *)
Section Sort.
Context {A : Type} (gt : A -> A -> bool).

Fixpoint insert (x : A) (l : list A) : list A :=
  match l with
  | [] => [x]
  | y :: l' => if gt x y then y :: insert x l' else x :: l
  end.

Definition sort (l : list A) : list A := fold_right insert [] l.
End Sort.

(** [arr.find(p)?.name] style lookups use [List.find]; [arr[i]] is
    [nth_error]. *)

(** ** Numbers *)

Definition num := float.

Definition isNaN (x : num) : bool := PrimFloat.is_nan x.

Definition of_Z (z : Z) : num :=
  SF2Prim (binary_normalize prec emax z 0 false).

Definition of_nat (n : nat) : num := of_Z (Z.of_nat n).

(** The double nearest to [p / q] (ties to even), for [0 <= p] and [0 < q].
    The quotient is taken with 1080 fractional bits and a sticky bit, which
    is below every rounding boundary of the format. *)
Definition nearest (neg : bool) (p q : Z) : num :=
  let k := 1080 in
  let n := p * 2 ^ k in
  let m := 2 * (n / q) + (if n mod q =? 0 then 0 else 1) in
  SF2Prim (binary_normalize prec emax (if neg then - m else m) (- k - 1) neg).

(** The exact value of a finite double, as [(negative, m, e)] for
    [m * 2^e]; [None] for NaN and the infinities. *)
Definition exact (x : num) : option (bool * Z * Z) :=
  match Prim2SF x with
  | S754_zero s => Some (s, 0, 0)
  | S754_finite s m e => Some (s, Zpos m, e)
  | _ => None
  end.

Definition digits_of_Z (z : Z) : string :=
  NilZero.string_of_uint (N.to_uint (Z.to_N z)).

Fixpoint zeros (n : nat) : string :=
  match n with
  | O => EmptyString
  | S k => String "0" (zeros k)
  end.

(** *** [parseFloat] *)

Definition is_digit (c : ascii) : bool :=
  ((48 <=? code c) && (code c <=? 57))%nat.

(** The longest prefix of decimal digits, and what follows it. *)
Fixpoint span_digits (s : string) : list Z * string :=
  match s with
  | EmptyString => ([], EmptyString)
  | String c r =>
      if is_digit c
      then let (ds, rest) := span_digits r in
           (Z.of_nat (code c - 48) :: ds, rest)
      else ([], s)
  end.

Definition digits_value (ds : list Z) : Z :=
  fold_left (fun acc d => 10 * acc + d) ds 0.

(** An optional sign: [(negative, rest)]. *)
Definition span_sign (s : string) : bool * string :=
  match s with
  | String "-" r => (true, r)
  | String "+" r => (false, r)
  | _ => (false, s)
  end.

(** The exponent part read by [parseFloat]: it counts only when complete
    ([e] or [E], an optional sign, at least one digit). *)
Definition span_exponent (s : string) : Z :=
  match s with
  | String c r =>
      if (Ascii.eqb c "e" || Ascii.eqb c "E")%bool
      then let (neg, r') := span_sign r in
           match fst (span_digits r') with
           | [] => 0
           | ds => if neg then - digits_value ds else digits_value ds
           end
      else 0
  | EmptyString => 0
  end.

(** [m * 10^e], rounded to the nearest double. *)
Definition decimal (neg : bool) (m e : Z) : num :=
  if 0 <=? e then nearest neg (m * 10 ^ e) 1 else nearest neg m (10 ^ (- e)).

(** [parseFloat(s)]: leading white space is skipped, then the longest prefix
    that is a decimal literal is read; [NaN] when there is none. *)
Definition parseFloat (s : string) : num :=
  let (neg, body) := span_sign (trimStart s) in
  if String.prefix "Infinity" body
  then (if neg then neg_infinity else infinity)
  else
    let (ip, after_int) := span_digits body in
    match after_int with
    | String "." r =>
        let (fp, after_frac) := span_digits r in
        match ip, fp with
        | [], [] => nan
        | _, _ =>
            decimal neg (digits_value (ip ++ fp))
                    (span_exponent after_frac - Z.of_nat (List.length fp))
        end
    | _ =>
        match ip with
        | [] => nan
        | _ => decimal neg (digits_value ip) (span_exponent after_int)
        end
    end.

(** *** [Number.prototype.toString] (radix 10) *)

(** The least [n], searched upwards from [n], with [p / q < 10^n]. *)
Fixpoint magnitude (fuel : nat) (n p q : Z) : Z :=
  match fuel with
  | O => n
  | S f =>
      if (if 0 <=? n then p <? q * 10 ^ n else p * 10 ^ (- n) <? q)
      then n
      else magnitude f (n + 1) p q
  end.

(** The shortest digit string [s] (of [k] digits, searched from [k] up) and
    the exponent [n] with [s * 10^(n-k)] rounding to [x], where [x = p / q]
    and [10^(n0-1) <= x < 10^n0]; the candidate nearest to [x] is taken, the
    even one on a tie. *)
Fixpoint shortest (fuel : nat) (k n0 : Z) (x : num) (p q : Z) : Z * Z :=
  let a := if 0 <=? n0 - k then p else p * 10 ^ (k - n0) in
  let b := if 0 <=? n0 - k then q * 10 ^ (n0 - k) else q in
  let lo := a / b in
  let hi := lo + 1 in
  let r := a mod b in
  let ok s := PrimFloat.eqb (decimal false s (n0 - k)) x in
  let norm s := if s =? 10 ^ k then (10 ^ (k - 1), n0 + 1) else (s, n0) in
  let prefer_lo := (2 * r <? b) || ((2 * r =? b) && Z.even lo) in
  match fuel with
  | O => norm lo
  | S f =>
      if ok lo && ok hi then (if prefer_lo then norm lo else norm hi)
      else if ok lo then norm lo
      else if ok hi then norm hi
      else shortest f (k + 1) n0 x p q
  end.

Definition substring_from (n : nat) (s : string) : string :=
  String.substring n (String.length s - n) s.

(** [x.toString()]. *)
Definition Number_toString (x : num) : string :=
  match exact x with
  | None =>
      if isNaN x then "NaN"
      else if PrimFloat.ltb x 0 then "-Infinity" else "Infinity"
  | Some (neg, m, e) =>
      if m =? 0 then "0"
      else
        let p := if 0 <=? e then m * 2 ^ e else m in
        let q := if 0 <=? e then 1 else 2 ^ (- e) in
        let n0 := magnitude 700 (-330) p q in
        let (s, n) := shortest 17 1 n0 (PrimFloat.abs x) p q in
        let ds := digits_of_Z s in
        let k := Z.of_nat (String.length ds) in
        let body :=
          if (k <=? n) && (n <=? 21) then ds ++ zeros (Z.to_nat (n - k))
          else if (0 <? n) && (n <=? 21)
          then String.substring 0 (Z.to_nat n) ds ++ "."
               ++ substring_from (Z.to_nat n) ds
          else if (-6 <? n) && (n <=? 0)
          then "0." ++ zeros (Z.to_nat (- n)) ++ ds
          else
            let ex := n - 1 in
            let sgn := if ex <? 0 then "-" else "+" in
            (if k =? 1 then ds
             else String.substring 0 1 ds ++ "." ++ substring_from 1 ds)
            ++ "e" ++ sgn ++ digits_of_Z (Z.abs ex)
        in
        if neg then "-" ++ body else body
  end.

(** *** [Number.prototype.toFixed] *)

(** [x.toFixed(f)]: the integer [n] with [n / 10^f] nearest to [x] (the
    larger on a tie), printed with [f] decimals. *)
Definition toFixed (x : num) (f : nat) : string :=
  match exact x with
  | None => Number_toString x
  | Some (neg, m, e) =>
      if PrimFloat.leb (decimal false 1 21) (PrimFloat.abs x)
      then Number_toString x
      else
        let p := (if 0 <=? e then m * 2 ^ e else m) * 10 ^ Z.of_nat f in
        let q := if 0 <=? e then 1 else 2 ^ (- e) in
        let n := (2 * p + q) / (2 * q) in
        let ds := digits_of_Z n in
        let ds := zeros (S f - String.length ds) ++ ds in
        let cut := (String.length ds - f)%nat in
        let body :=
          match f with
          | O => ds
          | _ => String.substring 0 cut ds ++ "." ++ substring_from cut ds
          end
        in
        if PrimFloat.ltb x 0 then "-" ++ body else body
  end.

(** [Number.isInteger(x)]. *)
Definition isInteger (x : num) : bool :=
  match exact x with
  | None => false
  | Some (_, m, e) => (0 <=? e) || (m mod 2 ^ (- e) =? 0)
  end.

End JS.

Set Warnings "-inexact-float,-register-all".

(* ================================================================== *)
(** * types/index.ts *)
(* ================================================================== *)

(** A cell of a row ([unknown] in the source).  An object (array, [Date],
    nested record) is kept as what the sources observe of it: whether it is
    an [instanceof Date] and its [String(...)] conversion. *)
Inductive value : Type :=
  | VNull
  | VUndefined
  | VBool (b : bool)
  | VNum (x : JS.num)
  | VStr (s : string)
  | VObject (is_date : bool) (str : string).

(** [Record<string, unknown>]: the first binding of a key is the property. *)
Definition Row : Type := list (string * value).

(** [row[key]]. *)
Fixpoint get (row : Row) (key : string) : value :=
  match row with
  | [] => VUndefined
  | (k, v) :: r => if String.eqb k key then v else get r key
  end.

(** [String(v)]. *)
Definition ToString (v : value) : string :=
  match v with
  | VNull => "null"
  | VUndefined => "undefined"
  | VBool true => "true"
  | VBool false => "false"
  | VNum x => JS.Number_toString x
  | VStr s => s
  | VObject _ str => str
  end.

Inductive ColumnType : Type :=
  | TNumber | TString | TDatetime | TBoolean | TUnknown.

Definition ColumnType_eqb (a b : ColumnType) : bool :=
  match a, b with
  | TNumber, TNumber | TString, TString | TDatetime, TDatetime
  | TBoolean, TBoolean | TUnknown, TUnknown => true
  | _, _ => false
  end.

Record ColumnSchema : Type := mkColumn {
  name : string;
  type : ColumnType;
  sampleValues : list value;
  uniqueCount : Z;
  nullCount : Z;
  nullRatio : JS.num
}.

Inductive FileType : Type := FCsv | FJson | FXlsx.

Record DatasetSchema : Type := mkSchema {
  columns : list ColumnSchema;
  rowCount : Z;
  fileName : string;
  fileType : FileType
}.

Inductive ChartType : Type :=
  | Bar | BarHorizontal | BarGrouped | BarStacked | Line | Area | AreaStacked
  | Scatter | Bubble | Histogram | Boxplot | Heatmap | Pie | Donut | Radar
  | Timeline | Combo.

Definition ChartType_eq_dec (a b : ChartType) : {a = b} + {a <> b}.
Proof. decide equality. Defined.

Definition ChartType_eqb (a b : ChartType) : bool :=
  if ChartType_eq_dec a b then true else false.

Inductive ChartCategory : Type :=
  | Trend | Distribution | Relationship | Composition | Comparison.

Inductive Aggregation : Type := AggSum | AggMean | AggCount | AggMin | AggMax.

Inductive SortOrder : Type := Ascending | Descending.

Inductive TimeGranularity : Type := Day | Week | Month | Year.

Record ChartIntent : Type := mkIntent {
  chartType : option ChartType;
  xField : option string;
  yField : option string;
  colorField : option string;
  sizeField : option string;
  filterConditions : option (list (string * value));
  aggregation : option Aggregation;
  sortOrder : option SortOrder;
  timeGranularity : option TimeGranularity
}.

Inductive InsightType : Type :=
  | IMax | IMin | ITrend | IOutlier | IComparison | IDistribution.

Record Insight : Type := mkInsight {
  itype : InsightType;
  ititle : string;
  idescription : string;
  ivalue : option JS.num
}.

(* ================================================================== *)
(** * lib/dataAnalyzer.ts *)
(* ================================================================== *)

Module DataAnalyzer.

(** One position of a date pattern: [\d] or a literal character. *)
Inductive pat : Type := D | C (c : ascii).

(** [/^pattern/.test(s)]. *)
Fixpoint test (p : list pat) (s : string) : bool :=
  match p with
  | [] => true
  | i :: p' =>
      match s with
      | EmptyString => false
      | String c r =>
          match i with
          | D => JS.is_digit c && test p' r
          | C c' => Ascii.eqb c c' && test p' r
          end
      end
  end.

Definition datePatterns : list (list pat) :=
  [ [D; D; D; D; C "-"; D; D; C "-"; D; D];   (* ISO format *)
    [D; D; C "/"; D; D; C "/"; D; D; D; D];   (* US format *)
    [D; D; C "."; D; D; C "."; D; D; D; D];   (* EU format *)
    [D; D; D; D; C "/"; D; D; C "/"; D; D] ]. (* Japan format *)

Definition is_null (v : value) : bool :=
  match v with
  | VNull | VUndefined => true
  | VStr s => String.eqb s ""
  | _ => false
  end.

Definition is_boolean_like (v : value) : bool :=
  match v with
  | VBool _ => true
  | VStr s =>
      existsb (String.eqb s) ["true"; "false"; "True"; "False"; "0"; "1"]
  | _ => false
  end.

Definition is_numeric_like (v : value) : bool :=
  match v with
  | VNum x => negb (JS.isNaN x)
  | VStr s => negb (JS.isNaN (JS.parseFloat (JS.replace_chars [","%char] "" s)))
  | _ => false
  end.

Section WithDateParse.
(** [Date.parse]: its result on text other than the ISO format is left to
    the host by the language standard, so it is a parameter here. *)
Variable Date_parse : string -> JS.num.

Definition is_date_like (v : value) : bool :=
  match v with
  | VObject true _ => true
  | VStr s =>
      existsb (fun p => test p s) datePatterns
      || negb (JS.isNaN (Date_parse s))
  | _ => false
  end.

Definition inferColumnType (values : list value) : ColumnType :=
  let nonNullValues := filter (fun v => negb (is_null v)) values in
  if (List.length nonNullValues =? 0)%nat then TUnknown
  else
    let booleanValues := filter is_boolean_like nonNullValues in
    if ((List.length booleanValues =? List.length nonNullValues)
        && (0 <? List.length nonNullValues))%nat
    then TBoolean
    else
      let numericValues := filter is_numeric_like nonNullValues in
      if (List.length numericValues =? List.length nonNullValues)%nat
      then TNumber
      else
        let dateValues := filter is_date_like nonNullValues in
        if PrimFloat.ltb
             (PrimFloat.mul (JS.of_nat (List.length nonNullValues)) 0.8)
             (JS.of_nat (List.length dateValues))
        then TDatetime
        else TString.
End WithDateParse.

End DataAnalyzer.

(** How a call ends.  [Thrown]: a [TypeError] leaves the function.
    [EngineDefined]: the language leaves the result to the engine, as it
    does for the order [Array.prototype.sort] gives with a comparator that
    is not consistent; the call then returns or throws, depending on that
    order. *)
Inductive Outcome (A : Type) : Type :=
  | Returned (result : A)
  | Thrown
  | EngineDefined.

Arguments Returned {A} result.
Arguments Thrown {A}.
Arguments EngineDefined {A}.

(* ================================================================== *)
(** * lib/insightGenerator.ts *)
(* ================================================================== *)

Module InsightGenerator.

Local Open Scope float_scope.

Inductive TrendKind : Type := Increasing | Decreasing | Stable.

Record DataStats : Type := mkStats {
  min : JS.num;
  max : JS.num;
  mean : JS.num;
  median : JS.num;
  stdDev : JS.num;
  trend : TrendKind;
  outliers : list JS.num
}.

(** [arr[i]] on an array of numbers; a read past the end ([undefined]) is
    [NaN] in arithmetic.  [calculateStats] is only called on a non-empty
    array, where [min] and [max] are always in range. *)
Definition at_ (arr : list JS.num) (i : nat) : JS.num := nth i arr nan.

(** [values.reduce((a, b) => a + b, 0)]. *)
Definition sum (values : list JS.num) : JS.num :=
  fold_left (fun a b => a + b) values 0.

(** The regression loop: [(sumX, sumY, sumXY, sumX2)] after the rows from
    index [i] on. *)
Fixpoint regression (i : JS.num) (values : list JS.num)
    (acc : JS.num * JS.num * JS.num * JS.num)
    : JS.num * JS.num * JS.num * JS.num :=
  match values with
  | [] => acc
  | v :: rest =>
      let '(sumX, sumY, sumXY, sumX2) := acc in
      regression (i + 1) rest (sumX + i, sumY + v, sumXY + i * v, sumX2 + i * i)
  end.

(** [Math.pow(x, 2)], taken as the correctly rounded square. *)
Definition pow2 (x : JS.num) : JS.num := x * x.

Definition calculateStats (values : list JS.num) : DataStats :=
  let sorted := JS.sort (fun a b => 0 <? a - b) values in
  let len := List.length sorted in
  let n := JS.of_nat len in
  let min := at_ sorted 0 in
  let max := at_ sorted (len - 1) in
  let mean := sum values / n in
  let median :=
    if Nat.eqb (len mod 2) 0
    then (at_ sorted (len / 2 - 1) + at_ sorted (len / 2)) / 2
    else at_ sorted (len / 2) in
  let variance :=
    fold_left (fun acc val => acc + pow2 (val - mean)) values 0 / n in
  let stdDev := sqrt variance in
  let '(sumX, sumY, sumXY, sumX2) := regression 0 values (0, 0, 0, 0) in
  let slope := (n * sumXY - sumX * sumY) / (n * sumX2 - sumX * sumX) in
  let trend :=
    if 0.1 * mean <? slope then Increasing
    else if slope <? (- 0.1) * mean then Decreasing
    else Stable in
  let outliers := filter (fun v => 2 * stdDev <? abs (v - mean)) values in
  mkStats min max mean median stdDev trend outliers.

Definition formatNumber (x : JS.num) : string :=
  if 1000000 <=? abs x then JS.toFixed (x / 1000000) 1 ++ "M"
  else if 1000 <=? abs x then JS.toFixed (x / 1000) 1 ++ "K"
  else if JS.isInteger x then JS.Number_toString x
  else JS.toFixed x 2.

Definition is_number (c : ColumnSchema) : bool := ColumnType_eqb (type c) TNumber.

(** The column the insights are computed over. *)
Definition targetColumn (schema : DatasetSchema) (yField : option string)
    : option ColumnSchema :=
  let numericColumns := filter is_number (columns schema) in
  if JS.truthy yField
  then find (fun c => String.eqb (name c) (JS.or_str yField "")) numericColumns
  else nth_error numericColumns 0.

(** [typeof val === 'number' ? val : parseFloat(String(val))]. *)
Definition numeric_of (val : value) : JS.num :=
  match val with
  | VNum x => x
  | _ => JS.parseFloat (ToString val)
  end.

Definition extractValues (data : list Row) (target : ColumnSchema) : list JS.num :=
  filter (fun v => negb (JS.isNaN v))
         (map (fun row => numeric_of (get row (name target))) data).

(** ** The per-category totals, a [Record<string, number>]

    [categoryTotals] starts as the plain object [{}]: a key it does not own
    is read from [Object.prototype].  There the names of
    [prototype_functions] hold functions and [__proto__] is an accessor
    that yields [Object.prototype] itself, all of them truthy, so that
    [(categoryTotals[category] || 0) + value] concatenates text instead of
    adding numbers.  The own properties are kept as an association list in
    order of creation. *)

(** What a property of the totals holds: a number, or the text that [+]
    makes of a function (or of text) and a number.  The text starts with
    the source of a native function; it is never read as text, and as a
    number it is [NaN]. *)
Inductive Total : Type :=
  | Num (x : JS.num)
  | Text.

Definition Totals : Type := list (string * Total).

(** The function-valued properties of [Object.prototype]. *)
Definition prototype_functions : list string :=
  [ "constructor"; "hasOwnProperty"; "isPrototypeOf"; "propertyIsEnumerable";
    "toLocaleString"; "toString"; "valueOf";
    "__defineGetter__"; "__defineSetter__";
    "__lookupGetter__"; "__lookupSetter__" ].

Definition inherits (k : string) : bool :=
  existsb (String.eqb k) prototype_functions.

(** What [t[k]] reads. *)
Inductive Property : Type :=
  | Own (v : Total)
  | Inherited
  | Absent.

Fixpoint own (t : Totals) (k : string) : option Total :=
  match t with
  | [] => None
  | (k', v) :: r => if String.eqb k' k then Some v else own r k
  end.

(** [t[k]]: the accessor [__proto__] is never shadowed, an own property
    shadows an inherited function. *)
Definition lookup (t : Totals) (k : string) : Property :=
  if String.eqb k "__proto__" then Inherited
  else
    match own t k with
    | Some v => Own v
    | None => if inherits k then Inherited else Absent
    end.

Fixpoint put (t : Totals) (k : string) (v : Total) : Totals :=
  match t with
  | [] => [(k, v)]
  | (k', v') :: r =>
      if String.eqb k' k then (k, v) :: r else (k', v') :: put r k v
  end.

(** [t[k] = v]: an existing property keeps its place.  The setter of
    [__proto__] ignores a value that is neither an object nor [null], and
    no other value is ever assigned here. *)
Definition assign (t : Totals) (k : string) (v : Total) : Totals :=
  if String.eqb k "__proto__" then t else put t k v.

(** [x || 0] on a number: [0], [-0] and [NaN] are falsy. *)
Definition or_zero (x : JS.num) : JS.num :=
  if JS.isNaN x || (x =? 0) then 0 else x.

(** [(t[k] || 0) + value]. *)
Definition add (p : Property) (value : JS.num) : Total :=
  match p with
  | Own (Num x) => Num (or_zero x + value)
  | Own Text => Text
  | Inherited => Text
  | Absent => Num (0 + value)
  end.

Definition addRow (target categorical : ColumnSchema) (t : Totals) (row : Row)
    : Totals :=
  let category := ToString (get row (name categorical)) in
  let value := numeric_of (get row (name target)) in
  if negb (JS.isNaN value)
  then assign t category (add (lookup t category) value)
  else t.

(** An array index: a canonical numeral below 2^32 - 1. *)
Definition array_index (k : string) : option Z :=
  match JS.span_digits k with
  | (d :: ds, EmptyString) =>
      let v := JS.digits_value (d :: ds) in
      if (String.eqb k (JS.digits_of_Z v) && (v <? 4294967295)%Z)%bool
      then Some v else None
  | _ => None
  end.

Definition is_index (e : string * Total) : bool :=
  match array_index (fst e) with Some _ => true | None => false end.

Definition index_gt (a b : string * Total) : bool :=
  match array_index (fst a), array_index (fst b) with
  | Some i, Some j => (j <? i)%Z
  | _, _ => false
  end.

(** [Object.entries(t)]: array-index keys first, in ascending order, then the
    other keys in order of creation. *)
Definition entries (t : Totals) : Totals :=
  List.app (JS.sort index_gt (filter is_index t))
           (filter (fun e => negb (is_index e)) t).

(** A total as an operand of [-]. *)
Definition number (v : Total) : JS.num :=
  match v with
  | Num x => x
  | Text => nan
  end.

(** The comparator [(a, b) => b[1] - a[1]]. *)
Definition compare (a b : string * Total) : JS.num :=
  number (snd b) - number (snd a).

(** Whether the comparator is consistent on the entries.  Its result is
    [NaN], which [sort] reads as [0], when an operand is [NaN] (or both are
    the same infinity); so an entry whose total is [NaN] or text compares
    equal to every other, and the comparator orders the entries
    consistently exactly when there is no such entry or all entries compare
    equal. *)
Definition consistent (l : Totals) : bool :=
  forallb (fun e => negb (JS.isNaN (number (snd e)))) l
  || forallb
       (fun a =>
          forallb (fun b => negb (0 <? compare a b) && negb (compare a b <? 0))
                  l)
       l.

(** [Object.entries(categoryTotals).sort((a, b) => b[1] - a[1])[0]].  For a
    comparator that is not consistent the order [sort] gives is left to the
    engine. *)
Definition topCategory (data : list Row) (target categorical : ColumnSchema)
    : Outcome (option (string * Total)) :=
  let categoryTotals := fold_left (addRow target categorical) data [] in
  if consistent (entries categoryTotals)
  then Returned
         (nth_error (JS.sort (fun a b => 0 <? compare a b)
                             (entries categoryTotals)) 0)
  else EngineDefined.

Definition is_named_string (xField : option string) (c : ColumnSchema) : bool :=
  match xField with
  | Some x => ColumnType_eqb (type c) TString && String.eqb (name c) x
  | None => false
  end.

(** [formatNumber] on a total that is text throws: text has no [toFixed]. *)
Definition generateInsights (data : list Row) (schema : DatasetSchema)
    (xField yField : option string) : Outcome (list Insight) :=
  if Nat.eqb (List.length data) 0 then Returned []
  else
    match targetColumn schema yField with
    | None => Returned []
    | Some target =>
        let values := extractValues data target in
        if Nat.eqb (List.length values) 0 then Returned []
        else
          let stats := calculateStats values in
          let tname := name target in
          let x := JS.or_str xField "" in
          let nout := List.length (outliers stats) in
          let range := max stats - min stats in
          let spreadRatio := stdDev stats / mean stats in
          let insights (comparison : list Insight) : list Insight :=
            List.concat
              [ (* maximum and minimum *)
                [ mkInsight IMax "Highest Value"
                    ("The maximum " ++ tname ++ " is "
                     ++ formatNumber (max stats))
                    (Some (max stats));
                  mkInsight IMin "Lowest Value"
                    ("The minimum " ++ tname ++ " is "
                     ++ formatNumber (min stats))
                    (Some (min stats)) ];
                (* trend *)
                if JS.truthy xField
                then [ mkInsight ITrend
                         match trend stats with
                         | Increasing => "Upward Trend"
                         | Decreasing => "Downward Trend"
                         | Stable => "Stable Pattern"
                         end
                         match trend stats with
                         | Increasing =>
                             tname ++ " shows an upward trend over " ++ x
                         | Decreasing =>
                             tname ++ " shows a downward trend over " ++ x
                         | Stable =>
                             tname ++ " remains relatively stable over " ++ x
                         end
                         None ]
                else [];
                (* outliers *)
                if (0 <? nout)%nat
                then [ mkInsight IOutlier "Outliers Detected"
                         ("Found " ++ JS.Number_toString (JS.of_nat nout)
                          ++ " outlier" ++ (if (1 <? nout)%nat then "s" else "")
                          ++ " that deviate significantly from the average")
                         (Some (JS.of_nat nout)) ]
                else [];
                (* distribution *)
                [ mkInsight IDistribution
                    (if 0.5 <? spreadRatio
                     then "High Variability" else "Low Variability")
                    (if 0.5 <? spreadRatio
                     then tname ++ " values vary widely (range: "
                          ++ formatNumber range ++ ")"
                     else tname ++ " values are fairly consistent around "
                          ++ formatNumber (mean stats))
                    None ];
                (* category comparison *)
                comparison ] in
          match find (is_named_string xField) (columns schema) with
          | None => Returned (insights [])
          | Some categorical =>
              match topCategory data target categorical with
              | Returned None => Returned (insights [])
              | Returned (Some (cat, Num total)) =>
                  Returned
                    (insights
                       [ mkInsight IComparison "Top Performer"
                           (String JS.dquote cat
                            ++ String JS.dquote " leads with "
                            ++ formatNumber total ++ " total " ++ tname)
                           (Some total) ])
              | Returned (Some (_, Text)) => Thrown
              | Thrown => Thrown
              | EngineDefined => EngineDefined
              end
          end
    end.

End InsightGenerator.

(* ================================================================== *)
(** * lib/vegaSpecBuilder.ts *)
(* ================================================================== *)

(** An object literal of the specification.  [JUndefined] is a property
    written with the value [undefined]. *)
Inductive Json : Type :=
  | JUndefined
  | JStr (s : string)
  | JNum (x : JS.num)
  | JBool (b : bool)
  | JArr (items : list Json)
  | JObj (fields : list (string * Json)).

Definition Encoding : Type := list (string * Json).

(** [enc[key]]. *)
Fixpoint channel (enc : Encoding) (key : string) : option Json :=
  match enc with
  | [] => None
  | (k, v) :: r => if String.eqb k key then Some v else channel r key
  end.

(** [enc[key] = v]: a new property goes last, an existing one keeps its
    place. *)
Fixpoint set_channel (enc : Encoding) (key : string) (v : Json) : Encoding :=
  match enc with
  | [] => [(key, v)]
  | (k, v') :: r =>
      if String.eqb k key then (k, v) :: r else (k, v') :: set_channel r key v
  end.

(** [{ ...o, key: v }]. *)
Definition spread_with (o : option Json) (key : string) (v : Json) : Json :=
  match o with
  | Some (JObj fields) => JObj (set_channel fields key v)
  | _ => JObj [(key, v)]
  end.

(** The interface [VegaLiteSpec]; [vschema] is its [$schema] and
    [data_values] its [data.values]. *)
Record VegaLiteSpec : Type := mkSpec {
  vschema : string;
  data_values : list Row;
  mark : option Json;
  encoding : option Encoding;
  layer : option (list Json);
  config : option Json;
  width : option Json;
  height : option Json;
  title : option string
}.

Module VegaSpecBuilder.

Local Open Scope float_scope.

Definition AURORA_COLORS : list string :=
  [ "#00ffff"; "#9966ff"; "#ff66b2"; "#00cc99";
    "#3399ff"; "#ffcc00"; "#ff6666"; "#66ff99" ].

Definition baseConfig : Json :=
  JObj
    [ ("background", JStr "transparent");
      ("view", JObj [("stroke", JStr "transparent")]);
      ("axis", JObj [ ("labelColor", JStr "#a0aec0");
                      ("titleColor", JStr "#e2e8f0");
                      ("gridColor", JStr "#2d3748");
                      ("domainColor", JStr "#4a5568");
                      ("tickColor", JStr "#4a5568") ]);
      ("legend", JObj [ ("labelColor", JStr "#a0aec0");
                        ("titleColor", JStr "#e2e8f0") ]);
      ("title", JObj [("color", JStr "#e2e8f0")]) ].

Definition vega_lite_v5 : string :=
  "https://vega.github.io/schema/vega-lite/v5.json".

(** The object every single-view builder starts from. *)
Definition view (data : list Row) (m : Json) (enc : Encoding) (w : Json)
    : VegaLiteSpec :=
  mkSpec vega_lite_v5 data (Some m) (Some enc) None (Some baseConfig)
         (Some w) (Some (JNum 300)) None.

Definition with_encoding (spec : VegaLiteSpec) (enc : Encoding) : VegaLiteSpec :=
  mkSpec (vschema spec) (data_values spec) (mark spec) (Some enc) (layer spec)
         (config spec) (width spec) (height spec) (title spec).

Definition nominal_color (field : string) : Json :=
  JObj [ ("field", JStr field); ("type", JStr "nominal");
         ("scale", JObj [("range", JArr (map JStr AURORA_COLORS))]) ].

(** [if (color) { spec.encoding.color = ... }]. *)
Definition add_color (color : option string) (enc : Encoding) : Encoding :=
  if JS.truthy color
  then set_channel enc "color" (nominal_color (JS.or_str color ""))
  else enc.

Definition buildBarSpec (data : list Row) (x y : string) (color : option string)
    (horizontal stacked : bool) : VegaLiteSpec :=
  let enc : Encoding :=
    [ ((if horizontal then "y" else "x"),
       JObj [ ("field", JStr x); ("type", JStr "nominal");
              ("axis", JObj [("labelAngle",
                              JNum (if horizontal then 0 else -45))]);
              ("sort", JStr "-y") ]);
      ((if horizontal then "x" else "y"),
       JObj [ ("field", JStr y); ("type", JStr "quantitative");
              ("aggregate", JStr "sum") ]) ] in
  let spec := view data (JObj [("type", JStr "bar"); ("cornerRadiusEnd", JNum 4)])
                   enc (JStr "container") in
  if JS.truthy color
  then
    let enc1 := add_color color enc in
    if stacked
    then
      let key := if horizontal then "x" else "y" in
      with_encoding spec
        (set_channel enc1 key
           (spread_with (channel enc1 key) "stack" (JStr "normalize")))
    else with_encoding spec enc1
  else spec.

Definition buildLineSpec (data : list Row) (x y : string) (color : option string)
    : VegaLiteSpec :=
  view data
    (JObj [("type", JStr "line"); ("point", JBool true); ("strokeWidth", JNum 2)])
    (add_color color
       [ ("x", JObj [ ("field", JStr x); ("type", JStr "temporal");
                      ("axis", JObj [("labelAngle", JNum (-45))]) ]);
         ("y", JObj [ ("field", JStr y); ("type", JStr "quantitative");
                      ("aggregate", JStr "sum") ]) ])
    (JStr "container").

Definition buildAreaSpec (data : list Row) (x y : string) (color : option string)
    (stacked : bool) : VegaLiteSpec :=
  view data
    (JObj [("type", JStr "area"); ("opacity", JNum 0.7); ("line", JBool true)])
    (add_color color
       [ ("x", JObj [ ("field", JStr x); ("type", JStr "temporal");
                      ("axis", JObj [("labelAngle", JNum (-45))]) ]);
         ("y", JObj [ ("field", JStr y); ("type", JStr "quantitative");
                      ("aggregate", JStr "sum");
                      ("stack", if stacked then JStr "normalize"
                                else JUndefined) ]) ])
    (JStr "container").

Definition buildScatterSpec (data : list Row) (x y : string)
    (color size : option string) : VegaLiteSpec :=
  let enc := add_color color
       [ ("x", JObj [("field", JStr x); ("type", JStr "quantitative")]);
         ("y", JObj [("field", JStr y); ("type", JStr "quantitative")]) ] in
  view data
    (JObj [("type", JStr "circle"); ("opacity", JNum 0.7)])
    (if JS.truthy size
     then set_channel enc "size"
            (JObj [ ("field", JStr (JS.or_str size ""));
                    ("type", JStr "quantitative") ])
     else enc)
    (JStr "container").

Definition buildHistogramSpec (data : list Row) (field : string) : VegaLiteSpec :=
  view data
    (JObj [("type", JStr "bar"); ("cornerRadiusEnd", JNum 4)])
    [ ("x", JObj [ ("field", JStr field); ("type", JStr "quantitative");
                   ("bin", JObj [("maxbins", JNum 20)]) ]);
      ("y", JObj [("aggregate", JStr "count"); ("type", JStr "quantitative")]);
      ("color", JObj [("value", JStr "#00ffff")]) ]
    (JStr "container").

Definition buildBoxplotSpec (data : list Row) (category value : string)
    : VegaLiteSpec :=
  view data
    (JObj [("type", JStr "boxplot"); ("extent", JNum 1.5)])
    [ ("x", JObj [("field", JStr category); ("type", JStr "nominal")]);
      ("y", JObj [("field", JStr value); ("type", JStr "quantitative")]);
      ("color", nominal_color category) ]
    (JStr "container").

Definition buildHeatmapSpec (data : list Row) (x y color : string)
    : VegaLiteSpec :=
  view data (JStr "rect")
    [ ("x", JObj [("field", JStr x); ("type", JStr "nominal")]);
      ("y", JObj [("field", JStr y); ("type", JStr "nominal")]);
      ("color", JObj [ ("field", JStr color); ("type", JStr "quantitative");
                       ("aggregate", JStr "mean");
                       ("scale", JObj [("scheme", JStr "viridis")]) ]) ]
    (JStr "container").

Definition buildPieSpec (data : list Row) (category value : string)
    (donut : bool) : VegaLiteSpec :=
  view data
    (JObj [("type", JStr "arc"); ("innerRadius", JNum (if donut then 50 else 0))])
    [ ("theta", JObj [ ("field", JStr value); ("type", JStr "quantitative");
                       ("aggregate", JStr "sum") ]);
      ("color", nominal_color category) ]
    (JNum 300).

Definition buildComboSpec (data : list Row) (x barY lineY : string)
    : VegaLiteSpec :=
  mkSpec vega_lite_v5 data None None
    (Some
       [ JObj [ ("mark", JObj [ ("type", JStr "bar"); ("cornerRadiusEnd", JNum 4);
                                ("color", JStr "#00ffff") ]);
                ("encoding",
                 JObj [ ("x", JObj [("field", JStr x); ("type", JStr "nominal")]);
                        ("y", JObj [ ("field", JStr barY);
                                     ("type", JStr "quantitative");
                                     ("aggregate", JStr "sum") ]) ]) ];
         JObj [ ("mark", JObj [ ("type", JStr "line"); ("point", JBool true);
                                ("color", JStr "#9966ff");
                                ("strokeWidth", JNum 2) ]);
                ("encoding",
                 JObj [ ("x", JObj [("field", JStr x); ("type", JStr "nominal")]);
                        ("y", JObj [ ("field", JStr lineY);
                                     ("type", JStr "quantitative");
                                     ("aggregate", JStr "sum") ]) ]) ] ])
    (Some baseConfig) (Some (JStr "container")) (Some (JNum 300)) None.

Definition buildSpecFromIntent (data : list Row) (schema : DatasetSchema)
    (intent : ChartIntent) : option VegaLiteSpec :=
  match chartType intent with
  | None => None
  | Some ct =>
      if negb (JS.truthy (xField intent)) then None
      else
        let x := JS.or_str (xField intent) "" in
        let y := JS.or_str (yField intent) x in
        let color := colorField intent in
        Some
          match ct with
          | Bar => buildBarSpec data x y color false false
          | BarHorizontal => buildBarSpec data x y color true false
          | BarStacked => buildBarSpec data x y color false true
          | Line => buildLineSpec data x y color
          | Area => buildAreaSpec data x y color false
          | AreaStacked => buildAreaSpec data x y color true
          | Scatter => buildScatterSpec data x y color (sizeField intent)
          | Bubble =>
              buildScatterSpec data x y color
                (JS.or_else (sizeField intent) (yField intent))
          | Histogram => buildHistogramSpec data x
          | Boxplot => buildBoxplotSpec data x y
          | Heatmap => buildHeatmapSpec data x y (JS.or_str color y)
          | Pie => buildPieSpec data x y false
          | Donut => buildPieSpec data x y true
          | Combo => buildComboSpec data x y (JS.or_str color y)
          | BarGrouped | Radar | Timeline =>
              buildBarSpec data x y color false false
          end
  end.

End VegaSpecBuilder.

(* ================================================================== *)
(** * lib/chartRecommender.ts *)
(* ================================================================== *)

Record Requirements : Type := mkReq {
  minNumeric : Z;
  minCategorical : Z;
  needsDatetime : bool
}.

Record ChartTypeInfo : Type := mkInfo {
  ctype : ChartType;
  cname : string;
  cdescription : string;
  ccategory : ChartCategory;
  requirements : Requirements
}.

(** [ChartRecommendation['suggestedEncodings']]. *)
Record Encodings : Type := mkEnc {
  enc_x : option string;
  enc_y : option string;
  enc_color : option string;
  enc_size : option string
}.

Record ChartRecommendation : Type := mkRec {
  rtype : ChartType;
  rtitle : string;
  rdescription : string;
  rcategory : ChartCategory;
  suitabilityScore : Z;
  suggestedEncodings : Encodings;
  vegaLiteSpec : VegaLiteSpec
}.

Module ChartRecommender.

Import VegaSpecBuilder.

Definition CHART_TYPES : list ChartTypeInfo :=
  [ mkInfo Bar "Bar Chart" "Compare values across categories"
      Comparison (mkReq 1 1 false);
    mkInfo BarHorizontal "Horizontal Bar Chart"
      "Compare values with long category labels"
      Comparison (mkReq 1 1 false);
    mkInfo BarStacked "Stacked Bar Chart" "Show composition within categories"
      Composition (mkReq 1 2 false);
    mkInfo Line "Line Chart" "Show trends over time"
      Trend (mkReq 1 0 true);
    mkInfo Area "Area Chart" "Show cumulative trends over time"
      Trend (mkReq 1 0 true);
    mkInfo AreaStacked "Stacked Area Chart" "Show composition trends over time"
      Trend (mkReq 1 1 true);
    mkInfo Scatter "Scatter Plot" "Explore relationships between two variables"
      Relationship (mkReq 2 0 false);
    mkInfo Bubble "Bubble Chart" "Explore relationships with size dimension"
      Relationship (mkReq 3 0 false);
    mkInfo Histogram "Histogram" "Show distribution of a numeric variable"
      Distribution (mkReq 1 0 false);
    mkInfo Boxplot "Box Plot" "Compare distributions across categories"
      Distribution (mkReq 1 1 false);
    mkInfo Heatmap "Heatmap" "Show intensity across two dimensions"
      Relationship (mkReq 1 2 false);
    mkInfo Pie "Pie Chart" "Show parts of a whole"
      Composition (mkReq 1 1 false);
    mkInfo Donut "Donut Chart" "Show parts of a whole with center space"
      Composition (mkReq 1 1 false);
    mkInfo Combo "Combo Chart" "Combine bar and line for different scales"
      Comparison (mkReq 2 1 false) ].

Definition is_numeric (c : ColumnSchema) : bool :=
  ColumnType_eqb (type c) TNumber.

Definition is_categorical (c : ColumnSchema) : bool :=
  ColumnType_eqb (type c) TString && (uniqueCount c <? 50).

Definition is_datetime (c : ColumnSchema) : bool :=
  ColumnType_eqb (type c) TDatetime.

Definition getColumnsByType (schema : DatasetSchema)
    : list ColumnSchema * list ColumnSchema * list ColumnSchema :=
  (filter is_numeric (columns schema),
   filter is_categorical (columns schema),
   filter is_datetime (columns schema)).

Definition is_type (chartInfo : ChartTypeInfo) (t : ChartType) : bool :=
  ChartType_eqb (ctype chartInfo) t.

Definition calculateSuitability (chartInfo : ChartTypeInfo)
    (numericCount categoricalCount : Z) (hasDatetime : bool) : Z :=
  let req := requirements chartInfo in
  if numericCount <? minNumeric req then 0
  else if categoricalCount <? minCategorical req then 0
  else if needsDatetime req && negb hasDatetime then 0
  else
    let score := 50 in
    let score := if numericCount =? minNumeric req then score + 10 else score in
    let score :=
      if categoricalCount =? minCategorical req then score + 10 else score in
    let score :=
      if Bool.eqb (needsDatetime req) hasDatetime then score + 10 else score in
    let score :=
      if is_type chartInfo Bar && (1 <=? categoricalCount) && (1 <=? numericCount)
      then score + 15 else score in
    let score :=
      if is_type chartInfo Line && hasDatetime then score + 20 else score in
    let score :=
      if is_type chartInfo Scatter && (2 <=? numericCount)
      then score + 15 else score in
    let score :=
      if is_type chartInfo Pie && (categoricalCount =? 1) && (numericCount =? 1)
      then score + 10 else score in
    Z.min 100 score.

Definition name_at (l : list ColumnSchema) (i : nat) : option string :=
  option_map name (nth_error l i).

Definition suggest (chartInfo : ChartTypeInfo)
    (numeric categorical datetime : list ColumnSchema) : Encodings :=
  let n := @List.length ColumnSchema in
  mkEnc
    (if needsDatetime (requirements chartInfo) && (0 <? n datetime)%nat
     then name_at datetime 0
     else if (0 <? n categorical)%nat then name_at categorical 0
     else if (0 <? n numeric)%nat then name_at numeric 0
     else None)
    (if (0 <? n numeric)%nat then name_at numeric 0 else None)
    (if (1 <? n categorical)%nat then name_at categorical 1
     else if (n categorical =? 1)%nat
             && negb (is_type chartInfo Pie) && negb (is_type chartInfo Donut)
     then name_at categorical 0
     else None)
    (if (2 <? n numeric)%nat
        && (is_type chartInfo Bubble || is_type chartInfo Scatter)
     then name_at numeric 2
     else None).

(** The [switch] that builds the specification; [None] is [null]. *)
Definition compile (chartInfo : ChartTypeInfo) (data : list Row)
    (numeric : list ColumnSchema) (enc : Encodings) : option VegaLiteSpec :=
  let x := JS.or_str (enc_x enc) "" in
  let y := JS.or_str (enc_y enc) x in
  let color := enc_color enc in
  let size := enc_size enc in
  match ctype chartInfo with
  | Bar => Some (buildBarSpec data x y color false false)
  | BarHorizontal => Some (buildBarSpec data x y color true false)
  | BarStacked => Some (buildBarSpec data x y color false true)
  | Line => Some (buildLineSpec data x y color)
  | Area => Some (buildAreaSpec data x y color false)
  | AreaStacked => Some (buildAreaSpec data x y color true)
  | Scatter => Some (buildScatterSpec data x y color size)
  | Bubble => Some (buildScatterSpec data x y color size)
  | Histogram => Some (buildHistogramSpec data x)
  | Boxplot => Some (buildBoxplotSpec data x y)
  | Heatmap => Some (buildHeatmapSpec data x (JS.or_str color y) y)
  | Pie => Some (buildPieSpec data x y false)
  | Donut => Some (buildPieSpec data x y true)
  | Combo =>
      if (2 <=? List.length numeric)%nat
      then match nth_error numeric 1 with
           | Some c => Some (buildComboSpec data x y (name c))
           | None => None
           end
      else None
  | BarGrouped | Radar | Timeline => None
  end.

Definition generateChartTitle (chartInfo : ChartTypeInfo) (encodings : Encodings)
    (schema : DatasetSchema) : string :=
  let y := JS.or_str (enc_y encodings) "" in
  let x := JS.or_str (enc_x encodings) "" in
  let color := enc_color encodings in
  match ccategory chartInfo with
  | Trend => y ++ " over " ++ x
  | Comparison =>
      if JS.truthy color
      then y ++ " by " ++ x ++ " and " ++ JS.or_str color ""
      else y ++ " by " ++ x
  | Distribution => "Distribution of " ++ JS.or_str (Some y) x
  | Relationship => y ++ " vs " ++ x
  | Composition => "Composition of " ++ y ++ " by " ++ x
  end.

(** One turn of the loop over [CHART_TYPES]: what is pushed, if anything. *)
Definition recommend (data : list Row) (schema : DatasetSchema)
    (chartInfo : ChartTypeInfo) : option ChartRecommendation :=
  let '(numeric, categorical, datetime) := getColumnsByType schema in
  let score :=
    calculateSuitability chartInfo
      (Z.of_nat (List.length numeric)) (Z.of_nat (List.length categorical))
      (0 <? List.length datetime)%nat in
  if 0 <? score
  then
    let suggested := suggest chartInfo numeric categorical datetime in
    match compile chartInfo data numeric suggested with
    | Some spec =>
        Some (mkRec (ctype chartInfo)
                    (generateChartTitle chartInfo suggested schema)
                    (cdescription chartInfo) (ccategory chartInfo)
                    score suggested spec)
    | None => None
    end
  else None.

Fixpoint collect {A B : Type} (f : A -> option B) (l : list A) : list B :=
  match l with
  | [] => []
  | a :: r =>
      match f a with
      | Some b => b :: collect f r
      | None => collect f r
      end
  end.

Definition recommendCharts (data : list Row) (schema : DatasetSchema)
    : list ChartRecommendation :=
  JS.sort (fun a b => 0 <? suitabilityScore b - suitabilityScore a)
          (collect (recommend data schema) CHART_TYPES).

End ChartRecommender.

(* ================================================================== *)
(** * lib/promptParser.ts *)
(* ================================================================== *)

Module PromptParser.

(** Chart type keywords (Turkish + English), in the order the object literal
    declares them, which is the order of [Object.keys]. *)
Definition CHART_TYPE_KEYWORDS : list (string * list ChartType) :=
  [ ("bar", [Bar]);
    ("bar chart", [Bar]);
    ("çubuk", [Bar]);
    ("çubuk grafik", [Bar]);
    ("sütun", [Bar]);
    ("sütun grafik", [Bar]);
    ("horizontal bar", [BarHorizontal]);
    ("yatay çubuk", [BarHorizontal]);
    ("stacked bar", [BarStacked]);
    ("yığılmış çubuk", [BarStacked]);
    ("line", [Line]);
    ("line chart", [Line]);
    ("çizgi", [Line]);
    ("çizgi grafik", [Line]);
    ("trend", [Line]);
    ("zaman serisi", [Line]);
    ("time series", [Line]);
    ("area", [Area]);
    ("area chart", [Area]);
    ("alan", [Area]);
    ("alan grafik", [Area]);
    ("stacked area", [AreaStacked]);
    ("yığılmış alan", [AreaStacked]);
    ("scatter", [Scatter]);
    ("scatter plot", [Scatter]);
    ("saçılım", [Scatter]);
    ("nokta", [Scatter]);
    ("bubble", [Bubble]);
    ("bubble chart", [Bubble]);
    ("balon", [Bubble]);
    ("histogram", [Histogram]);
    ("histograms", [Histogram]);
    ("dağılım", [Histogram; Boxplot]);
    ("distribution", [Histogram; Boxplot]);
    ("boxplot", [Boxplot]);
    ("box plot", [Boxplot]);
    ("kutu", [Boxplot]);
    ("heatmap", [Heatmap]);
    ("heat map", [Heatmap]);
    ("ısı haritası", [Heatmap]);
    ("pie", [Pie]);
    ("pie chart", [Pie]);
    ("pasta", [Pie]);
    ("pasta grafik", [Pie]);
    ("donut", [Donut]);
    ("halka", [Donut]);
    ("combo", [Combo]);
    ("combined", [Combo]);
    ("birleşik", [Combo]) ].

(** Action keywords.  No function of the module reads them. *)
Definition ACTION_KEYWORDS : list (string * string) :=
  [ ("show", "display"); ("display", "display"); ("göster", "display");
    ("görüntüle", "display"); ("çiz", "display"); ("oluştur", "display");
    ("create", "display"); ("make", "display"); ("generate", "display");
    ("compare", "compare"); ("karşılaştır", "compare"); ("kıyas", "compare");
    ("kıyasla", "compare");
    ("analyze", "analyze"); ("analiz", "analyze"); ("incele", "analyze") ].

Definition TIME_KEYWORDS : list string :=
  [ "time"; "date"; "month"; "year"; "week"; "day"; "quarter";
    "zaman"; "tarih"; "ay"; "yıl"; "hafta"; "gün"; "çeyrek";
    "son"; "last"; "recent"; "son dönem"; "trend"; "over time" ].

Definition AGGREGATION_KEYWORDS : list (string * Aggregation) :=
  [ ("total", AggSum); ("toplam", AggSum); ("sum", AggSum);
    ("average", AggMean); ("ortalama", AggMean); ("mean", AggMean);
    ("count", AggCount); ("sayı", AggCount); ("adet", AggCount);
    ("minimum", AggMin); ("min", AggMin); ("en düşük", AggMin);
    ("maximum", AggMax); ("max", AggMax); ("en yüksek", AggMax) ].

(** The character class of the first [replace]: full stop, comma, the
    exclamation and question marks, semicolon, colon, both quotes, and the
    round, square and curly brackets. *)
Definition punctuation : list ascii :=
  [ "."; ","; "!"; "?"; ";"; ":"; "'"; JS.dquote;
    "("; ")"; "["; "]"; "{"; "}" ]%char.

(** [Object.keys(CHART_TYPE_KEYWORDS).sort((a, b) => b.length - a.length)]. *)
Definition sortedKeywords : list string :=
  JS.sort (fun a b => 0 <? JS.length b - JS.length a)
          (map fst CHART_TYPE_KEYWORDS).

(** [CHART_TYPE_KEYWORDS[keyword][0]]. *)
Definition first_type (keyword : string) : option ChartType :=
  match find (fun e => String.eqb (fst e) keyword) CHART_TYPE_KEYWORDS with
  | Some (_, t :: _) => Some t
  | _ => None
  end.

(** The fields [findFieldMatches] fills in. *)
Record Fields : Type := mkFields {
  fx : option string;
  fy : option string;
  fcolor : option string
}.

Definition is_type (t : ColumnType) (c : ColumnSchema) : bool :=
  ColumnType_eqb (type c) t.

Section WithLowerCase.
(** [String.prototype.toLowerCase], the Unicode lower-casing of the host. *)
Variable toLowerCase : string -> string.

Definition normalizeText (text : string) : string :=
  JS.trim
    (JS.collapse_white
       (JS.replace_chars punctuation " " (toLowerCase text))).

Definition findChartType (text : string) : option ChartType :=
  let normalized := normalizeText text in
  match find (fun keyword => JS.includes normalized keyword) sortedKeywords with
  | Some keyword => first_type keyword
  | None =>
      if existsb (fun k => JS.includes normalized k) TIME_KEYWORDS
      then Some Line
      else None
  end.

(** One turn of the loop over the columns. *)
Definition matchColumn (normalized : string) (result : Fields)
    (c : ColumnSchema) : Fields :=
  if JS.includes normalized (toLowerCase (name c))
  then
    if is_type TDatetime c
    then mkFields (Some (name c)) (fy result) (fcolor result)
    else if is_type TNumber c && negb (JS.truthy (fy result))
    then mkFields (fx result) (Some (name c)) (fcolor result)
    else if is_type TString c && negb (JS.truthy (fcolor result))
    then mkFields (fx result) (fy result) (Some (name c))
    else result
  else result.

Definition differs (x : option string) (c : ColumnSchema) : bool :=
  match x with
  | Some s => negb (String.eqb (name c) s)
  | None => true
  end.

Definition findFieldMatches (text : string) (schema : DatasetSchema) : Fields :=
  let normalized := normalizeText text in
  let numericColumns := filter (is_type TNumber) (columns schema) in
  let categoricalColumns := filter (is_type TString) (columns schema) in
  let dateColumns := filter (is_type TDatetime) (columns schema) in
  let result :=
    fold_left (matchColumn normalized) (columns schema)
              (mkFields None None None) in
  let x :=
    if negb (JS.truthy (fx result)) && (0 <? List.length dateColumns)%nat
    then option_map name (nth_error dateColumns 0)
    else if negb (JS.truthy (fx result))
            && (0 <? List.length categoricalColumns)%nat
    then option_map name (nth_error categoricalColumns 0)
    else fx result in
  let y :=
    if negb (JS.truthy (fy result)) && (0 <? List.length numericColumns)%nat
    then option_map name (nth_error numericColumns 0)
    else fy result in
  let color :=
    if negb (JS.truthy (fcolor result))
       && (1 <? List.length categoricalColumns)%nat
    then option_map name (find (differs x) categoricalColumns)
    else fcolor result in
  mkFields x y color.

Definition findAggregation (text : string) : option Aggregation :=
  let normalized := normalizeText text in
  match find (fun e => JS.includes normalized (fst e)) AGGREGATION_KEYWORDS with
  | Some (_, agg) => Some agg
  | None => Some AggSum
  end.

Definition parsePrompt (prompt : string) (schema : DatasetSchema) : ChartIntent :=
  let chartType := findChartType prompt in
  let fieldMatches := findFieldMatches prompt schema in
  let aggregation := findAggregation prompt in
  mkIntent
    (match chartType with Some t => Some t | None => Some Bar end)
    (fx fieldMatches) (fy fieldMatches) (fcolor fieldMatches)
    None None aggregation None None.
End WithLowerCase.

End PromptParser.


(* ================================================================== *)
(** * lib/datasetAnalyzer.ts, the column and dataset analysis *)
(* ================================================================== *)

Module DatasetAnalyzer.

Local Open Scope float_scope.

(** The equality of a [Set] (SameValueZero).  Two object cells are never the
    same value: each cell a parser yields is an object of its own. *)
Definition same_value (a b : value) : bool :=
  match a, b with
  | VNull, VNull | VUndefined, VUndefined => true
  | VBool x, VBool y => Bool.eqb x y
  | VNum x, VNum y => (JS.isNaN x && JS.isNaN y) || (x =? y)
  | VStr x, VStr y => String.eqb x y
  | _, _ => false
  end.

(** [set.add(v)]: the elements stay in order of insertion. *)
Definition set_add (seen : list value) (v : value) : list value :=
  if existsb (same_value v) seen then seen else List.app seen [v].

(** [Array.from(new Set(values))]. *)
Definition set_of (values : list value) : list value :=
  fold_left set_add values [].

Definition non_null (v : value) : bool := negb (DataAnalyzer.is_null v).

(** The numeric coercion of a sample value. *)
Definition coerce (t : ColumnType) (v : value) : value :=
  match t, v with
  | TNumber, VStr s => VNum (JS.parseFloat (JS.replace_chars [","%char] "" s))
  | _, _ => v
  end.

(** The names of the own properties of a row that were created first, in
    order of creation. *)
Fixpoint created (seen : list string) (row : Row) : list string :=
  match row with
  | [] => []
  | (k, _) :: r =>
      if existsb (String.eqb k) seen then created seen r
      else k :: created (k :: seen) r
  end.

Definition is_index (k : string) : bool :=
  match InsightGenerator.array_index k with Some _ => true | None => false end.

Definition index_gt (a b : string) : bool :=
  match InsightGenerator.array_index a, InsightGenerator.array_index b with
  | Some i, Some j => (j <? i)%Z
  | _, _ => false
  end.

(** [Object.keys(row)]: array-index keys first, in ascending order, then the
    other keys in order of creation. *)
Definition keys (row : Row) : list string :=
  List.app (JS.sort index_gt (filter is_index (created [] row)))
           (filter (fun k => negb (is_index k)) (created [] row)).

Section WithDateParse.
Variable Date_parse : string -> JS.num.

Definition analyzeColumn (name : string) (values : list value) : ColumnSchema :=
  let type := DataAnalyzer.inferColumnType Date_parse values in
  let nullCount := List.length (filter DataAnalyzer.is_null values) in
  let uniqueValues := set_of (filter non_null values) in
  let sampleValues := map (coerce type) (firstn 5 uniqueValues) in
  mkColumn name type sampleValues
    (Z.of_nat (List.length uniqueValues))
    (Z.of_nat nullCount)
    (if (0 <? List.length values)%nat
     then JS.of_nat nullCount / JS.of_nat (List.length values)
     else 0).

Definition analyzeDataset (data : list Row) (fileName : string)
    (fileType : FileType) : DatasetSchema :=
  match data with
  | [] => mkSchema [] 0 fileName fileType
  | first :: _ =>
      mkSchema
        (map (fun name => analyzeColumn name (map (fun row => get row name) data))
             (keys first))
        (Z.of_nat (List.length data)) fileName fileType
  end.
End WithDateParse.

Definition getNumericColumns (schema : DatasetSchema) : list ColumnSchema :=
  filter (fun c => ColumnType_eqb (type c) TNumber) (columns schema).

Definition getCategoricalColumns (schema : DatasetSchema) : list ColumnSchema :=
  filter (fun c => ColumnType_eqb (type c) TString && (uniqueCount c <? 50)%Z)
         (columns schema).

Definition getDateColumns (schema : DatasetSchema) : list ColumnSchema :=
  filter (fun c => ColumnType_eqb (type c) TDatetime) (columns schema).

End DatasetAnalyzer.

(* ================================================================== *)
(** * hooks/usePromptHistory.ts, hooks/useFavorites.ts *)
(* ================================================================== *)

(** The state updaters of the two hooks, as functions from the previous list
    to the next.  The identifier ([Date.now().toString()]) and the time
    ([new Date()], in milliseconds) are read from the clock by the caller. *)

Record PromptHistoryItem : Type := mkHistoryItem {
  hid : string;
  hprompt : string;
  htimestamp : Z;
  hchartType : option ChartType
}.

Record FavoriteChart : Type := mkFavorite {
  fid : string;
  fname : string;
  fprompt : string;
  fvegaLiteSpec : VegaLiteSpec;
  fcreatedAt : Z;
  fdatasetName : string
}.

Module PromptHistory.

Definition MAX_HISTORY : nat := 20.

Definition addPrompt (id : string) (now : Z) (prompt : string)
    (chartType : option ChartType) (prev : list PromptHistoryItem)
    : list PromptHistoryItem :=
  let newItem := mkHistoryItem id prompt now chartType in
  let filtered :=
    filter (fun item => negb (String.eqb (hprompt item) prompt)) prev in
  firstn MAX_HISTORY (newItem :: filtered).

Definition clearHistory (prev : list PromptHistoryItem) : list PromptHistoryItem :=
  [].

Definition removeItem (id : string) (prev : list PromptHistoryItem)
    : list PromptHistoryItem :=
  filter (fun item => negb (String.eqb (hid item) id)) prev.

End PromptHistory.

Module Favorites.

Definition addFavorite (id : string) (now : Z) (name prompt : string)
    (vegaLiteSpec : VegaLiteSpec) (datasetName : string)
    (prev : list FavoriteChart) : list FavoriteChart :=
  mkFavorite id name prompt vegaLiteSpec now datasetName :: prev.

Definition removeFavorite (id : string) (prev : list FavoriteChart)
    : list FavoriteChart :=
  filter (fun item => negb (String.eqb (fid item) id)) prev.

Definition clearFavorites (prev : list FavoriteChart) : list FavoriteChart := [].

End Favorites.

(* ================================================================== *)
(** * hooks/useChartGeneration.ts *)
(* ================================================================== *)

Record Dataset : Type := mkDataset {
  data : list Row;
  schema : DatasetSchema
}.

(** The three state cells of the hook. *)
Record ChartState : Type := mkState {
  selectedChart : option ChartRecommendation;
  customSpec : option VegaLiteSpec;
  currentIntent : option ChartIntent
}.

Module ChartGeneration.

Definition initial : ChartState := mkState None None None.

Definition recommendations (dataset : option Dataset)
    : list ChartRecommendation :=
  match dataset with
  | None => []
  | Some d => ChartRecommender.recommendCharts (data d) (schema d)
  end.

Definition insights (dataset : option Dataset) (st : ChartState)
    : Outcome (list Insight) :=
  match dataset, selectedChart st with
  | Some d, Some chart =>
      InsightGenerator.generateInsights (data d) (schema d)
        (enc_x (suggestedEncodings chart)) (enc_y (suggestedEncodings chart))
  | _, _ => Returned []
  end.

Definition selectChart (chart : ChartRecommendation) (st : ChartState)
    : ChartState :=
  mkState (Some chart) None
    (Some (mkIntent (Some (rtype chart))
             (enc_x (suggestedEncodings chart))
             (enc_y (suggestedEncodings chart))
             (enc_color (suggestedEncodings chart))
             None None None None None)).

(** [customSpec || selectedChart?.vegaLiteSpec || null]. *)
Definition currentSpec (st : ChartState) : option VegaLiteSpec :=
  match customSpec st with
  | Some spec => Some spec
  | None => option_map vegaLiteSpec (selectedChart st)
  end.

Section WithLowerCase.
Variable toLowerCase : string -> string.

(** The next state and the value returned. *)
Definition generateFromPrompt (dataset : option Dataset) (prompt : string)
    (st : ChartState) : ChartState * option VegaLiteSpec :=
  match dataset with
  | None => (st, None)
  | Some d =>
      let intent := PromptParser.parsePrompt toLowerCase prompt (schema d) in
      match VegaSpecBuilder.buildSpecFromIntent (data d) (schema d) intent with
      | Some spec => (mkState None (Some spec) (Some intent), Some spec)
      | None =>
          (mkState (selectedChart st) (customSpec st) (Some intent), None)
      end
  end.
End WithLowerCase.

End ChartGeneration.

(* ================================================================== *)
(** * Notions used in the statements *)
(* ================================================================== *)

Module Spec.

Import ChartRecommender.

(** What [recommendCharts] passes to [calculateSuitability]. *)
Definition numericCount (schema : DatasetSchema) : Z :=
  Z.of_nat (List.length (filter is_numeric (columns schema))).

Definition categoricalCount (schema : DatasetSchema) : Z :=
  Z.of_nat (List.length (filter is_categorical (columns schema))).

Definition hasDatetime (schema : DatasetSchema) : bool :=
  (0 <? List.length (filter is_datetime (columns schema)))%nat.

(** The hard gate of an archetype, as a proposition on the schema. *)
Definition gate_fails (chartInfo : ChartTypeInfo) (schema : DatasetSchema) : Prop :=
  numericCount schema < minNumeric (requirements chartInfo)
  \/ categoricalCount schema < minCategorical (requirements chartInfo)
  \/ (needsDatetime (requirements chartInfo) = true
      /\ hasDatetime schema = false).

(** Position of a chart type in the declaration order of [CHART_TYPES]
    (the length of the catalog for a type that is not in it). *)
Fixpoint index_in (t : ChartType) (l : list ChartTypeInfo) : nat :=
  match l with
  | [] => O
  | i :: r => if ChartType_eqb (ctype i) t then O else S (index_in t r)
  end.

Definition catalogIndex (t : ChartType) : nat := index_in t CHART_TYPES.

(** [a] is ranked before [b]: a higher score, or the same score and an
    earlier place in the catalog. *)
Definition ranked_before (a b : ChartRecommendation) : Prop :=
  suitabilityScore b < suitabilityScore a
  \/ (suitabilityScore a = suitabilityScore b
      /\ (catalogIndex (rtype a) < catalogIndex (rtype b))%nat).

(** The specification has the encoding channel [key]. *)
Definition has_channel (spec : VegaLiteSpec) (key : string) : bool :=
  match encoding spec with
  | Some enc =>
      match channel enc key with Some _ => true | None => false end
  | None => false
  end.

(** A complete document: the version marker, the theme, both sizing hints,
    and either a mark with its encoding or layers. *)
Definition complete (spec : VegaLiteSpec) : Prop :=
  vschema spec = VegaSpecBuilder.vega_lite_v5
  /\ config spec = Some VegaSpecBuilder.baseConfig
  /\ width spec <> None
  /\ height spec <> None
  /\ ((mark spec <> None /\ encoding spec <> None) \/ layer spec <> None).

(** The first numeric column of a schema, in schema order. *)
Definition firstNumeric (schema : DatasetSchema) : option ColumnSchema :=
  List.find InsightGenerator.is_number (columns schema).

(** The first numeric column, in schema order, whose (non-empty) name occurs
    lower-cased in the normalized text. *)
Definition firstNamedNumeric (toLowerCase : string -> string)
    (normalized : string) (schema : DatasetSchema) : option ColumnSchema :=
  List.find
    (fun c => InsightGenerator.is_number c
              && JS.includes normalized (toLowerCase (name c))
              && negb (String.eqb (name c) ""))
    (columns schema).

(** A normalized text without any chart-type or time keyword. *)
Definition keyword_free (normalized : string) : Prop :=
  forall k,
    In k (map fst PromptParser.CHART_TYPE_KEYWORDS ++ PromptParser.TIME_KEYWORDS)%list ->
    JS.includes normalized k = false.



(** A lower-casing function that does to ASCII text what [toLowerCase]
    does. *)
Definition ascii_compatible (toLowerCase : string -> string) : Prop :=
  forall s, JS.is_ascii s = true -> toLowerCase s = JS.toLowerCase_ascii s.




End Spec.

(* ================================================================== *)
(** * Concrete datasets, schemas and intents *)
(* ================================================================== *)

Module Examples.

(** A column without samples or nulls, with [u] distinct values. *)
Definition column (n : string) (t : ColumnType) (u : Z) : ColumnSchema :=
  mkColumn n t [] u 0 0%float.

(** One measure, as a CSV file yields it: every cell is a string. *)
Definition sales_schema : DatasetSchema :=
  mkSchema [column "Sales" TNumber 4] 4 "sales.csv" FCsv.

Definition sales_rows : list Row :=
  [ [("Sales", VStr "10")]; [("Sales", VStr "20")];
    [("Sales", VStr "30")]; [("Sales", VStr "1000")] ].

(** A category and a measure. *)
Definition region_schema : DatasetSchema :=
  mkSchema [column "Region" TString 2; column "Sales" TNumber 2]
           2 "regions.csv" FCsv.

Definition region_rows : list Row :=
  [ [("Region", VStr "North"); ("Sales", VStr "10")];
    [("Region", VStr "South"); ("Sales", VStr "20")] ].

(** The round-trip scenario of the specification. *)
Definition monthly_schema : DatasetSchema :=
  mkSchema [ column "Month" TDatetime 12; column "Region" TString 3;
             column "Sales" TNumber 12 ] 12 "monthly.csv" FCsv.

(** Two measures. *)
Definition revenue_schema : DatasetSchema :=
  mkSchema [column "Sales" TNumber 9; column "Revenue" TNumber 9]
           9 "revenue.csv" FCsv.

(** The text scenario of the specification. *)
Definition category_schema : DatasetSchema :=
  mkSchema [column "Sales" TNumber 9; column "Category" TString 3]
           9 "category.csv" FCsv.

Definition bar_info : ChartTypeInfo :=
  mkInfo Bar "Bar Chart" "Compare values across categories"
    Comparison (mkReq 1 1 false).

Definition intent (t : ChartType) (x y size : option string) : ChartIntent :=
  mkIntent (Some t) x y None size None None None None.

End Examples.

(* ================================================================== *)
(** * lib/imageMatcher.ts *)
(* ================================================================== *)

(** The string a chart type is at run time. *)
Definition ChartType_name (t : ChartType) : string :=
  match t with
  | Bar => "bar"
  | BarHorizontal => "bar-horizontal"
  | BarGrouped => "bar-grouped"
  | BarStacked => "bar-stacked"
  | Line => "line"
  | Area => "area"
  | AreaStacked => "area-stacked"
  | Scatter => "scatter"
  | Bubble => "bubble"
  | Histogram => "histogram"
  | Boxplot => "boxplot"
  | Heatmap => "heatmap"
  | Pie => "pie"
  | Donut => "donut"
  | Radar => "radar"
  | Timeline => "timeline"
  | Combo => "combo"
  end.

(** The [features] object of a detection; a property it lacks is [None]. *)
Record DetectedFeatures : Type := mkDetected {
  dHasAxes : option bool;
  dHasBars : option bool;
  dHasLines : option bool;
  dHasPieSegments : option bool
}.

Record Detection : Type := mkDetection {
  dtype : ChartType;
  dconfidence : JS.num;
  dfeatures : DetectedFeatures
}.

Record ImageFeatures : Type := mkFeatures {
  hasAxes : bool;
  hasBars : bool;
  hasLines : bool;
  hasPoints : bool;
  hasPieSegments : bool;
  hasLegend : bool;
  estimatedSeriesCount : Z;
  estimatedCategoryCount : Z
}.

Record ImageAnalysisResult : Type := mkResult {
  detectedType : option ChartType;
  confidence : JS.num;
  features : ImageFeatures;
  isCompatible : bool;
  matchMessage : string;
  canCreate : bool;
  reason : string
}.

Module ImageMatcher.

(** One entry of the [scores] array. *)
Record Scored : Type := mkScored {
  stype : ChartType;
  score : Z;
  sfeatures : DetectedFeatures
}.

(** [Math.min] on two numbers. *)
Definition Math_min (a b : JS.num) : JS.num :=
  if JS.isNaN a || JS.isNaN b then nan
  else if PrimFloat.ltb b a then b
  else if PrimFloat.ltb a b then a
  else if PrimFloat.ltb (PrimFloat.div 1 b) 0 then b
  else a.

(** What the detection resolves to on a timeout, on an image that cannot be
    read and on an exception. *)
Definition fallback : Detection :=
  mkDetection Bar 0.5%float (mkDetected (Some true) (Some true) None None).

(** The decision of [detectChartTypeFromImage] once the three pattern
    scores are counted.  The counting itself reads the pixels of a canvas
    and is not part of the model: the scores are the input. *)
Definition detected (circularScore verticalScore lineScore : Z) : Detection :=
  let scores :=
    JS.sort (fun a b => 0 <? score b - score a)
      [ mkScored Pie circularScore
          (mkDetected (Some false) None None (Some true));
        mkScored Bar verticalScore
          (mkDetected (Some true) (Some true) None None);
        mkScored Line lineScore
          (mkDetected (Some true) None (Some true) None) ] in
  match scores with
  | first :: _ =>
      mkDetection (stype first)
        (Math_min 0.95%float
           (PrimFloat.add 0.6%float
              (PrimFloat.div (JS.of_Z (score first)) 100%float)))
        (sfeatures first)
  | [] => fallback
  end.

(** [a ?? b] on an optional boolean. *)
Definition nullish (a : option bool) (b : bool) : bool :=
  match a with
  | Some v => v
  | None => b
  end.

Definition count (n : nat) : string := JS.Number_toString (JS.of_nat n).

Definition quote : string := String (ascii_of_nat 34) EmptyString.

(** [analyzeChartImage] after the detection, which is its input here. *)
Definition analyzeChartImage (detection : Detection) (schema : DatasetSchema)
    : ImageAnalysisResult :=
  let detectedType := dtype detection in
  let confidence := dconfidence detection in
  let features :=
    mkFeatures
      (nullish (dHasAxes (dfeatures detection))
               (negb (ChartType_eqb detectedType Pie)))
      (nullish (dHasBars (dfeatures detection))
               (ChartType_eqb detectedType Bar))
      (nullish (dHasLines (dfeatures detection))
               (ChartType_eqb detectedType Line
                || ChartType_eqb detectedType Area))
      (ChartType_eqb detectedType Scatter)
      (nullish (dHasPieSegments (dfeatures detection))
               (ChartType_eqb detectedType Pie))
      true 2 5 in
  let numericColumns :=
    filter (fun c => ColumnType_eqb (type c) TNumber) (columns schema) in
  let categoricalColumns :=
    filter (fun c => ColumnType_eqb (type c) TString && (uniqueCount c <? 50))
           (columns schema) in
  let dateColumns :=
    filter (fun c => ColumnType_eqb (type c) TDatetime) (columns schema) in
  let n := List.length numericColumns in
  let k := List.length categoricalColumns in
  let d := List.length dateColumns in
  let cannot := "❌ Cannot create this chart type." in
  let '(isCompatible, canCreate, matchMessage, reason) :=
    match detectedType with
    | Bar =>
        let ok := (1 <=? n)%nat && (1 <=? k)%nat in
        (ok, ok,
         if ok then "✅ Perfect match! Creating a bar chart for you..."
         else cannot,
         if negb ok
         then "Your dataset has " ++ count n ++ " numeric and " ++ count k
              ++ " categorical columns. Need at least 1 of each."
         else "")
    | Line | Area =>
        let ok := (1 <=? n)%nat && ((1 <=? d)%nat || (1 <=? k)%nat) in
        (ok, ok,
         if ok then "✅ Perfect match! Creating a trend chart for you..."
         else cannot,
         if negb ok
         then "Your dataset has " ++ count n ++ " numeric, " ++ count d
              ++ " date, and " ++ count k
              ++ " categorical columns. Need at least 1 numeric and 1 date/category column."
         else "")
    | Scatter =>
        let ok := (2 <=? n)%nat in
        (ok, ok,
         if ok then "✅ Perfect match! Creating a scatter plot for you..."
         else cannot,
         if negb ok
         then "Your dataset has " ++ count n
              ++ " numeric columns. Need at least 2 numeric columns."
         else "")
    | Pie =>
        let ok := (1 <=? n)%nat && (1 <=? k)%nat in
        (ok, ok,
         if ok then "✅ Perfect match! Creating a pie chart for you..."
         else cannot,
         if negb ok
         then "Your dataset has " ++ count n ++ " numeric and " ++ count k
              ++ " categorical columns. Need at least 1 of each."
         else "")
    | _ =>
        (true, false, "⚠️ Chart type not yet supported.",
         "Detected chart type " ++ quote ++ ChartType_name detectedType
         ++ quote ++ " is not currently supported.")
    end in
  mkResult (Some detectedType) confidence features isCompatible matchMessage
           canCreate reason.

End ImageMatcher.

(* ================================================================== *)
(** * pages/Index.tsx: what is done with the result of an image match *)
(* ================================================================== *)

Inductive Toast : Type :=
  | ChartCreated (description : string)
  | ChartNotAvailable (description : string)
  | CannotCreateChart (description : string).

Module IndexPage.

(** [s.replace(c, by)] for a one-character pattern: the first occurrence. *)
Fixpoint replace (c : ascii) (by_ : string) (s : string) : string :=
  match s with
  | EmptyString => EmptyString
  | String a rest =>
      if Ascii.eqb a c then by_ ++ rest else String a (replace c by_ rest)
  end.

Section WithLowerCase.
Variable toLowerCase : string -> string.

(** The [onMatchComplete] handler of the image tab: the next state of the
    chart hook and the toast that is shown. *)
Definition onMatchComplete (result : ImageAnalysisResult)
    (dataset : option Dataset) (st : ChartState)
    : ChartState * option Toast :=
  match canCreate result, detectedType result, dataset with
  | true, Some t, Some _ =>
      match find (fun r => ChartType_eqb (rtype r) t)
                 (ChartGeneration.recommendations dataset) with
      | Some found =>
          (ChartGeneration.selectChart found st,
           Some (ChartCreated ("Generated " ++ ChartType_name t
                               ++ " chart from your image.")))
      | None =>
          let chartTypeName := replace "-"%char " " (ChartType_name t) in
          let '(st', generatedSpec) :=
            ChartGeneration.generateFromPrompt toLowerCase dataset
              ("create a " ++ chartTypeName ++ " chart") st in
          match generatedSpec with
          | Some _ =>
              (st', Some (ChartCreated ("Generated " ++ ChartType_name t
                                        ++ " chart from your image.")))
          | None =>
              (st', Some (ChartNotAvailable
                            ("The " ++ ChartType_name t
                             ++ " chart isn't in the recommendations. Try using the Prompt tab instead.")))
          end
      end
  | canCreate, _, _ =>
      if negb canCreate
      then (st, Some (CannotCreateChart
                        (JS.or_str (Some (reason result))
                           "Dataset is not compatible with detected chart type.")))
      else (st, None)
  end.
End WithLowerCase.

End IndexPage.

(* ================================================================== *)
(** * Further notions *)
(* ================================================================== *)

Module Notions.

(** The gate, as [calculateSuitability] tests it. *)
Definition gate_closed (chartInfo : ChartTypeInfo)
    (numericCount categoricalCount : Z) (hasDatetime : bool) : bool :=
  (numericCount <? minNumeric (requirements chartInfo))
  || (categoricalCount <? minCategorical (requirements chartInfo))
  || (needsDatetime (requirements chartInfo) && negb hasDatetime).

(** [o.field] of an object literal, when it is a string. *)
Definition field_of (o : option Json) : option string :=
  match o with
  | Some (JObj fields) =>
      match channel fields "field" with
      | Some (JStr s) => Some s
      | _ => None
      end
  | _ => None
  end.

(** [o.key] of an object literal. *)
Definition prop_of (o : option Json) (key : string) : option Json :=
  match o with
  | Some (JObj fields) => channel fields key
  | _ => None
  end.

(** The encoding channel [key] of a specification. *)
Definition channel_of (spec : VegaLiteSpec) (key : string) : option Json :=
  match encoding spec with
  | Some enc => channel enc key
  | None => None
  end.

(** The characters of a string. *)
Fixpoint chars (s : string) : list ascii :=
  match s with
  | EmptyString => []
  | String c r => c :: chars r
  end.

(** An optional field that, when set, names a column of one of the types
    [ts]. *)
Definition names_column (schema : DatasetSchema) (ts : list ColumnType)
    (o : option string) : Prop :=
  forall n, o = Some n ->
    exists c, In c (columns schema) /\ name c = n /\ In (type c) ts.

Definition well_typed (schema : DatasetSchema) (r : PromptParser.Fields) : Prop :=
  names_column schema [TDatetime; TString] (PromptParser.fx r)
  /\ names_column schema [TNumber] (PromptParser.fy r)
  /\ names_column schema [TString] (PromptParser.fcolor r).

End Notions.

(* ================================================================== *)
(** * Further sample data *)
(* ================================================================== *)

Module Samples.
Import Examples.

Definition regions : Dataset := mkDataset region_rows region_schema.

Definition sales : Dataset := mkDataset sales_rows sales_schema.

(** A schema without a numeric column. *)
Definition labels_schema : DatasetSchema :=
  mkSchema [column "Region" TString 2] 2 "labels.csv" FCsv.

(** A column of ISO dates, as a CSV file yields it. *)
Definition iso_dates : list value :=
  [VStr "2024-01-01"; VStr "2024-02-01"].

(** Rows whose category is the name of a function that every plain object
    inherits. *)
Definition inherited_rows : list Row :=
  [ [("Region", VStr "constructor"); ("Sales", VStr "10")];
    [("Region", VStr "constructor"); ("Sales", VStr "1000")] ].

(** A [Date.parse] that rejects every text. *)
Definition rejecting : string -> JS.num := fun _ => nan.

End Samples.

(* ================================================================== *)
(** * Properties *)
(* ================================================================== *)

(** ** The stable sort *)

Section SortFacts.
Context {A : Type} (gt : A -> A -> bool).

Lemma insert_perm (x : A) (l : list A) :
  Permutation (JS.insert gt x l) (x :: l).
Proof.
  induction l as [| y l IH]; simpl.
  - apply Permutation_refl.
  - destruct (gt x y).
    + eapply perm_trans; [apply perm_skip, IH | apply perm_swap].
    + apply Permutation_refl.
Qed.

Lemma sort_perm (l : list A) : Permutation (JS.sort gt l) l.
Proof.
  induction l as [| x l IH]; simpl.
  - apply perm_nil.
  - eapply perm_trans; [apply insert_perm | apply perm_skip, IH].
Qed.

Lemma sort_In (l : list A) (x : A) : In x (JS.sort gt l) <-> In x l.
Proof.
  split; apply Permutation_in;
    [apply sort_perm | apply Permutation_sym, sort_perm].
Qed.
End SortFacts.

(** Sorting by descending score keeps, among equal scores, the order the
    input had.  The input order is given by a rank [idx] that increases
    along the list. *)
Section StableByScore.
Context {A : Type} (score : A -> Z) (idx : A -> nat).

Let gt (a b : A) : bool := 0 <? score b - score a.
Let lex (a b : A) : Prop :=
  score b < score a \/ (score a = score b /\ (idx a < idx b)%nat).

Lemma insert_ranked (x : A) (l : list A) :
  StronglySorted lex l ->
  Forall (fun y => (idx x < idx y)%nat) l ->
  StronglySorted lex (JS.insert gt x l).
Proof.
  induction l as [| y l IH]; intros Hs Hx; simpl.
  - repeat constructor.
  - inversion Hs as [| ? ? Hs' Hy]; subst.
    inversion Hx as [| ? ? Hxy Hx']; subst.
    unfold gt at 1. destruct (Z.ltb_spec 0 (score y - score x)) as [Hlt | Hge].
    + constructor; [apply IH; assumption |].
      apply (Permutation_Forall (Permutation_sym (insert_perm gt x l))).
      constructor; [left; lia | assumption].
    + constructor; [assumption |].
      constructor; [unfold lex; lia |].
      rewrite Forall_forall in Hy, Hx' |- *.
      intros z Hz. specialize (Hy z Hz). specialize (Hx' z Hz).
      unfold lex in *. lia.
Qed.

Lemma sort_ranked (l : list A) :
  StronglySorted (fun a b => (idx a < idx b)%nat) l ->
  StronglySorted lex (JS.sort gt l).
Proof.
  induction l as [| x l IH]; intros Hs; simpl.
  - constructor.
  - inversion Hs as [| ? ? Hs' Hx]; subst.
    apply insert_ranked; [apply IH; assumption |].
    apply (Permutation_Forall (Permutation_sym (sort_perm gt l))).
    assumption.
Qed.
End StableByScore.

(** ** The chart catalog and the scorer *)

Section Recommender.
Import ChartRecommender Spec.

Lemma collect_In {A B : Type} (f : A -> option B) (l : list A) (b : B) :
  In b (collect f l) <-> exists a, In a l /\ f a = Some b.
Proof.
  induction l as [| a l IH]; simpl.
  - split; [tauto | intros (a & [] & _)].
  - destruct (f a) as [b' |] eqn:Hf; simpl; rewrite IH; split.
    + intros [<- | (a' & Hin & Ha')]; eauto.
    + intros (a' & [<- | Hin] & Ha'); [left; congruence | eauto].
    + intros (a' & Hin & Ha'); eauto.
    + intros (a' & [<- | Hin] & Ha'); [congruence | eauto].
Qed.

Lemma collect_sorted {A B : Type} (f : A -> option B)
    (ia : A -> nat) (ib : B -> nat) (l : list A) :
  (forall a b, f a = Some b -> ib b = ia a) ->
  StronglySorted (fun a a' => (ia a < ia a')%nat) l ->
  StronglySorted (fun b b' => (ib b < ib b')%nat) (collect f l).
Proof.
  intros Hf. induction 1 as [| a l Hs IH Ha]; simpl.
  - constructor.
  - destruct (f a) as [b |] eqn:Hb; [| exact IH].
    constructor; [exact IH |].
    rewrite Forall_forall in Ha |- *.
    intros b' Hb'. apply collect_In in Hb' as (a' & Hin & Ha').
    rewrite (Hf _ _ Hb), (Hf _ _ Ha'). auto.
Qed.

(** What a pushed recommendation carries. *)
Lemma recommend_Some data schema chartInfo r :
  recommend data schema chartInfo = Some r ->
  rtype r = ctype chartInfo
  /\ suitabilityScore r =
       calculateSuitability chartInfo (numericCount schema)
         (categoricalCount schema) (hasDatetime schema)
  /\ 0 < suitabilityScore r.
Proof.
  unfold recommend, getColumnsByType, numericCount, categoricalCount,
    hasDatetime.
  set (score := calculateSuitability _ _ _ _).
  destruct (Z.ltb_spec 0 score) as [Hpos |]; [| discriminate].
  destruct (compile _ _ _ _); [| discriminate].
  intros [= <-]; simpl. auto.
Qed.

(** The catalog lists each chart type once, in increasing index. *)
Lemma catalog_increasing :
  StronglySorted
    (fun a b => (catalogIndex (ctype a) < catalogIndex (ctype b))%nat)
    CHART_TYPES.
Proof.
  unfold CHART_TYPES.
  repeat (constructor; [| repeat (constructor; [vm_compute; lia |]); constructor]).
  constructor.
Qed.

Lemma catalog_type_inj a b :
  In a CHART_TYPES -> In b CHART_TYPES -> ctype a = ctype b -> a = b.
Proof.
  intros Ha Hb Hab.
  assert (Hfind : forall i, In i CHART_TYPES ->
            find (fun j => ChartType_eqb (ctype j) (ctype i)) CHART_TYPES
            = Some i).
  { intros i Hi. unfold CHART_TYPES in Hi. simpl in Hi.
    repeat (destruct Hi as [<- | Hi]; [reflexivity |]). destruct Hi. }
  pose proof (Hfind a Ha) as Fa. pose proof (Hfind b Hb) as Fb.
  rewrite Hab in Fa. congruence.
Qed.

Lemma gate_score_zero chartInfo schema :
  gate_fails chartInfo schema ->
  calculateSuitability chartInfo (numericCount schema)
    (categoricalCount schema) (hasDatetime schema) = 0.
Proof.
  unfold gate_fails, calculateSuitability.
  intros [Hn | [Hc | [Hd Hh]]].
  - destruct (Z.ltb_spec (numericCount schema)
                (minNumeric (requirements chartInfo))); [reflexivity | lia].
  - destruct (numericCount schema <? _); [reflexivity |].
    destruct (Z.ltb_spec (categoricalCount schema)
                (minCategorical (requirements chartInfo))); [reflexivity | lia].
  - destruct (numericCount schema <? _); [reflexivity |].
    destruct (categoricalCount schema <? _); [reflexivity |].
    rewrite Hd, Hh. reflexivity.
Qed.

(** C4.  For every schema and every archetype of the catalog: when the
    number of numeric columns, or the number of categorical columns
    (string columns with fewer than 50 distinct values), is below the
    archetype's minimum, or the archetype needs a temporal column and the
    schema has no datetime column, the suitability score is exactly 0 and
    no recommendation of [recommendCharts] has the archetype's type. *)
Theorem gate_excludes_archetype data schema chartInfo :
  In chartInfo CHART_TYPES ->
  gate_fails chartInfo schema ->
  calculateSuitability chartInfo (numericCount schema)
    (categoricalCount schema) (hasDatetime schema) = 0
  /\ ~ In (ctype chartInfo) (map rtype (recommendCharts data schema)).
Proof.
  intros Hin Hgate. pose proof (gate_score_zero _ _ Hgate) as Hzero.
  split; [exact Hzero |].
  rewrite in_map_iff. intros (r & Hty & Hr).
  unfold recommendCharts in Hr. apply sort_In in Hr.
  apply collect_In in Hr as (info & Hinfo & Hrec).
  apply recommend_Some in Hrec as (Hrt & Hscore & Hpos).
  assert (info = chartInfo) as ->
    by (apply catalog_type_inj; congruence).
  lia.
Qed.

(** C6.  The list [recommendCharts] returns is in descending order of
    suitability score, and two recommendations with the same score stand
    in the order in which their archetypes are declared in the catalog. *)
Theorem recommendCharts_sorted_stable data schema :
  StronglySorted (fun a b => suitabilityScore b <= suitabilityScore a)
    (recommendCharts data schema)
  /\ StronglySorted
       (fun a b => suitabilityScore a = suitabilityScore b ->
                   (catalogIndex (rtype a) < catalogIndex (rtype b))%nat)
       (recommendCharts data schema).
Proof.
  assert (H : StronglySorted ranked_before (recommendCharts data schema)).
  { unfold recommendCharts.
    apply (sort_ranked suitabilityScore (fun r => catalogIndex (rtype r))).
    apply (collect_sorted _ (fun i => catalogIndex (ctype i))).
    - intros a b Hab. apply recommend_Some in Hab as (-> & _). reflexivity.
    - apply catalog_increasing. }
  split; (eapply StronglySorted_ind with (P := fun l => StronglySorted _ l);
          [constructor | | exact H]);
    (intros a l _ IH Ha; constructor; [exact IH |];
     eapply Forall_impl; [| exact Ha]; unfold ranked_before; intros; lia).
Qed.
End Recommender.

(** ** The spec compiler *)

Section Compiler.
Import VegaSpecBuilder Spec.

Lemma view_complete data m enc w : complete (view data m enc w).
Proof. unfold complete, view; simpl. repeat split; try discriminate.
       left; split; discriminate. Qed.

Lemma with_encoding_complete spec enc :
  complete spec -> mark spec <> None -> complete (with_encoding spec enc).
Proof.
  unfold complete, with_encoding; simpl. intros (? & ? & ? & ? & _) ?.
  repeat split; try assumption. left; split; [assumption | discriminate].
Qed.

Lemma buildBarSpec_complete data x y color horizontal stacked :
  complete (buildBarSpec data x y color horizontal stacked)
  /\ data_values (buildBarSpec data x y color horizontal stacked) = data.
Proof.
  unfold buildBarSpec. destruct (JS.truthy color), stacked; split;
    try reflexivity;
    try (apply with_encoding_complete; [| discriminate]);
    apply view_complete.
Qed.

Lemma buildComboSpec_complete data x barY lineY :
  complete (buildComboSpec data x barY lineY).
Proof. unfold complete, buildComboSpec; simpl. repeat split; try discriminate.
       right; discriminate. Qed.

(** Every builder the dispatch can reach yields a complete document that
    carries the rows it was given. *)
Lemma buildSpecFromIntent_Some data schema intent spec :
  buildSpecFromIntent data schema intent = Some spec ->
  complete spec /\ data_values spec = data.
Proof.
  unfold buildSpecFromIntent.
  destruct (chartType intent) as [ct |]; [| discriminate].
  destruct (JS.truthy (xField intent)); [| discriminate]. simpl.
  intros [= <-].
  destruct ct;
    first [ apply buildBarSpec_complete
          | split; [apply view_complete | reflexivity]
          | split; [apply buildComboSpec_complete | reflexivity] ].
Qed.

Lemma truthy_false_iff (o : option string) :
  JS.truthy o = false <-> o = None \/ o = Some "".
Proof.
  destruct o as [s |]; simpl.
  - destruct (String.eqb_spec s ""); simpl; split; intros H;
      try subst; auto; try discriminate.
    destruct H as [H | H]; [discriminate | congruence].
  - split; auto.
Qed.

(** C5, as the code has it.  [buildSpecFromIntent] is a total function
    (nothing in it can throw).  It returns no specification exactly when
    the chart type is absent or the x field is absent or the empty string;
    in every other case it returns a complete document holding the rows
    it was given. *)
Theorem buildSpecFromIntent_null_iff data schema intent :
  match buildSpecFromIntent data schema intent with
  | None =>
      chartType intent = None
      \/ xField intent = None \/ xField intent = Some ""
  | Some spec =>
      chartType intent <> None
      /\ xField intent <> None /\ xField intent <> Some ""
      /\ complete spec /\ data_values spec = data
  end.
Proof.
  destruct (buildSpecFromIntent data schema intent) as [spec |] eqn:Hb.
  - pose proof (buildSpecFromIntent_Some _ _ _ _ Hb) as [Hc Hd].
    unfold buildSpecFromIntent in Hb.
    destruct (chartType intent); [| discriminate].
    destruct (JS.truthy (xField intent)) eqn:Hx; [| discriminate].
    assert (Hn : ~ (xField intent = None \/ xField intent = Some ""))
      by (rewrite <- truthy_false_iff, Hx; discriminate).
    split; [discriminate |].
    split; [tauto | split; [tauto | split; assumption]].
  - unfold buildSpecFromIntent in Hb.
    destruct (chartType intent); [| left; reflexivity].
    destruct (JS.truthy (xField intent)) eqn:Hx; [discriminate |].
    right. apply truthy_false_iff. exact Hx.
Qed.

Lemma channel_set_same enc key v :
  channel (set_channel enc key v) key = Some v.
Proof.
  induction enc as [| [k v'] enc IH]; simpl.
  - rewrite String.eqb_refl. reflexivity.
  - destruct (String.eqb_spec k key); simpl.
    + subst. rewrite String.eqb_refl. reflexivity.
    + destruct (String.eqb_spec k key); [contradiction | exact IH].
Qed.

Lemma channel_set_other enc key key' v :
  key <> key' -> channel (set_channel enc key v) key' = channel enc key'.
Proof.
  intros Hne. induction enc as [| [k v'] enc IH]; simpl.
  - destruct (String.eqb_spec key key'); [contradiction | reflexivity].
  - destruct (String.eqb_spec k key); simpl.
    + subst. destruct (String.eqb_spec key key'); [contradiction | reflexivity].
    + destruct (String.eqb_spec k key'); [reflexivity | exact IH].
Qed.

(** The point-family builder has a size channel exactly for a truthy
    [size] argument. *)
Lemma buildScatterSpec_size data x y color size :
  has_channel (buildScatterSpec data x y color size) "size" = JS.truthy size.
Proof.
  unfold has_channel, buildScatterSpec, view; simpl.
  destruct (JS.truthy size).
  - rewrite channel_set_same. reflexivity.
  - unfold add_color. destruct (JS.truthy color).
    + rewrite channel_set_other by discriminate. reflexivity.
    + reflexivity.
Qed.

(** C9, as the code has it.  For a scatter intent the compiled spec has a
    size channel exactly when a (non-empty) size field is supplied; for a
    bubble intent the size falls back to the y field, so the channel is
    there exactly when the size field or the y field is supplied. *)
Theorem point_family_size_channel data schema intent spec :
  buildSpecFromIntent data schema intent = Some spec ->
  (chartType intent = Some Scatter ->
     has_channel spec "size" = JS.truthy (sizeField intent))
  /\ (chartType intent = Some Bubble ->
     has_channel spec "size"
     = JS.truthy (sizeField intent) || JS.truthy (yField intent)).
Proof.
  unfold buildSpecFromIntent. intros Hb.
  split; intros Hct; rewrite Hct in Hb;
    destruct (JS.truthy (xField intent)); try discriminate;
    simpl in Hb; injection Hb as <-;
    rewrite buildScatterSpec_size; [reflexivity |].
  unfold JS.or_else.
  destruct (JS.truthy (sizeField intent)) eqn:Hsize; simpl;
    [exact Hsize | reflexivity].
Qed.
End Compiler.

(** ** Numbers read from text are never [NaN] *)

Section FloatFacts.

(** Rounding a non-negative mantissa never yields the NaN of the format. *)
Lemma shr_1_nonneg mrs : 0 <= shr_m mrs -> 0 <= shr_m (shr_1 mrs).
Proof.
  destruct mrs as [m r s]; simpl.
  destruct m as [| [p | p |] | p]; simpl; lia.
Qed.

Lemma iter_shr_1_nonneg p :
  forall mrs, 0 <= shr_m mrs -> 0 <= shr_m (iter_pos shr_1 p mrs).
Proof.
  induction p as [p IH | p IH |]; intros mrs H; simpl;
    auto using shr_1_nonneg.
Qed.

Lemma shr_fexp_nonneg m e l :
  0 <= m -> 0 <= shr_m (fst (shr_fexp prec emax m e l)).
Proof.
  intros Hm. unfold shr_fexp, shr.
  assert (H0 : 0 <= shr_m (shr_record_of_loc m l))
    by (destruct l as [| []]; exact Hm).
  destruct (fexp prec emax (Zdigits2 m + e) - e); simpl;
    auto using iter_shr_1_nonneg.
Qed.

Lemma round_nearest_even_nonneg m l : 0 <= m -> 0 <= round_nearest_even m l.
Proof.
  intros Hm. destruct l as [| []]; simpl; try lia.
  destruct (Z.even m); lia.
Qed.

Lemma binary_round_aux_not_nan sx mx ex lx :
  0 <= mx -> binary_round_aux prec emax sx mx ex lx <> S754_nan.
Proof.
  intros Hm. unfold binary_round_aux.
  pose proof (shr_fexp_nonneg mx ex lx Hm) as H1.
  destruct (shr_fexp prec emax mx ex lx) as [mrs' e']. simpl in H1.
  pose proof (shr_fexp_nonneg _ e' loc_Exact
                (round_nearest_even_nonneg _ (loc_of_shr_record mrs') H1)) as H2.
  destruct (shr_fexp prec emax _ e' loc_Exact) as [mrs'' e'']. simpl in H2.
  destruct (shr_m mrs''); [discriminate | | lia].
  destruct (e'' <=? emax - prec); discriminate.
Qed.

Lemma binary_round_not_nan sx mx ex :
  binary_round prec emax sx mx ex <> S754_nan.
Proof.
  unfold binary_round. destruct (shl_align _ _ _) as [mz ez].
  apply binary_round_aux_not_nan. lia.
Qed.

Lemma binary_normalize_not_nan m e szero :
  binary_normalize prec emax m e szero <> S754_nan.
Proof.
  destruct m; simpl; [discriminate | |]; apply binary_round_not_nan.
Qed.

Lemma SFeqb_refl x : x <> S754_nan -> SFeqb x x = true.
Proof.
  intros Hx. unfold SFeqb, SFcompare.
  destruct x as [s | s | | s m e]; try (destruct s; reflexivity);
    [contradiction |].
  rewrite Z.compare_refl, Pos.compare_cont_refl. destruct s; reflexivity.
Qed.

Lemma is_nan_false x : Prim2SF x <> S754_nan -> PrimFloat.is_nan x = false.
Proof.
  intros Hx. unfold PrimFloat.is_nan. rewrite eqb_spec, SFeqb_refl by exact Hx.
  reflexivity.
Qed.

Lemma SF2Prim_not_nan x : x <> S754_nan -> PrimFloat.is_nan (SF2Prim x) = false.
Proof.
  intros Hx. destruct x as [[] | [] | | s m e]; try reflexivity;
    [contradiction |].
  apply is_nan_false. unfold SF2Prim.
  assert (H : Prim2SF (Z.ldexp (of_uint63 (Uint63Axioms.of_Z (Zpos m))) e)
              <> S754_nan).
  { unfold Z.ldexp. rewrite ldshiftexp_spec, of_uint63_spec.
    pose proof (binary_normalize_not_nan
                  (Uint63Axioms.to_Z (Uint63Axioms.of_Z (Zpos m))) 0 false) as Hn.
    destruct (binary_normalize _ _ _ _ _) as [| | | s' m' e']; simpl;
      try discriminate; [contradiction |].
    apply binary_round_not_nan. }
  destruct s; [| exact H].
  rewrite opp_spec. destruct (Prim2SF _); simpl; try discriminate.
  contradiction.
Qed.

Lemma nearest_not_NaN neg p q : JS.isNaN (JS.nearest neg p q) = false.
Proof.
  unfold JS.isNaN, JS.nearest. apply SF2Prim_not_nan, binary_normalize_not_nan.
Qed.

Lemma decimal_not_NaN neg m e : JS.isNaN (JS.decimal neg m e) = false.
Proof. unfold JS.decimal. destruct (0 <=? e); apply nearest_not_NaN. Qed.

Lemma digit_cases c :
  JS.is_digit c = true ->
  In c ["0"; "1"; "2"; "3"; "4"; "5"; "6"; "7"; "8"; "9"]%char.
Proof.
  destruct c as [[] [] [] [] [] [] [] []]; intros H;
    vm_compute in H; try discriminate H; simpl; tauto.
Qed.

Ltac each_digit c H :=
  apply digit_cases in H; simpl in H;
  repeat (destruct H as [<- | H]; [try reflexivity |]); try destruct H.

Lemma trimStart_digit c r :
  JS.is_digit c = true -> JS.trimStart (String c r) = String c r.
Proof.
  intros H. unfold JS.trimStart, JS.trimStart_from.
  assert (Hw : JS.ws_len (String c r) = 0%nat) by (each_digit c H).
  rewrite Hw. reflexivity.
Qed.

Lemma span_sign_digit c r :
  JS.is_digit c = true -> JS.span_sign (String c r) = (false, String c r).
Proof. intros H. each_digit c H. Qed.

Lemma prefix_Infinity_digit c r :
  JS.is_digit c = true -> String.prefix "Infinity" (String c r) = false.
Proof. intros H. each_digit c H. Qed.

Lemma not_comma_digit c :
  JS.is_digit c = true -> existsb (Ascii.eqb c) [","%char] = false.
Proof. intros H. each_digit c H. Qed.

(** A text that starts with a digit is read by [parseFloat] as a number. *)
Lemma parseFloat_digit c r :
  JS.is_digit c = true -> JS.isNaN (JS.parseFloat (String c r)) = false.
Proof.
  intros H. unfold JS.parseFloat.
  rewrite (trimStart_digit c r H), (span_sign_digit c r H),
    (prefix_Infinity_digit c r H).
  cbn [JS.span_digits]. rewrite H.
  destruct (JS.span_digits r) as [ds rest].
  destruct rest as [| c' rest]; [apply decimal_not_NaN |].
  destruct c' as [[] [] [] [] [] [] [] []];
    try apply decimal_not_NaN.
  destruct (JS.span_digits rest) as [fp after_frac]. apply decimal_not_NaN.
Qed.
End FloatFacts.

(** ** The schema inferencer *)

Section Inferencer.
Import DataAnalyzer.

Variable Date_parse : string -> JS.num.

(** [parseFloat] reads the year of an ISO date as a number. *)
Lemma parseFloat_iso_date :
  JS.parseFloat "2024-01-01" = 2024%float
  /\ JS.parseFloat "2024-02-01" = 2024%float.
Proof. split; vm_compute; reflexivity. Qed.

(** C1, at the input where the code departs from it.  A column holding
    the ISO dates "2024-01-01" and "2024-02-01" is inferred as [number],
    not as [datetime], whatever [Date.parse] does: every value has a
    numeric prefix, so the numeric rule, which comes first, takes it. *)
Theorem inferColumnType_iso_dates :
  inferColumnType Date_parse [VStr "2024-01-01"; VStr "2024-02-01"] = TNumber.
Proof. vm_compute. reflexivity. Qed.

(** The other three columns of the scenario are inferred as stated. *)
Lemma inferColumnType_digits :
  inferColumnType Date_parse [VStr "1"; VStr "2"; VStr "3"] = TNumber.
Proof. vm_compute. reflexivity. Qed.

Lemma inferColumnType_tokens :
  inferColumnType Date_parse [VStr "true"; VStr "false"; VStr "1"] = TBoolean.
Proof. vm_compute. reflexivity. Qed.

Lemma inferColumnType_names :
  JS.isNaN (Date_parse "Alice") = true ->
  JS.isNaN (Date_parse "Bob") = true ->
  inferColumnType Date_parse [VStr "Alice"; VStr "Bob"] = TString.
Proof.
  intros Ha Hb. unfold inferColumnType.
  change (filter (fun v => negb (is_null v)) [VStr "Alice"; VStr "Bob"])
    with [VStr "Alice"; VStr "Bob"].
  change (filter is_boolean_like [VStr "Alice"; VStr "Bob"]) with (@nil value).
  change (filter is_numeric_like [VStr "Alice"; VStr "Bob"]) with (@nil value).
  assert (Hd : filter (is_date_like Date_parse) [VStr "Alice"; VStr "Bob"] = [])
    by (simpl; unfold is_date_like; rewrite Ha, Hb; reflexivity).
  rewrite Hd. vm_compute. reflexivity.
Qed.

(** The date rule is reached only by a column with a value that has no
    numeric prefix: one such cell keeps the column from [number], and the
    five ISO dates, more than 80% of the six values, make it
    [datetime]. *)
Lemma inferColumnType_mixed :
  JS.isNaN (Date_parse "n/a") = true ->
  inferColumnType Date_parse
    [VStr "2024-01-01"; VStr "2024-02-01"; VStr "2024-03-01";
     VStr "2024-04-01"; VStr "2024-05-01"; VStr "n/a"] = TDatetime.
Proof.
  intros Hna. unfold inferColumnType.
  set (vs := [VStr "2024-01-01"; VStr "2024-02-01"; VStr "2024-03-01";
              VStr "2024-04-01"; VStr "2024-05-01"; VStr "n/a"]).
  change (filter (fun v => negb (is_null v)) vs) with vs.
  change (filter is_boolean_like vs) with (@nil value).
  replace (filter is_numeric_like vs) with (firstn 5 vs)
    by (vm_compute; reflexivity).
  assert (H6 : is_date_like Date_parse (VStr "n/a") = false)
    by (unfold is_date_like; rewrite Hna; reflexivity).
  assert (Hd : filter (is_date_like Date_parse) vs = firstn 5 vs)
    by (unfold vs; cbn [filter]; rewrite H6; reflexivity).
  rewrite Hd. vm_compute. reflexivity.
Qed.
End Inferencer.

(** ** The insight generator *)

Section Insights.
Import InsightGenerator Spec.
Local Open Scope float_scope.


(** Twice the standard deviation is above 848, and 1000 is 735 away from
    the mean. *)
Lemma two_sigma_10_20_30_1000 :
  abs (1000 - 265) = 735 /\ (848 <? 2 * sqrt 180125) = true.
Proof. split; vm_compute; reflexivity. Qed.


Lemma Returned_inj {A : Type} (a b : A) : Returned a = Returned b -> a = b.
Proof. intros H. injection H as H. exact H. Qed.

(** The shape of the result once the target column has values. *)
Lemma generateInsights_unfold data schema xField yField target out :
  targetColumn schema yField = Some target ->
  extractValues data target <> [] ->
  generateInsights data schema xField yField = Returned out ->
  exists trendPart distPart compPart,
    out
    = List.concat
        [ [ mkInsight IMax "Highest Value"
              ("The maximum " ++ name target ++ " is "
               ++ formatNumber (max (calculateStats (extractValues data target))))
              (Some (max (calculateStats (extractValues data target))));
            mkInsight IMin "Lowest Value"
              ("The minimum " ++ name target ++ " is "
               ++ formatNumber (min (calculateStats (extractValues data target))))
              (Some (min (calculateStats (extractValues data target)))) ];
          trendPart;
          if (0 <? List.length
                     (outliers (calculateStats (extractValues data target))))%nat
          then [ mkInsight IOutlier "Outliers Detected"
                   ("Found "
                    ++ JS.Number_toString
                         (JS.of_nat (List.length (outliers (calculateStats
                                        (extractValues data target)))))
                    ++ " outlier"
                    ++ (if (1 <? List.length (outliers (calculateStats
                                        (extractValues data target))))%nat
                        then "s" else "")
                    ++ " that deviate significantly from the average")
                   (Some (JS.of_nat (List.length (outliers (calculateStats
                                        (extractValues data target)))))) ]
          else [];
          distPart; compPart ]
    /\ Forall (fun i => itype i = ITrend) trendPart
    /\ Forall (fun i => itype i = IDistribution) distPart
    /\ Forall (fun i => itype i = IComparison) compPart.
Proof.
  intros Ht Hv. unfold generateInsights. rewrite Ht.
  destruct data as [| row data]; [exfalso; apply Hv; reflexivity |].
  change (Nat.eqb (List.length (row :: data)) 0) with false. cbv iota.
  destruct (extractValues (row :: data) target) as [| v vs] eqn:Hvs;
    [contradiction |].
  change (Nat.eqb (List.length (v :: vs)) 0) with false. cbv iota zeta.
  assert (Htrend : Forall (fun i => itype i = ITrend)
            (if JS.truthy xField
             then [ mkInsight ITrend
                      match trend (calculateStats (v :: vs)) with
                      | Increasing => "Upward Trend"
                      | Decreasing => "Downward Trend"
                      | Stable => "Stable Pattern"
                      end
                      match trend (calculateStats (v :: vs)) with
                      | Increasing =>
                          name target ++ " shows an upward trend over "
                          ++ JS.or_str xField ""
                      | Decreasing =>
                          name target ++ " shows a downward trend over "
                          ++ JS.or_str xField ""
                      | Stable =>
                          name target ++ " remains relatively stable over "
                          ++ JS.or_str xField ""
                      end
                      None ]
             else []))
    by (destruct (JS.truthy xField); repeat constructor).
  destruct (find _ _) as [categorical |].
  - destruct (topCategory _ _ _) as [[[cat [total |]] |] | |];
      intros Hout; try discriminate Hout;
      apply Returned_inj in Hout; cbv beta in Hout; subst out;
      eexists _, _, _; (split; [reflexivity |]);
      (split; [exact Htrend |]); split; repeat constructor.
  - intros Hout. apply Returned_inj in Hout. cbv beta in Hout. subst out.
    eexists _, _, _. split; [reflexivity |].
    split; [exact Htrend |]. split; repeat constructor.
Qed.

(** *** When the totals hold numbers only *)





Lemma extractValues_cons row data target :
  extractValues (row :: data) target
  = (extractValues [row] target ++ extractValues data target)%list.
Proof.
  unfold extractValues. cbn [map filter].
  destruct (negb _); reflexivity.
Qed.






End Insights.

Section TargetColumn.
Import InsightGenerator Spec.

Lemma find_filter {A : Type} (p q : A -> bool) (l : list A) :
  find p (filter q l) = find (fun a => q a && p a) l.
Proof.
  induction l as [| a l IH]; simpl; [reflexivity |].
  destruct (q a); simpl; [destruct (p a) |]; auto.
Qed.

Lemma head_filter {A : Type} (q : A -> bool) (l : list A) :
  nth_error (filter q l) 0 = find q l.
Proof.
  induction l as [| a l IH]; simpl; [reflexivity |].
  destruct (q a); simpl; auto.
Qed.

(** [find] returns the first element, in list order, that satisfies the
    test. *)
Lemma find_first {A : Type} (p : A -> bool) (l : list A) (a : A) :
  find p l = Some a ->
  exists l1 l2, l = (l1 ++ a :: l2)%list /\ p a = true
                /\ forall b, In b l1 -> p b = false.
Proof.
  induction l as [| b l IH]; simpl; [discriminate |].
  destruct (p b) eqn:Hb.
  - intros [= ->]. exists [], l. repeat split; [assumption | intros ? []].
  - intros Hf. destruct (IH Hf) as (l1 & l2 & -> & Ha & Hl1).
    exists (b :: l1), l2. repeat split; [assumption |].
    intros c [<- | Hc]; auto.
Qed.

Lemma generateInsights_no_target data schema xField yField :
  targetColumn schema yField = None ->
  generateInsights data schema xField yField = Returned [].
Proof.
  intros Ht. unfold generateInsights. rewrite Ht.
  destruct (Nat.eqb _ _); reflexivity.
Qed.

(** C3, as the code has it.  Without a y hint (absent or empty) the target
    is the first numeric column in schema order.  With a y hint the target
    is the first numeric column of that name; when no numeric column has
    that name there is no target, and no insight is produced: the first
    numeric column is not used in its place. *)
Theorem targetColumn_selection schema yField :
  match yField with
  | None => targetColumn schema yField = firstNumeric schema
  | Some y =>
      if String.eqb y ""
      then targetColumn schema yField = firstNumeric schema
      else
        targetColumn schema yField
        = find (fun c => is_number c && String.eqb (name c) y) (columns schema)
        /\ ((forall c, In c (columns schema) ->
                       type c = TNumber -> name c <> y) ->
            forall data xField,
              generateInsights data schema xField yField = Returned [])
  end.
Proof.
  unfold firstNumeric.
  destruct yField as [y |]; [| apply head_filter].
  destruct (String.eqb y "") eqn:Hy.
  - unfold targetColumn, JS.truthy. rewrite Hy. apply head_filter.
  - assert (Ht : targetColumn schema (Some y)
                 = find (fun c => is_number c && String.eqb (name c) y)
                        (columns schema)).
    { unfold targetColumn, JS.or_str, JS.or_else, JS.truthy.
      rewrite Hy. simpl. apply find_filter. }
    split; [exact Ht |].
    intros Hno data xField. apply generateInsights_no_target.
    rewrite Ht.
    destruct (find _ _) as [c |] eqn:Hf; [| reflexivity].
    apply find_some in Hf as [Hin Hc].
    apply andb_true_iff in Hc as [Hnum Hname].
    exfalso. apply (Hno c Hin).
    + unfold is_number in Hnum. destruct (type c); try discriminate; reflexivity.
    + apply String.eqb_eq. exact Hname.
Qed.
End TargetColumn.

(** ** The intent parser *)

Section Parser.
Import PromptParser Spec.



Lemma find_none_iff {A : Type} (p : A -> bool) (l : list A) :
  find p l = None <-> forall a, In a l -> p a = false.
Proof.
  split; [apply find_none |].
  induction l as [| a l IH]; simpl; [reflexivity |]. intros H.
  rewrite (H a (or_introl eq_refl)). apply IH. intros b Hb. apply H. auto.
Qed.


Variable toLowerCase : string -> string.


End Parser.

Section FieldMatches.
Import PromptParser Spec.

Variable toLowerCase : string -> string.
Variable normalized : string.

(** The text names the numeric column [c]. *)
Let named (c : ColumnSchema) : bool :=
  InsightGenerator.is_number c
  && JS.includes normalized (toLowerCase (name c)).

(** One turn of the loop, seen from [yField]. *)
Let turn (y : option string) (c : ColumnSchema) : option string :=
  if named c && negb (JS.truthy y) then Some (name c) else y.

Lemma matchColumn_fy (r : Fields) (c : ColumnSchema) :
  fy (matchColumn toLowerCase normalized r c) = turn (fy r) c.
Proof.
  unfold matchColumn, turn, named, is_type, InsightGenerator.is_number.
  destruct (JS.includes normalized (toLowerCase (name c)));
    destruct (type c); simpl; try reflexivity;
    try (destruct (JS.truthy (fy r)); reflexivity);
    destruct (JS.truthy (fcolor r)); reflexivity.
Qed.

Lemma fold_matchColumn_fy (l : list ColumnSchema) (r : Fields) :
  fy (fold_left (matchColumn toLowerCase normalized) l r)
  = fold_left turn l (fy r).
Proof.
  revert r. induction l as [| c l IH]; intros r; simpl; [reflexivity |].
  rewrite IH, matchColumn_fy. reflexivity.
Qed.

Lemma turn_truthy (l : list ColumnSchema) (y : option string) :
  JS.truthy y = true -> fold_left turn l y = y.
Proof.
  intros Hy. induction l as [| c l IH]; simpl; [reflexivity |].
  assert (Hstep : turn y c = y)
    by (unfold turn; rewrite Hy, andb_false_r; reflexivity).
  rewrite Hstep. exact IH.
Qed.

(** From a falsy [yField] the loop ends on the first numeric column with a
    non-empty name that the text names; without one [yField] stays
    falsy. *)
Lemma turn_falsy (l : list ColumnSchema) (y : option string) :
  JS.truthy y = false ->
  match find (fun c => named c && negb (String.eqb (name c) "")) l with
  | Some c => fold_left turn l y = Some (name c)
  | None =>
      JS.truthy (fold_left turn l y) = false
      /\ (fold_left turn l y = y
          \/ exists c, In c l /\ InsightGenerator.is_number c = true)
  end.
Proof.
  revert y. induction l as [| c l IH]; intros y Hy; simpl.
  - split; [exact Hy | left; reflexivity].
  - assert (Hstep : turn y c = if named c then Some (name c) else y)
      by (unfold turn; rewrite Hy, andb_true_r; reflexivity).
    rewrite Hstep. clear Hstep.
    destruct (named c) eqn:Hc; simpl.
    + destruct (String.eqb (name c) "") eqn:Hname; simpl.
      * assert (Hf : JS.truthy (Some (name c)) = false)
          by (simpl; rewrite Hname; reflexivity).
        specialize (IH _ Hf). destruct (find _ l); [exact IH |].
        destruct IH as [Ht _]. split; [exact Ht |].
        right. exists c. split; [left; reflexivity |].
        unfold named in Hc. apply andb_true_iff in Hc. tauto.
      * apply turn_truthy. simpl. rewrite Hname. reflexivity.
    + specialize (IH _ Hy). destruct (find _ l); [exact IH |].
      destruct IH as [Ht [He | (c' & Hin & Hn)]];
        (split; [exact Ht |]); [left; exact He |].
      right. exists c'. auto.
Qed.

(** The [yField] of [findFieldMatches], for a text whose normal form is
    [normalized]. *)
Lemma findFieldMatches_y text schema :
  normalizeText toLowerCase text = normalized ->
  fy (findFieldMatches toLowerCase text schema)
  = match firstNamedNumeric toLowerCase normalized schema with
    | Some c => Some (name c)
    | None => option_map name (firstNumeric schema)
    end.
Proof.
  intros Hn. unfold findFieldMatches, firstNamedNumeric, firstNumeric.
  rewrite Hn. cbn [fy]. rewrite fold_matchColumn_fy. cbn [fy].
  pose proof (turn_falsy (columns schema) None eq_refl) as Hloop.
  fold named.
  change (filter (is_type TNumber) (columns schema))
    with (filter InsightGenerator.is_number (columns schema)).
  destruct (find _ (columns schema)) as [c |] eqn:Hfind.
  - rewrite Hloop. apply find_some in Hfind as [_ Hc].
    apply andb_true_iff in Hc as [_ Hname].
    simpl. rewrite Hname. reflexivity.
  - destruct Hloop as [Ht Hy]. rewrite Ht. simpl.
    rewrite <- (head_filter InsightGenerator.is_number (columns schema)).
    destruct (filter InsightGenerator.is_number (columns schema))
      as [| n ns] eqn:Hnum; simpl; [| reflexivity].
    destruct Hy as [-> | (c & Hin & Hc)]; [reflexivity |].
    assert (Hc' : In c (filter InsightGenerator.is_number (columns schema)))
      by (apply filter_In; auto).
    rewrite Hnum in Hc'. destruct Hc'.
Qed.
End FieldMatches.

Section IntentDefault.
Import PromptParser Spec.

Variable toLowerCase : string -> string.

Lemma findChartType_keyword_free text :
  keyword_free (normalizeText toLowerCase text) ->
  findChartType toLowerCase text = None.
Proof.
  intros Hfree. unfold findChartType.
  assert (Hk : find (fun keyword =>
                 JS.includes (normalizeText toLowerCase text) keyword)
                 sortedKeywords = None).
  { apply find_none_iff. intros k Hin. apply Hfree.
    apply in_app_iff. left. unfold sortedKeywords in Hin.
    apply sort_In in Hin. exact Hin. }
  rewrite Hk.
  assert (Ht : existsb (fun k =>
                 JS.includes (normalizeText toLowerCase text) k)
                 TIME_KEYWORDS = false).
  { apply not_true_is_false. intros Hex.
    apply existsb_exists in Hex as (k & Hin & Hk').
    rewrite Hfree in Hk'; [discriminate |].
    apply in_app_iff. right. exact Hin. }
  rewrite Ht. reflexivity.
Qed.

(** C7, as the code has it.  For every schema, a prompt whose normalized
    text has no chart-type keyword and no time keyword is parsed to the
    chart type [bar].  Its [yField] is the first numeric column that the
    text names (by its lower-cased, non-empty name) when there is one;
    otherwise it is the first numeric column of the schema, and unset when
    the schema has no numeric column. *)
Theorem parsePrompt_keyword_free prompt schema :
  keyword_free (normalizeText toLowerCase prompt) ->
  chartType (parsePrompt toLowerCase prompt schema) = Some Bar
  /\ yField (parsePrompt toLowerCase prompt schema)
     = match firstNamedNumeric toLowerCase
               (normalizeText toLowerCase prompt) schema with
       | Some c => Some (name c)
       | None => option_map name (firstNumeric schema)
       end.
Proof.
  intros Hfree. unfold parsePrompt; simpl.
  rewrite (findChartType_keyword_free _ Hfree).
  split; [reflexivity |].
  apply findFieldMatches_y. reflexivity.
Qed.

(** The empty prompt is keyword-free when lower-casing keeps it empty. *)
Lemma empty_prompt_keyword_free :
  toLowerCase "" = "" -> keyword_free (normalizeText toLowerCase "").
Proof.
  intros Hl k Hin. unfold normalizeText. rewrite Hl.
  change (JS.trim (JS.collapse_white (JS.replace_chars punctuation " " "")))
    with "".
  simpl in Hin.
  repeat (destruct Hin as [<- | Hin]; [reflexivity |]). destruct Hin.
Qed.

(** The parser reads the prompt and the column names through the
    lower-casing function only. *)
Lemma parsePrompt_ext (lower : string -> string) prompt schema :
  toLowerCase prompt = lower prompt ->
  (forall c, In c (columns schema) -> toLowerCase (name c) = lower (name c)) ->
  parsePrompt toLowerCase prompt schema = parsePrompt lower prompt schema.
Proof.
  intros Hp Hc.
  assert (Hn : normalizeText toLowerCase prompt = normalizeText lower prompt)
    by (unfold normalizeText; rewrite Hp; reflexivity).
  unfold parsePrompt, findChartType, findAggregation, findFieldMatches.
  rewrite Hn.
  assert (Hfold : forall l r,
            (forall c, In c l -> toLowerCase (name c) = lower (name c)) ->
            fold_left (matchColumn toLowerCase (normalizeText lower prompt)) l r
            = fold_left (matchColumn lower (normalizeText lower prompt)) l r).
  { induction l as [| c l IH]; intros r Hl; simpl; [reflexivity |].
    unfold matchColumn at 2 4. rewrite (Hl c (or_introl eq_refl)).
    apply IH. intros c' Hin. apply Hl. right. exact Hin. }
  rewrite (Hfold _ _ Hc). reflexivity.
Qed.

(** C10.  The parser does not keep [xField] and [colorField] apart: for
    the schema with the columns Sales (number) and Category (string) and
    the prompt "Show sales by category as a bar chart", both are bound to
    Category (and the chart type is [bar], [yField] is Sales), for any
    lower-casing that does to ASCII text what [toLowerCase] does. *)
Theorem parsePrompt_x_equals_color :
  ascii_compatible toLowerCase ->
  let i := parsePrompt toLowerCase "Show sales by category as a bar chart"
                       Examples.category_schema in
  xField i = Some "Category" /\ colorField i = Some "Category"
  /\ chartType i = Some Bar /\ yField i = Some "Sales".
Proof.
  intros Hascii i. subst i.
  rewrite (parsePrompt_ext JS.toLowerCase_ascii).
  - vm_compute. repeat split; reflexivity.
  - apply Hascii. reflexivity.
  - intros c [<- | [<- | []]]; apply Hascii; reflexivity.
Qed.
End IntentDefault.

(** ** The statements at concrete inputs *)

Section Scenarios.
Import Examples Spec.
Local Open Scope float_scope.



(** C3: a y hint that names the string column Region yields no insight,
    although the schema has the numeric column Sales, over which the
    insights are computed when no hint is given. *)
Lemma region_hint_yields_nothing :
  InsightGenerator.targetColumn region_schema (Some "Region") = None
  /\ InsightGenerator.generateInsights region_rows region_schema
       None (Some "Region") = Returned []
  /\ option_map name (firstNumeric region_schema) = Some "Sales"
  /\ exists out,
       InsightGenerator.generateInsights region_rows region_schema None None
       = Returned out
       /\ map itype out = [IMax; IMin; IDistribution].
Proof.
  split; [vm_compute; reflexivity |].
  split; [vm_compute; reflexivity |].
  split; [vm_compute; reflexivity |].
  eexists. split; vm_compute; reflexivity.
Qed.

(** C4: a schema with one numeric column and nothing else fails the gate
    of the bar chart. *)
Lemma gate_excludes_archetype_witness :
  In bar_info ChartRecommender.CHART_TYPES
  /\ gate_fails bar_info sales_schema
  /\ ChartRecommender.calculateSuitability bar_info
       (numericCount sales_schema) (categoricalCount sales_schema)
       (hasDatetime sales_schema) = 0%Z
  /\ ~ In Bar (map rtype (ChartRecommender.recommendCharts sales_rows sales_schema)).
Proof.
  assert (Hin : In bar_info ChartRecommender.CHART_TYPES)
    by (left; reflexivity).
  assert (Hgate : gate_fails bar_info sales_schema)
    by (right; left; reflexivity).
  split; [exact Hin | split; [exact Hgate |]].
  exact (gate_excludes_archetype sales_rows sales_schema bar_info Hin Hgate).
Defined.

(** C5: a chart type and an x field that is the empty string: both are
    present, and no specification is returned. *)
Lemma empty_x_field_yields_null :
  chartType (intent Bar (Some "") (Some "Sales") None) = Some Bar
  /\ xField (intent Bar (Some "") (Some "Sales") None) = Some ""
  /\ VegaSpecBuilder.buildSpecFromIntent sales_rows sales_schema
       (intent Bar (Some "") (Some "Sales") None) = None.
Proof. repeat split. Qed.

(** C6 on the round-trip scenario: the ties at 80 and at 70 stand in
    catalog order, and the heatmap, which needs two categorical columns,
    is left out. *)
Lemma monthly_recommendations :
  map (fun r => (rtype r, suitabilityScore r))
      (ChartRecommender.recommendCharts [] monthly_schema)
  = [ (Line, 90); (Bar, 85); (AreaStacked, 80); (Pie, 80);
      (BarHorizontal, 70); (Area, 70); (Boxplot, 70); (Donut, 70);
      (Histogram, 60) ]%Z.
Proof. vm_compute. reflexivity. Qed.

(** C7: the prompt "revenue" has no keyword of any of the four tables, and
    its [yField] is the second numeric column, Revenue, not the first,
    Sales. *)
Lemma revenue_prompt_binds_second_column :
  forallb
    (fun k => negb (JS.includes
                      (PromptParser.normalizeText JS.toLowerCase_ascii "revenue") k))
    (map fst PromptParser.CHART_TYPE_KEYWORDS ++ PromptParser.TIME_KEYWORDS
     ++ map fst PromptParser.ACTION_KEYWORDS
     ++ map fst PromptParser.AGGREGATION_KEYWORDS)%list
  = true
  /\ chartType (PromptParser.parsePrompt JS.toLowerCase_ascii "revenue"
                  revenue_schema) = Some Bar
  /\ yField (PromptParser.parsePrompt JS.toLowerCase_ascii "revenue"
               revenue_schema) = Some "Revenue"
  /\ option_map name (firstNumeric revenue_schema) = Some "Sales".
Proof. repeat split; vm_compute; reflexivity. Qed.

Lemma parsePrompt_keyword_free_witness :
  keyword_free (PromptParser.normalizeText JS.toLowerCase_ascii "")
  /\ chartType (PromptParser.parsePrompt JS.toLowerCase_ascii ""
                  category_schema) = Some Bar
  /\ yField (PromptParser.parsePrompt JS.toLowerCase_ascii ""
               category_schema) = Some "Sales".
Proof.
  assert (Hfree : keyword_free
                    (PromptParser.normalizeText JS.toLowerCase_ascii ""))
    by (apply empty_prompt_keyword_free; reflexivity).
  split; [exact Hfree |].
  exact (parsePrompt_keyword_free JS.toLowerCase_ascii "" category_schema
           Hfree).
Defined.


(** The same with a keyword for the plain bar chart: "çubuk grafik" has
    twelve code units. *)
Lemma stacked_bar_shadowed_by_bar_keyword :
  PromptParser.findChartType JS.toLowerCase_ascii "stacked bar çubuk grafik"
  = Some Bar.
Proof. vm_compute. reflexivity. Qed.

Lemma stacked_bar_found :
  PromptParser.findChartType JS.toLowerCase_ascii
    "Draw a Stacked Bar of sales, please!" = Some BarStacked.
Proof. vm_compute. reflexivity. Qed.

(** C9: a bubble intent without a size field: the size channel is there,
    bound to the y field. *)
Lemma bubble_size_falls_back_to_y :
  sizeField (intent Bubble (Some "Price") (Some "Quantity") None) = None
  /\ option_map
       (fun spec =>
          match encoding spec with
          | Some enc => channel enc "size"
          | None => None
          end)
       (VegaSpecBuilder.buildSpecFromIntent sales_rows sales_schema
          (intent Bubble (Some "Price") (Some "Quantity") None))
     = Some (Some (JObj [ ("field", JStr "Quantity");
                          ("type", JStr "quantitative") ])).
Proof. split; reflexivity. Qed.

Lemma point_family_size_channel_witness :
  VegaSpecBuilder.buildSpecFromIntent sales_rows sales_schema
    (intent Scatter (Some "Price") (Some "Quantity") None)
  = Some (VegaSpecBuilder.buildScatterSpec sales_rows "Price" "Quantity"
            None None)
  /\ has_channel
       (VegaSpecBuilder.buildScatterSpec sales_rows "Price" "Quantity"
          None None) "size" = false.
Proof.
  split; [reflexivity |].
  exact (proj1 (point_family_size_channel sales_rows sales_schema
                  (intent Scatter (Some "Price") (Some "Quantity") None)
                  _ eq_refl) eq_refl).
Defined.

(** C10 at the ASCII lower-casing. *)
Lemma parsePrompt_x_equals_color_witness :
  ascii_compatible JS.toLowerCase_ascii
  /\ xField (PromptParser.parsePrompt JS.toLowerCase_ascii
               "Show sales by category as a bar chart" category_schema)
     = Some "Category"
  /\ colorField (PromptParser.parsePrompt JS.toLowerCase_ascii
                   "Show sales by category as a bar chart" category_schema)
     = Some "Category".
Proof.
  assert (Hascii : ascii_compatible JS.toLowerCase_ascii)
    by (intros s _; reflexivity).
  split; [exact Hascii |].
  pose proof (parsePrompt_x_equals_color JS.toLowerCase_ascii Hascii)
    as (Hx & Hc & _).
  split; [exact Hx | exact Hc].
Defined.
End Scenarios.

(** ** The schema inferencer: the rules one by one *)

Section ListFilter.
Context {A : Type} (f : A -> bool).

Lemma filter_all (l : list A) :
  (forall a, In a l -> f a = true) -> filter f l = l.
Proof.
  induction l as [| a l IH]; intros H; simpl; [reflexivity |].
  rewrite (H a (or_introl eq_refl)). f_equal. apply IH.
  intros b Hb. apply H. right. exact Hb.
Qed.

Lemma filter_none (l : list A) :
  (forall a, In a l -> f a = false) <-> filter f l = [].
Proof.
  induction l as [| a l IH]; simpl; [tauto |].
  destruct (f a) eqn:Ha; split.
  - intros H. rewrite (H a (or_introl eq_refl)) in Ha. discriminate.
  - discriminate.
  - intros H. apply IH. intros b Hb. apply H. right. exact Hb.
  - intros H b [<- | Hb]; [exact Ha | apply IH; assumption].
Qed.

Lemma filter_length (l : list A) :
  (List.length (filter f l) <= List.length l)%nat.
Proof.
  induction l as [| a l IH]; simpl; [lia |]. destruct (f a); simpl; lia.
Qed.

Lemma filter_length_all (l : list A) :
  List.length (filter f l) = List.length l <-> forall a, In a l -> f a = true.
Proof.
  induction l as [| a l IH]; simpl; [tauto |].
  pose proof (filter_length l) as Hle.
  destruct (f a) eqn:Ha; simpl; split.
  - intros H b [<- | Hb]; [exact Ha | apply IH; [lia | exact Hb]].
  - intros H. f_equal. apply IH. intros b Hb. apply H. right. exact Hb.
  - intros H. lia.
  - intros H. rewrite (H a (or_introl eq_refl)) in Ha. discriminate.
Qed.

Lemma filter_idem (l : list A) : filter f (filter f l) = filter f l.
Proof.
  apply filter_all. intros a Ha. apply filter_In in Ha. tauto.
Qed.

Lemma filter_split_length (l : list A) :
  (List.length (filter f l) + List.length (filter (fun a => negb (f a)) l)
   = List.length l)%nat.
Proof.
  induction l as [| a l IH]; simpl; [reflexivity |].
  destruct (f a); simpl; lia.
Qed.
End ListFilter.

(** Case analysis on a character known to be a digit. *)
Ltac by_digit H :=
  apply digit_cases in H; simpl in H;
  repeat (destruct H as [<- | H]; [try reflexivity |]); try destruct H.

Section InferencerRules.
Import DataAnalyzer.

Variable Date_parse : string -> JS.num.

(** The first rule: [unknown] is the type of the column without non-null
    values, and of no other. *)
Lemma inferColumnType_unknown_nonNull (values : list value) :
  inferColumnType Date_parse values = TUnknown
  <-> filter (fun v => negb (is_null v)) values = [].
Proof.
  unfold inferColumnType.
  destruct (filter (fun v => negb (is_null v)) values) as [| v vs].
  - simpl. tauto.
  - change (List.length (v :: vs) =? 0)%nat with false. cbv iota.
    split; [| discriminate].
    destruct (_ && _); [discriminate |].
    destruct (_ =? _)%nat; [discriminate |].
    destruct (PrimFloat.ltb _ _); discriminate.
Qed.

(** X1.  A column is inferred as [unknown] exactly when it has no value
    other than [null], [undefined] and the empty string; this covers the
    column without any row. *)
Theorem inferColumnType_unknown_iff (values : list value) :
  inferColumnType Date_parse values = TUnknown
  <-> forall v, In v values -> is_null v = true.
Proof.
  rewrite inferColumnType_unknown_nonNull, <- filter_none.
  split; intros H v Hv; apply negb_false_iff, H, Hv.
Qed.

(** X2.  Cells that are [null], [undefined] or the empty string never
    change the inferred type: a column has the type of its non-null
    values. *)
Theorem inferColumnType_ignores_nulls (values : list value) :
  inferColumnType Date_parse values
  = inferColumnType Date_parse (filter (fun v => negb (is_null v)) values).
Proof.
  unfold inferColumnType. rewrite filter_idem. reflexivity.
Qed.

(** X3.  The boolean rule comes first: a column is inferred as [boolean]
    exactly when it has a non-null value and each of its non-null values is
    a boolean or one of the tokens "true", "false", "True", "False", "0"
    and "1"; so a column of the numerals "0" and "1" is [boolean], not
    [number]. *)
Theorem inferColumnType_boolean_iff (values : list value) :
  inferColumnType Date_parse values = TBoolean
  <-> (exists v, In v values /\ is_null v = false)
      /\ (forall v, In v values -> is_null v = false ->
                    is_boolean_like v = true).
Proof.
  unfold inferColumnType.
  set (nonNull := filter (fun v => negb (is_null v)) values).
  assert (Hin : forall v, In v nonNull <-> In v values /\ is_null v = false).
  { intros v. unfold nonNull. rewrite filter_In, negb_true_iff. tauto. }
  assert (Hall : List.length (filter is_boolean_like nonNull)
                 = List.length nonNull
                 <-> forall v, In v values -> is_null v = false ->
                               is_boolean_like v = true).
  { rewrite filter_length_all. split; intros H v.
    - intros Hv Hnn. apply H, Hin. tauto.
    - intros Hv. apply Hin in Hv. apply H; tauto. }
  destruct nonNull as [| v vs] eqn:Hn.
  - simpl. split; [discriminate |]. intros [(v & Hv) _].
    apply Hin in Hv. destruct Hv.
  - change (List.length (v :: vs) =? 0)%nat with false. cbv iota.
    change (0 <? List.length (v :: vs))%nat with true. rewrite andb_true_r.
    destruct (Nat.eqb_spec (List.length (filter is_boolean_like (v :: vs)))
                (List.length (v :: vs))) as [He | Hne].
    + split; [| reflexivity]. intros _. split; [| apply Hall; exact He].
      exists v. apply Hin. left. reflexivity.
    + split.
      * destruct (_ =? _)%nat; [discriminate |].
        destruct (PrimFloat.ltb _ _); discriminate.
      * intros [_ H]. apply Hall in H. contradiction.
Qed.

Lemma date_pattern_digits (s : string) :
  existsb (fun p => test p s) datePatterns = true ->
  exists c1 c2 r,
    s = String c1 (String c2 r)
    /\ JS.is_digit c1 = true /\ JS.is_digit c2 = true.
Proof.
  destruct s as [| c1 [| c2 r]]; simpl.
  - discriminate.
  - destruct (JS.is_digit c1); discriminate.
  - intros H. exists c1, c2, r. split; [reflexivity |].
    destruct (JS.is_digit c1); [| discriminate H].
    destruct (JS.is_digit c2); [| discriminate H]. auto.
Qed.

Lemma digit_start_numeric (c : ascii) (r : string) :
  JS.is_digit c = true -> is_numeric_like (VStr (String c r)) = true.
Proof.
  intros H. unfold is_numeric_like. cbn [JS.replace_chars].
  rewrite (not_comma_digit c H), (parseFloat_digit c _ H). reflexivity.
Qed.

Lemma two_digits_not_boolean (c1 c2 : ascii) (r : string) :
  JS.is_digit c1 = true ->
  is_boolean_like (VStr (String c1 (String c2 r))) = false.
Proof. intros H. by_digit H. Qed.

(** X4.  The numeric rule comes before the date rule and reads a numeric
    prefix: a column whose values are all strings that match one of the four
    date patterns (ISO, US, EU, Japan) is inferred as [number], whatever
    [Date.parse] does. *)
Theorem date_pattern_column_is_number (values : list value) :
  values <> [] ->
  (forall v, In v values ->
     exists s, v = VStr s
               /\ existsb (fun p => test p s) datePatterns = true) ->
  inferColumnType Date_parse values = TNumber.
Proof.
  intros Hne Hall.
  assert (Hshape : forall v, In v values ->
            is_null v = false /\ is_boolean_like v = false
            /\ is_numeric_like v = true).
  { intros v Hv. destruct (Hall v Hv) as (s & -> & Hs).
    apply date_pattern_digits in Hs as (c1 & c2 & r & -> & H1 & H2).
    split; [reflexivity |]. split.
    - apply two_digits_not_boolean. exact H1.
    - apply digit_start_numeric. exact H1. }
  unfold inferColumnType.
  rewrite (filter_all (fun v => negb (is_null v)) values)
    by (intros v Hv; destruct (Hshape v Hv) as (-> & _); reflexivity).
  assert (Hb : filter is_boolean_like values = [])
    by (apply filter_none; intros v Hv; apply Hshape; exact Hv).
  rewrite Hb.
  rewrite (filter_all is_numeric_like values)
    by (intros v Hv; apply Hshape; exact Hv).
  destruct values as [| v vs]; [contradiction |].
  simpl. rewrite Nat.eqb_refl. reflexivity.
Qed.
End InferencerRules.

(** ** The column and dataset analysis *)

Section Analysis.
Import DataAnalyzer DatasetAnalyzer.

Variable Date_parse : string -> JS.num.

Lemma set_add_length (seen : list value) (v : value) :
  (List.length seen <= List.length (set_add seen v) <= S (List.length seen))%nat.
Proof.
  unfold set_add. destruct (existsb _ seen); [lia |].
  rewrite length_app. simpl. lia.
Qed.

Lemma fold_set_add_length (l seen : list value) :
  (List.length seen <= List.length (fold_left set_add l seen)
   <= List.length seen + List.length l)%nat.
Proof.
  revert seen. induction l as [| v l IH]; intros seen; simpl; [lia |].
  pose proof (IH (set_add seen v)). pose proof (set_add_length seen v). lia.
Qed.

(** A set has at most as many elements as were added, and is empty only
    when nothing was added. *)
Lemma set_of_length (l : list value) :
  (List.length (set_of l) <= List.length l)%nat
  /\ (List.length (set_of l) = 0%nat <-> l = []).
Proof.
  unfold set_of. pose proof (fold_set_add_length l []) as H. simpl in H.
  split; [lia |]. destruct l as [| v l]; simpl; [tauto |].
  split; [| discriminate]. intros H0.
  pose proof (fold_set_add_length l (set_add [] v)) as H1.
  unfold set_add in H1 at 1. simpl in H1. lia.
Qed.

Lemma analyzeColumn_counts_aux (name : string) (values : list value) :
  let c := analyzeColumn Date_parse name values in
  let n := Z.of_nat (List.length values) in
  0 <= nullCount c <= n /\ 0 <= uniqueCount c <= n - nullCount c.
Proof.
  intros c n. subst c n. unfold analyzeColumn. cbn [nullCount uniqueCount].
  pose proof (filter_split_length is_null values) as Hsplit.
  fold non_null in Hsplit.
  pose proof (set_of_length (filter non_null values)) as [Hle _].
  lia.
Qed.

(** X5.  The counts of an analysed column: the null count and the unique
    count are within the number of rows and do not overlap, there are at
    most five samples and no more than unique values, and the type is
    [unknown] exactly when every row is null, which is when there is no
    unique value. *)
Theorem analyzeColumn_counts (name : string) (values : list value) :
  let c := analyzeColumn Date_parse name values in
  let n := Z.of_nat (List.length values) in
  0 <= nullCount c <= n
  /\ 0 <= uniqueCount c <= n - nullCount c
  /\ (List.length (sampleValues c) <= 5)%nat
  /\ Z.of_nat (List.length (sampleValues c)) <= uniqueCount c
  /\ (type c = TUnknown <-> nullCount c = n)
  /\ (type c = TUnknown <-> uniqueCount c = 0).
Proof.
  intros c n. subst c n.
  destruct (analyzeColumn_counts_aux name values) as [Hnull Huniq].
  split; [exact Hnull |]. split; [exact Huniq |]. clear Hnull Huniq.
  unfold analyzeColumn. cbn [nullCount uniqueCount sampleValues type].
  pose proof (filter_split_length is_null values) as Hsplit.
  fold non_null in Hsplit.
  pose proof (set_of_length (filter non_null values)) as [Hle Hzero].
  rewrite length_map, length_firstn.
  rewrite inferColumnType_unknown_nonNull. fold non_null.
  assert (Hnil : filter non_null values = []
                 <-> List.length (filter non_null values) = 0%nat)
    by (destruct (filter non_null values); simpl; split; congruence).
  repeat split; try lia.
  - intros H. rewrite H in Hsplit. simpl in Hsplit. lia.
  - intros H. apply Hnil. lia.
  - intros H. apply Hzero in H. lia.
  - intros H. apply Hzero. lia.
Qed.

Lemma created_spec (row : Row) :
  forall seen,
    NoDup (created seen row)
    /\ forall k, In k (created seen row)
                 <-> In k (map fst row) /\ ~ In k seen.
Proof.
  induction row as [| [k v] row IH]; intros seen; simpl.
  - split; [constructor | tauto].
  - destruct (existsb (String.eqb k) seen) eqn:Hk.
    + destruct (IH seen) as [Hnd Hin]. split; [exact Hnd |].
      intros k'. rewrite Hin. split; [tauto |].
      intros [[<- | H] Hn]; [| tauto].
      exfalso. apply Hn. apply existsb_exists in Hk as (x & Hx & Heq).
      apply String.eqb_eq in Heq. subst. exact Hx.
    + destruct (IH (k :: seen)) as [Hnd Hin].
      assert (Hnot : ~ In k seen).
      { intros Hs. apply not_true_iff_false in Hk. apply Hk.
        apply existsb_exists. exists k. split; [exact Hs |].
        apply String.eqb_refl. }
      split.
      * constructor; [| exact Hnd]. rewrite Hin. simpl. tauto.
      * intros k'. simpl. rewrite Hin. simpl.
        destruct (string_dec k k') as [<- | Hne]; tauto.
Qed.

(** [Object.keys] lists every property of a row once. *)
Lemma keys_spec (row : Row) :
  NoDup (keys row) /\ forall k, In k (keys row) <-> In k (map fst row).
Proof.
  destruct (created_spec row []) as [Hnd Hin].
  assert (Hperm : Permutation (keys row) (created [] row)).
  { unfold keys.
    eapply perm_trans;
      [apply Permutation_app_tail, sort_perm |].
    clear. induction (created [] row) as [| k l IH]; simpl; [constructor |].
    destruct (is_index k); simpl.
    - apply perm_skip. exact IH.
    - eapply perm_trans; [apply Permutation_sym, Permutation_middle |].
      apply perm_skip. exact IH. }
  split.
  - apply (Permutation_NoDup (Permutation_sym Hperm)). exact Hnd.
  - intros k. split; intros H.
    + apply (Permutation_in _ Hperm) in H. apply Hin in H. tauto.
    + apply (Permutation_in _ (Permutation_sym Hperm)). apply Hin.
      simpl. tauto.
Qed.

(** X6.  The schema of a dataset: the row count is the number of rows; the
    columns are the properties of the first row, each once, so that column
    names are unique and a property that only later rows have is no column;
    the counts of every column are within the row count.  The dataset
    without rows has no column. *)
Theorem analyzeDataset_schema (data : list Row) (fileName : string)
    (fileType : FileType) :
  let schema := analyzeDataset Date_parse data fileName fileType in
  rowCount schema = Z.of_nat (List.length data)
  /\ map name (columns schema)
     = match data with [] => [] | first :: _ => keys first end
  /\ NoDup (map name (columns schema))
  /\ (forall k, In k (map name (columns schema))
                <-> exists first rest, data = first :: rest
                                       /\ In k (map fst first))
  /\ (forall c, In c (columns schema) ->
        0 <= nullCount c <= rowCount schema
        /\ 0 <= uniqueCount c <= rowCount schema - nullCount c).
Proof.
  intros schema. subst schema. unfold analyzeDataset.
  destruct data as [| first rest].
  - simpl. split; [reflexivity |]. split; [reflexivity |].
    split; [constructor |]. split; [| intros c []].
    intros k. split; [intros [] | intros (f & r & He & _); discriminate].
  - cbn [rowCount columns]. rewrite map_map.
    assert (Hnames : map (fun x => name (analyzeColumn Date_parse x
                            (map (fun row => get row x) (first :: rest))))
                         (keys first) = keys first)
      by (rewrite <- (map_id (keys first)) at 2; apply map_ext; reflexivity).
    rewrite Hnames. destruct (keys_spec first) as [Hnd Hin].
    split; [reflexivity |]. split; [reflexivity |]. split; [exact Hnd |].
    split.
    + intros k. rewrite Hin. split.
      * intros H. exists first, rest. auto.
      * intros (f & r & [= <- <-] & H). exact H.
    + intros c Hc. apply in_map_iff in Hc as (k & <- & _).
      pose proof (analyzeColumn_counts_aux k
                    (map (fun row => get row k) (first :: rest))) as H.
      rewrite length_map in H. exact H.
Qed.
End Analysis.

(** ** The scorer and the recommendations, beyond the gate *)

Section Scores.
Import ChartRecommender Spec Notions.

Lemma score_range (chartInfo : ChartTypeInfo) (n c : Z) (h : bool) :
  if gate_closed chartInfo n c h
  then calculateSuitability chartInfo n c h = 0
  else 50 <= calculateSuitability chartInfo n c h <= 100.
Proof.
  unfold gate_closed, calculateSuitability.
  destruct (n <? minNumeric (requirements chartInfo)); [reflexivity |].
  destruct (c <? minCategorical (requirements chartInfo)); [reflexivity |].
  destruct (needsDatetime (requirements chartInfo) && negb h); [reflexivity |].
  cbv zeta. simpl orb. cbv iota.
  repeat match goal with
         | |- context [if ?b then _ else _] => destruct b
         end; lia.
Qed.

(** X7.  The suitability score of any archetype, for any counts, is 0 when
    the gate is closed and lies between 50 and 100 otherwise: a score is
    never negative, never above 100, and never between 1 and 49. *)
Theorem calculateSuitability_range (chartInfo : ChartTypeInfo) (n c : Z)
    (h : bool) :
  0 <= calculateSuitability chartInfo n c h <= 100
  /\ (calculateSuitability chartInfo n c h = 0
      \/ 50 <= calculateSuitability chartInfo n c h)
  /\ (calculateSuitability chartInfo n c h = 0
      <-> n < minNumeric (requirements chartInfo)
          \/ c < minCategorical (requirements chartInfo)
          \/ (needsDatetime (requirements chartInfo) = true /\ h = false)).
Proof.
  pose proof (score_range chartInfo n c h) as H.
  assert (Hg : gate_closed chartInfo n c h = true
               <-> n < minNumeric (requirements chartInfo)
                   \/ c < minCategorical (requirements chartInfo)
                   \/ (needsDatetime (requirements chartInfo) = true
                       /\ h = false)).
  { unfold gate_closed.
    rewrite !orb_true_iff, andb_true_iff, negb_true_iff, !Z.ltb_lt. tauto. }
  destruct (gate_closed chartInfo n c h).
  - rewrite H. split; [lia |]. split; [left; reflexivity |].
    split; [intros _; apply Hg; reflexivity | reflexivity].
  - split; [lia |]. split; [right; lia |].
    split; [lia |]. intros Hc. apply Hg in Hc. discriminate.
Qed.
End Scores.

Section Recommendations.
Import ChartRecommender Spec Notions VegaSpecBuilder.

Lemma collect_nil {A B : Type} (f : A -> option B) (l : list A) :
  (forall a, In a l -> f a = None) -> collect f l = [].
Proof.
  induction l as [| a l IH]; intros H; simpl; [reflexivity |].
  rewrite (H a (or_introl eq_refl)). apply IH.
  intros b Hb. apply H. right. exact Hb.
Qed.

Lemma gate_fails_closed chartInfo schema :
  gate_fails chartInfo schema
  <-> gate_closed chartInfo (numericCount schema) (categoricalCount schema)
        (hasDatetime schema) = true.
Proof.
  unfold gate_fails, gate_closed.
  rewrite !orb_true_iff, andb_true_iff, negb_true_iff, !Z.ltb_lt. tauto.
Qed.

(** Every archetype of the catalog needs a numeric column. *)
Lemma catalog_needs_numeric chartInfo :
  In chartInfo CHART_TYPES -> 1 <= minNumeric (requirements chartInfo).
Proof.
  unfold CHART_TYPES. simpl.
  intros H. repeat (destruct H as [<- | H]; [simpl; lia |]). destruct H.
Qed.

Lemma compile_complete chartInfo data numeric enc spec :
  compile chartInfo data numeric enc = Some spec ->
  complete spec /\ data_values spec = data.
Proof.
  unfold compile. destruct (ctype chartInfo);
    try discriminate;
    try (intros [= <-];
         first [ apply buildBarSpec_complete
               | split; [apply view_complete | reflexivity] ]).
  destruct (2 <=? List.length numeric)%nat; [| discriminate].
  destruct (nth_error numeric 1); [| discriminate].
  intros [= <-]. split; [apply buildComboSpec_complete | reflexivity].
Qed.

Lemma compile_Some chartInfo data numeric enc :
  In chartInfo CHART_TYPES ->
  minNumeric (requirements chartInfo) <= Z.of_nat (List.length numeric) ->
  exists spec, compile chartInfo data numeric enc = Some spec.
Proof.
  unfold CHART_TYPES. simpl. intros H Hn.
  repeat (destruct H as [<- | H]; [unfold compile; simpl; eauto |]);
    [| destruct H].
  simpl in Hn. destruct numeric as [| a [| b numeric]]; simpl in *; try lia.
  eauto.
Qed.

(** All that a pushed recommendation is made of. *)
Lemma recommend_inv data schema chartInfo r :
  recommend data schema chartInfo = Some r ->
  exists spec,
    compile chartInfo data (filter is_numeric (columns schema))
      (suggestedEncodings r) = Some spec
    /\ r = mkRec (ctype chartInfo)
             (generateChartTitle chartInfo (suggestedEncodings r) schema)
             (cdescription chartInfo) (ccategory chartInfo)
             (calculateSuitability chartInfo (numericCount schema)
                (categoricalCount schema) (hasDatetime schema))
             (suggest chartInfo (filter is_numeric (columns schema))
                (filter is_categorical (columns schema))
                (filter is_datetime (columns schema)))
             spec
    /\ gate_closed chartInfo (numericCount schema) (categoricalCount schema)
         (hasDatetime schema) = false.
Proof.
  unfold recommend, getColumnsByType.
  fold (numericCount schema) (categoricalCount schema) (hasDatetime schema).
  pose proof (score_range chartInfo (numericCount schema)
                (categoricalCount schema) (hasDatetime schema)) as Hs.
  destruct (gate_closed _ _ _ _).
  - rewrite Hs. simpl. discriminate.
  - destruct (0 <? _); [| discriminate].
    destruct (compile _ _ _ _) as [spec |] eqn:Hc; [| discriminate].
    intros [= <-]. exists spec. simpl. auto.
Qed.

Lemma recommend_open data schema chartInfo :
  In chartInfo CHART_TYPES ->
  gate_closed chartInfo (numericCount schema) (categoricalCount schema)
    (hasDatetime schema) = false ->
  exists r, recommend data schema chartInfo = Some r.
Proof.
  intros Hin Hg. unfold recommend, getColumnsByType.
  fold (numericCount schema) (categoricalCount schema) (hasDatetime schema).
  pose proof (score_range chartInfo (numericCount schema)
                (categoricalCount schema) (hasDatetime schema)) as Hs.
  rewrite Hg in Hs.
  destruct (Z.ltb_spec 0 (calculateSuitability chartInfo (numericCount schema)
              (categoricalCount schema) (hasDatetime schema))); [| lia].
  destruct (compile_Some chartInfo data (filter is_numeric (columns schema))
              (suggest chartInfo (filter is_numeric (columns schema))
                 (filter is_categorical (columns schema))
                 (filter is_datetime (columns schema))) Hin) as (spec & ->).
  - unfold gate_closed in Hg. apply orb_false_iff in Hg as [Hg _].
    apply orb_false_iff in Hg as [Hg _]. apply Z.ltb_ge in Hg. exact Hg.
  - eauto.
Qed.

Lemma recommended_In data schema r :
  In r (recommendCharts data schema)
  <-> exists chartInfo, In chartInfo CHART_TYPES
                        /\ recommend data schema chartInfo = Some r.
Proof.
  unfold recommendCharts. rewrite sort_In. apply collect_In.
Qed.

(** X8.  The gate is the only filter: every archetype of the catalog whose
    requirements the schema meets is recommended, with the score
    [calculateSuitability] gives it, which is at least 50; the check that a
    specification was built never drops one. *)
Theorem open_gate_is_recommended data schema chartInfo :
  In chartInfo CHART_TYPES ->
  ~ gate_fails chartInfo schema ->
  exists r,
    In r (recommendCharts data schema)
    /\ rtype r = ctype chartInfo
    /\ suitabilityScore r
       = calculateSuitability chartInfo (numericCount schema)
           (categoricalCount schema) (hasDatetime schema)
    /\ 50 <= suitabilityScore r.
Proof.
  intros Hin Hgate.
  assert (Hg : gate_closed chartInfo (numericCount schema)
                 (categoricalCount schema) (hasDatetime schema) = false)
    by (apply not_true_iff_false; rewrite <- gate_fails_closed; exact Hgate).
  destruct (recommend_open data schema chartInfo Hin Hg) as (r & Hr).
  exists r. split; [apply recommended_In; eauto |].
  destruct (recommend_inv _ _ _ _ Hr) as (spec & _ & -> & _). simpl.
  pose proof (score_range chartInfo (numericCount schema)
                (categoricalCount schema) (hasDatetime schema)) as Hs.
  rewrite Hg in Hs. repeat split; lia.
Qed.

Lemma increasing_NoDup {A B : Type} (f : A -> B) (idx : B -> nat) (l : list A) :
  StronglySorted (fun a b => (idx (f a) < idx (f b))%nat) l ->
  NoDup (map f l).
Proof.
  induction 1 as [| a l _ IH Ha]; simpl; constructor; [| exact IH].
  rewrite in_map_iff. intros (a' & Heq & Hin).
  rewrite Forall_forall in Ha. specialize (Ha a' Hin).
  rewrite Heq in Ha. lia.
Qed.

(** X9.  What every recommendation list satisfies: each entry is of a type
    of the catalog, no type occurs twice (so there are at most 14 entries),
    each score lies between 50 and 100, and each entry carries a complete
    specification that holds the rows of the dataset inline. *)
Theorem recommendCharts_well_formed data schema :
  NoDup (map rtype (recommendCharts data schema))
  /\ (List.length (recommendCharts data schema) <= 14)%nat
  /\ forall r, In r (recommendCharts data schema) ->
       In (rtype r) (map ctype CHART_TYPES)
       /\ 50 <= suitabilityScore r <= 100
       /\ complete (vegaLiteSpec r)
       /\ data_values (vegaLiteSpec r) = data.
Proof.
  assert (Hperm : Permutation (recommendCharts data schema)
                    (collect (recommend data schema) CHART_TYPES))
    by apply sort_perm.
  assert (Hsorted : StronglySorted
            (fun a b => (catalogIndex (rtype a) < catalogIndex (rtype b))%nat)
            (collect (recommend data schema) CHART_TYPES)).
  { apply (collect_sorted _ (fun i => catalogIndex (ctype i))
             (fun r => catalogIndex (rtype r))).
    - intros a b Hab. apply recommend_Some in Hab as (-> & _). reflexivity.
    - apply catalog_increasing. }
  assert (Hnd : NoDup (map rtype (collect (recommend data schema) CHART_TYPES)))
    by (apply (increasing_NoDup rtype catalogIndex); exact Hsorted).
  assert (Hlen : forall (l : list ChartTypeInfo),
            (List.length (collect (recommend data schema) l)
             <= List.length l)%nat).
  { induction l as [| a l IH]; simpl; [lia |].
    destruct (recommend data schema a); simpl; lia. }
  split; [| split].
  - apply (Permutation_NoDup (Permutation_map rtype (Permutation_sym Hperm))).
    exact Hnd.
  - rewrite (Permutation_length Hperm). apply (Hlen CHART_TYPES).
  - intros r Hr. apply recommended_In in Hr as (info & Hin & Hrec).
    destruct (recommend_inv _ _ _ _ Hrec) as (spec & Hc & -> & Hg).
    cbn [rtype suitabilityScore vegaLiteSpec].
    pose proof (score_range info (numericCount schema)
                  (categoricalCount schema) (hasDatetime schema)) as Hs.
    rewrite Hg in Hs.
    split; [apply in_map; exact Hin |]. split; [exact Hs |].
    cbn [suggestedEncodings] in Hc. apply (compile_complete _ _ _ _ _ Hc).
Qed.

Lemma no_numeric_count schema :
  (forall c, In c (columns schema) -> type c <> TNumber) ->
  numericCount schema = 0.
Proof.
  intros H. unfold numericCount.
  assert (Hf : filter is_numeric (columns schema) = []).
  { apply filter_none. intros c Hc. specialize (H c Hc).
    unfold is_numeric. destruct (type c); try reflexivity. contradiction. }
  rewrite Hf. reflexivity.
Qed.

(** X10.  A schema without a numeric column has no recommendation at all,
    whatever else it holds: every archetype of the catalog needs at least
    one numeric column.  This covers the schema without columns. *)
Theorem no_numeric_no_recommendation data schema :
  (forall c, In c (columns schema) -> type c <> TNumber) ->
  recommendCharts data schema = [].
Proof.
  intros H. apply no_numeric_count in H. unfold recommendCharts.
  rewrite collect_nil; [reflexivity |].
  intros info Hin. destruct (recommend data schema info) as [r |] eqn:Hr;
    [| reflexivity].
  destruct (recommend_inv _ _ _ _ Hr) as (_ & _ & _ & Hg).
  pose proof (catalog_needs_numeric info Hin) as Hmin.
  unfold gate_closed in Hg. rewrite H in Hg.
  destruct (Z.ltb_spec 0 (minNumeric (requirements info))); [| lia].
  discriminate.
Qed.

Lemma nth_error_0_find {A : Type} (f : A -> bool) (l : list A) :
  nth_error (filter f l) 0 = find f l.
Proof.
  induction l as [| a l IH]; simpl; [reflexivity |].
  destruct (f a); simpl; auto.
Qed.

(** The y binding of a recommendation is the first numeric column. *)
Lemma recommended_y data schema r :
  In r (recommendCharts data schema) ->
  exists c, firstNumeric schema = Some c
            /\ enc_y (suggestedEncodings r) = Some (name c).
Proof.
  intros Hr. apply recommended_In in Hr as (info & Hin & Hrec).
  destruct (recommend_inv _ _ _ _ Hrec) as (spec & _ & -> & Hg). simpl.
  pose proof (catalog_needs_numeric info Hin) as Hmin.
  unfold gate_closed in Hg. apply orb_false_iff in Hg as [Hg _].
  apply orb_false_iff in Hg as [Hg _]. apply Z.ltb_ge in Hg.
  unfold numericCount in Hg. unfold firstNumeric, name_at.
  change InsightGenerator.is_number with is_numeric.
  rewrite <- nth_error_0_find.
  destruct (filter is_numeric (columns schema)) as [| c l]; simpl in *; [lia |].
  exists c. auto.
Qed.

(** X11.  The bindings of every recommendation: y is the first numeric
    column of the schema; x is never unset, and for the archetypes that need
    a temporal column (line, area, stacked area) it is the first datetime
    column; a size binding occurs only on scatter and bubble charts. *)
Theorem recommended_bindings data schema r :
  In r (recommendCharts data schema) ->
  enc_y (suggestedEncodings r) = option_map name (firstNumeric schema)
  /\ enc_y (suggestedEncodings r) <> None
  /\ enc_x (suggestedEncodings r) <> None
  /\ (rtype r = Line \/ rtype r = Area \/ rtype r = AreaStacked ->
      enc_x (suggestedEncodings r)
      = option_map name (find is_datetime (columns schema))
      /\ find is_datetime (columns schema) <> None)
  /\ (enc_size (suggestedEncodings r) <> None ->
      rtype r = Scatter \/ rtype r = Bubble).
Proof.
  intros Hr. destruct (recommended_y data schema r Hr) as (c & Hc & Hy).
  rewrite Hy, Hc. split; [reflexivity |]. split; [discriminate |].
  apply recommended_In in Hr as (info & Hin & Hrec).
  destruct (recommend_inv _ _ _ _ Hrec) as (spec & _ & -> & Hg).
  cbn [suggestedEncodings rtype enc_x enc_size suggest].
  assert (Hnum : exists n ns, filter is_numeric (columns schema) = n :: ns).
  { unfold firstNumeric in Hc. change InsightGenerator.is_number with is_numeric in Hc.
    rewrite <- nth_error_0_find in Hc.
    destruct (filter is_numeric (columns schema)); [discriminate | eauto]. }
  destruct Hnum as (n & ns & Hnum).
  unfold gate_closed in Hg. apply orb_false_iff in Hg as [_ Hd].
  unfold hasDatetime in Hd. rewrite <- nth_error_0_find.
  split; [| split].
  - rewrite Hnum. unfold name_at.
    destruct (needsDatetime (requirements info)); simpl in *.
    + destruct (filter is_datetime (columns schema)); simpl in *;
        [discriminate | discriminate].
    + destruct (filter is_categorical (columns schema)); simpl; discriminate.
  - intros Hty.
    assert (Hneeds : needsDatetime (requirements info) = true).
    { revert Hty. unfold CHART_TYPES in Hin. simpl in Hin.
      repeat (destruct Hin as [<- | Hin];
              [simpl; intros [H | [H | H]]; try discriminate H; reflexivity |]).
      destruct Hin. }
    rewrite Hneeds in *. simpl in Hd. apply negb_false_iff in Hd. rewrite Hd.
    simpl. unfold name_at.
    destruct (filter is_datetime (columns schema)); simpl in *;
      [discriminate | split; [reflexivity | discriminate]].
  - destruct ((2 <? _)%nat && _) eqn:Hsz; [| intros H; contradiction H; reflexivity].
    intros _. apply andb_true_iff in Hsz as [_ Hsz].
    apply orb_true_iff in Hsz. unfold is_type, ChartType_eqb in Hsz.
    destruct Hsz as [Hsz | Hsz];
      destruct (ChartType_eq_dec (ctype info) _) as [-> |]; try discriminate;
      auto.
Qed.
End Recommendations.

(** ** The builders: stacking, colour and the axis roles *)

Section Builders.
Import VegaSpecBuilder Spec Notions.

(** X12.  The bar builder sets normalized stacking on the measure axis (y,
    or x for the horizontal variant) exactly when the stacked variant is
    asked for and a non-empty color field is given: without a color field a
    stacked bar chart is the plain bar chart. *)
Theorem buildBarSpec_stacking data x y color horizontal stacked :
  prop_of (channel_of (buildBarSpec data x y color horizontal stacked)
             (if horizontal then "x" else "y")) "stack"
  = (if stacked && JS.truthy color then Some (JStr "normalize") else None)
  /\ (JS.truthy color = false ->
      buildBarSpec data x y color horizontal stacked
      = buildBarSpec data x y color horizontal false).
Proof.
  unfold buildBarSpec, add_color.
  destruct (JS.truthy color), stacked, horizontal; split;
    try reflexivity; discriminate.
Qed.

(** X13.  For the bar, line, area and point families (and the types that
    fall back to the bar builder) the compiled specification has a color
    channel exactly when the intent has a non-empty color field, and the
    channel is then bound to that field. *)
Theorem color_channel_follows_intent data schema intent spec :
  buildSpecFromIntent data schema intent = Some spec ->
  match chartType intent with
  | Some (Histogram | Boxplot | Heatmap | Pie | Donut | Combo) | None => True
  | Some _ =>
      has_channel spec "color" = JS.truthy (colorField intent)
      /\ field_of (channel_of spec "color")
         = (if JS.truthy (colorField intent) then colorField intent else None)
  end.
Proof.
  unfold buildSpecFromIntent.
  destruct (chartType intent) as [ct |]; [| discriminate].
  destruct (JS.truthy (xField intent)); [| discriminate]. simpl.
  intros [= <-].
  assert (Hor : forall o d, JS.truthy o = true -> Some (JS.or_str o d) = o).
  { intros [s |] d; simpl; [| discriminate].
    unfold JS.or_str, JS.or_else. simpl. intros ->. reflexivity. }
  destruct ct; try exact I;
    unfold buildBarSpec, buildLineSpec, buildAreaSpec, buildScatterSpec,
      add_color, has_channel, channel_of, field_of, view;
    destruct (JS.truthy (colorField intent)) eqn:Hc;
    repeat match goal with
           | |- context [JS.truthy ?o] => destruct (JS.truthy o)
           end;
    simpl; try rewrite (Hor _ _ Hc); split; reflexivity.
Qed.

(** X14.  The axis roles of the bar builder: the category field is on x and
    the measure on y, and the horizontal variant swaps them; the category
    axis is nominal, the measure axis quantitative and summed.  Besides the
    swap the horizontal variant sets the label angle of the category axis to
    0, where the vertical one has -45; the category axis keeps the sort
    order "-y" in both variants, and the data, the mark, the configuration
    and the size of the view do not depend on the variant. *)
Theorem buildBarSpec_axes data x y color horizontal stacked :
  let spec := buildBarSpec data x y color horizontal stacked in
  let other := buildBarSpec data x y color (negb horizontal) stacked in
  let category := channel_of spec (if horizontal then "y" else "x") in
  let measure := channel_of spec (if horizontal then "x" else "y") in
  field_of category = Some x
  /\ prop_of category "type" = Some (JStr "nominal")
  /\ field_of measure = Some y
  /\ prop_of measure "type" = Some (JStr "quantitative")
  /\ prop_of measure "aggregate" = Some (JStr "sum")
  /\ prop_of category "axis"
     = Some (JObj [("labelAngle",
                    JNum (if horizontal then 0%float else (-45)%float))])
  /\ prop_of category "sort" = Some (JStr "-y")
  /\ data_values spec = data_values other
  /\ mark spec = mark other
  /\ config spec = config other
  /\ width spec = width other
  /\ height spec = height other.
Proof.
  unfold buildBarSpec, add_color.
  destruct (JS.truthy color), stacked, horizontal; repeat split.
Qed.
End Builders.

(** ** The intent parser: what the fields can be *)

Section ParsedFields.
Import PromptParser Spec Notions.

Variable toLowerCase : string -> string.

Lemma is_type_eq t c : is_type t c = true -> type c = t.
Proof. unfold is_type. destruct (type c), t; simpl; congruence. Qed.

Lemma names_column_Some schema ts c :
  In c (columns schema) -> In (type c) ts ->
  names_column schema ts (Some (name c)).
Proof. intros Hc Ht n [= <-]. exists c. auto. Qed.

Lemma names_column_None schema ts : names_column schema ts None.
Proof. intros n H. discriminate. Qed.

Lemma matchColumn_typed schema normalized r c :
  In c (columns schema) -> well_typed schema r ->
  well_typed schema (matchColumn toLowerCase normalized r c).
Proof.
  intros Hc (Hx & Hy & Hk). unfold matchColumn.
  destruct (JS.includes _ _); [| repeat split; assumption].
  destruct (is_type TDatetime c) eqn:Hd.
  { apply is_type_eq in Hd. repeat split; cbn [fx fy fcolor]; try assumption.
    apply names_column_Some; [exact Hc | rewrite Hd; simpl; auto]. }
  destruct (is_type TNumber c && _) eqn:Hn.
  { apply andb_true_iff in Hn as [Hn _]. apply is_type_eq in Hn.
    repeat split; cbn [fx fy fcolor]; try assumption.
    apply names_column_Some; [exact Hc | rewrite Hn; simpl; auto]. }
  destruct (is_type TString c && _) eqn:Hs.
  { apply andb_true_iff in Hs as [Hs _]. apply is_type_eq in Hs.
    repeat split; cbn [fx fy fcolor]; try assumption.
    apply names_column_Some; [exact Hc | rewrite Hs; simpl; auto]. }
  repeat split; assumption.
Qed.

Lemma fold_matchColumn_typed schema normalized l r :
  (forall c, In c l -> In c (columns schema)) -> well_typed schema r ->
  well_typed schema (fold_left (matchColumn toLowerCase normalized) l r).
Proof.
  revert r. induction l as [| c l IH]; intros r Hl Hr; simpl; [exact Hr |].
  apply IH; [intros c' Hc'; apply Hl; right; exact Hc' |].
  apply matchColumn_typed; [apply Hl; left; reflexivity | exact Hr].
Qed.

Lemma first_of_type schema t :
  names_column schema [t]
    (option_map name (nth_error (filter (is_type t) (columns schema)) 0)).
Proof.
  destruct (nth_error _ 0) as [c |] eqn:Hc; simpl;
    [| apply names_column_None].
  apply nth_error_In, filter_In in Hc as [Hin Ht]. apply is_type_eq in Ht.
  apply names_column_Some; [exact Hin | rewrite Ht; simpl; auto].
Qed.

Lemma names_column_weaken schema ts ts' o :
  (forall t, In t ts -> In t ts') ->
  names_column schema ts o -> names_column schema ts' o.
Proof.
  intros Hsub H n Hn. destruct (H n Hn) as (c & ? & ? & ?). exists c. auto.
Qed.

Lemma findFieldMatches_typed text schema :
  well_typed schema (findFieldMatches toLowerCase text schema).
Proof.
  unfold findFieldMatches.
  pose proof (fold_matchColumn_typed schema (normalizeText toLowerCase text)
                (columns schema) (mkFields None None None)
                (fun c H => H)) as Hloop.
  destruct Hloop as (Hx & Hy & Hk);
    [repeat split; apply names_column_None |].
  repeat split; cbn [fx fy fcolor].
  - destruct (_ && _).
    + eapply names_column_weaken; [| apply first_of_type]. simpl. tauto.
    + destruct (_ && _); [| exact Hx].
      eapply names_column_weaken; [| apply first_of_type]. simpl. tauto.
  - destruct (_ && _); [apply first_of_type | exact Hy].
  - destruct (_ && _); [| exact Hk].
    destruct (find _ _) as [c |] eqn:Hc; simpl; [| apply names_column_None].
    apply find_some in Hc as [Hc _]. apply filter_In in Hc as [Hin Ht].
    apply is_type_eq in Ht.
    apply names_column_Some; [exact Hin | rewrite Ht; simpl; auto].
Qed.

(** X15.  The fields of a parsed intent are columns of the schema of the
    right kind: [yField], when set, names a numeric column; [xField] names a
    datetime or a string column, never a numeric one; [colorField] names a
    string column; the size field is never set. *)
Theorem parsePrompt_fields_are_columns prompt schema :
  let i := parsePrompt toLowerCase prompt schema in
  (forall n, xField i = Some n ->
     exists c, In c (columns schema) /\ name c = n
               /\ (type c = TDatetime \/ type c = TString))
  /\ (forall n, yField i = Some n ->
     exists c, In c (columns schema) /\ name c = n /\ type c = TNumber)
  /\ (forall n, colorField i = Some n ->
     exists c, In c (columns schema) /\ name c = n /\ type c = TString)
  /\ sizeField i = None.
Proof.
  intros i. subst i. unfold parsePrompt. cbn [xField yField colorField sizeField].
  destruct (findFieldMatches_typed prompt schema) as (Hx & Hy & Hk).
  repeat split.
  - intros n Hn. destruct (Hx n Hn) as (c & Hc & Hname & Ht).
    exists c. simpl in Ht. intuition congruence.
  - intros n Hn. destruct (Hy n Hn) as (c & Hc & Hname & Ht).
    exists c. simpl in Ht. intuition congruence.
  - intros n Hn. destruct (Hk n Hn) as (c & Hc & Hname & Ht).
    exists c. simpl in Ht. intuition congruence.
Qed.

(** The chart type of every keyword is an archetype of the catalog. *)
Lemma keyword_types_in_catalog :
  forallb
    (fun k => match first_type k with
              | Some t => existsb (ChartType_eqb t)
                            (map ctype ChartRecommender.CHART_TYPES)
              | None => false
              end)
    sortedKeywords = true.
Proof. vm_compute. reflexivity. Qed.

(** X16.  Every parsed intent has a chart type, and it is one of the 14
    archetypes of the catalog: the keyword table maps to no other type, the
    time vocabulary gives a line chart and the default is the bar chart. *)
Theorem parsePrompt_type_in_catalog prompt schema :
  exists t, chartType (parsePrompt toLowerCase prompt schema) = Some t
            /\ In t (map ctype ChartRecommender.CHART_TYPES).
Proof.
  unfold parsePrompt. cbn [chartType]. unfold findChartType.
  destruct (find _ sortedKeywords) as [k |] eqn:Hk.
  - apply find_some in Hk as [Hin _].
    pose proof keyword_types_in_catalog as H.
    rewrite forallb_forall in H. specialize (H k Hin).
    destruct (first_type k) as [t |]; [| discriminate].
    exists t. split; [reflexivity |].
    apply existsb_exists in H as (t' & Ht' & Heq).
    unfold ChartType_eqb in Heq.
    destruct (ChartType_eq_dec t t'); [subst; exact Ht' | discriminate].
  - destruct (existsb _ TIME_KEYWORDS).
    + exists Line. split; [reflexivity | vm_compute; tauto].
    + exists Bar. split; [reflexivity | vm_compute; tauto].
Qed.
End ParsedFields.

(** ** From a prompt to a chart *)

Section PromptToChart.
Import PromptParser Spec Notions ChartGeneration.

Variable toLowerCase : string -> string.

Lemma nonempty_truthy (s : string) : s <> "" -> JS.truthy (Some s) = true.
Proof.
  intros H. simpl. destruct (String.eqb_spec s ""); [contradiction | reflexivity].
Qed.

(** With non-empty column names, [xField] is set as soon as the schema has
    a datetime or a string column. *)
Lemma findFieldMatches_x_truthy text schema :
  (forall c, In c (columns schema) -> name c <> "") ->
  (exists c, In c (columns schema)
             /\ (type c = TDatetime \/ type c = TString)) ->
  JS.truthy (fx (findFieldMatches toLowerCase text schema)) = true.
Proof.
  intros Hnames (c & Hc & Ht). unfold findFieldMatches. cbn [fx].
  set (r := fold_left _ _ _).
  destruct (JS.truthy (fx r)) eqn:Hr; simpl; [exact Hr |].
  assert (Hfirst : forall t l, l = filter (is_type t) (columns schema) ->
            forall c0, nth_error l 0 = Some c0 ->
            JS.truthy (option_map name (nth_error l 0)) = true).
  { intros t l -> c0 H0. rewrite H0. simpl. apply nonempty_truthy.
    apply Hnames. apply nth_error_In, filter_In in H0. tauto. }
  destruct (filter (is_type TDatetime) (columns schema)) as [| d ds] eqn:Hd.
  - simpl.
    destruct (filter (is_type TString) (columns schema)) as [| k ks] eqn:Hk.
    + exfalso. destruct Ht as [Ht | Ht].
      * assert (H : In c (filter (is_type TDatetime) (columns schema)))
          by (apply filter_In; split; [exact Hc |];
              unfold is_type; rewrite Ht; reflexivity).
        rewrite Hd in H. destruct H.
      * assert (H : In c (filter (is_type TString) (columns schema)))
          by (apply filter_In; split; [exact Hc |];
              unfold is_type; rewrite Ht; reflexivity).
        rewrite Hk in H. destruct H.
    + simpl. apply nonempty_truthy. apply Hnames.
      assert (H : In k (filter (is_type TString) (columns schema)))
        by (rewrite Hk; left; reflexivity).
      apply filter_In in H. tauto.
  - simpl. apply nonempty_truthy. apply Hnames.
    assert (H : In d (filter (is_type TDatetime) (columns schema)))
      by (rewrite Hd; left; reflexivity).
    apply filter_In in H. tauto.
Qed.

(** X17.  A prompt against a schema that has neither a datetime nor a
    string column never yields a chart, whatever the prompt says: the parsed
    intent has no x field, [generateFromPrompt] returns [null], and the
    chart on display (the selected recommendation and the custom
    specification) stays as it was while the current intent is replaced. *)
Theorem generateFromPrompt_without_axis d prompt st :
  (forall c, In c (columns (schema d)) ->
             type c <> TDatetime /\ type c <> TString) ->
  xField (parsePrompt toLowerCase prompt (schema d)) = None
  /\ generateFromPrompt toLowerCase (Some d) prompt st
     = (mkState (selectedChart st) (customSpec st)
          (Some (parsePrompt toLowerCase prompt (schema d))), None)
  /\ currentSpec (fst (generateFromPrompt toLowerCase (Some d) prompt st))
     = currentSpec st.
Proof.
  intros Hcols.
  assert (Hx : xField (parsePrompt toLowerCase prompt (schema d)) = None).
  { unfold parsePrompt. cbn [xField].
    destruct (findFieldMatches_typed toLowerCase prompt (schema d))
      as (Hx & _).
    destruct (fx _) as [n |]; [| reflexivity].
    destruct (Hx n eq_refl) as (c & Hc & _ & Ht).
    destruct (Hcols c Hc) as [H1 H2]. simpl in Ht.
    destruct Ht as [Ht | [Ht | []]]; congruence. }
  assert (Hb : VegaSpecBuilder.buildSpecFromIntent (data d) (schema d)
                 (parsePrompt toLowerCase prompt (schema d)) = None).
  { unfold VegaSpecBuilder.buildSpecFromIntent. rewrite Hx.
    destruct (chartType _); reflexivity. }
  split; [exact Hx |]. unfold generateFromPrompt. rewrite Hb.
  split; reflexivity.
Qed.

(** X18.  When every column has a non-empty name and the schema has a
    datetime or a string column, every prompt yields a chart:
    [generateFromPrompt] returns a complete specification over the rows of
    the dataset, which becomes the chart on display, and no recommendation
    stays selected. *)
Theorem generateFromPrompt_with_axis d prompt st :
  (forall c, In c (columns (schema d)) -> name c <> "") ->
  (exists c, In c (columns (schema d))
             /\ (type c = TDatetime \/ type c = TString)) ->
  exists spec,
    generateFromPrompt toLowerCase (Some d) prompt st
    = (mkState None (Some spec)
         (Some (parsePrompt toLowerCase prompt (schema d))), Some spec)
    /\ complete spec /\ data_values spec = data d
    /\ currentSpec (fst (generateFromPrompt toLowerCase (Some d) prompt st))
       = Some spec.
Proof.
  intros Hnames Hcol.
  pose proof (findFieldMatches_x_truthy prompt (schema d) Hnames Hcol) as Hx.
  destruct (VegaSpecBuilder.buildSpecFromIntent (data d) (schema d)
              (parsePrompt toLowerCase prompt (schema d)))
    as [spec |] eqn:Hb.
  - exists spec. unfold generateFromPrompt. rewrite Hb.
    destruct (buildSpecFromIntent_Some _ _ _ _ Hb) as [Hc Hd].
    split; [reflexivity | split; [exact Hc | split; [exact Hd | reflexivity]]].
  - exfalso. unfold VegaSpecBuilder.buildSpecFromIntent, parsePrompt in Hb.
    cbn [chartType xField] in Hb. rewrite Hx in Hb.
    destruct (findChartType toLowerCase prompt); discriminate.
Qed.
End PromptToChart.

(** ** The normalized text *)

Section Normalized.
Import PromptParser Notions.

Lemma chars_app (a b : string) : chars (a ++ b) = (chars a ++ chars b)%list.
Proof. induction a as [| c a IH]; simpl; [reflexivity | f_equal; exact IH]. Qed.

Lemma prefix_chars (sub s : string) :
  String.prefix sub s = true -> forall ch, In ch (chars sub) -> In ch (chars s).
Proof.
  revert s. induction sub as [| a sub IH]; intros s H ch Hch;
    [destruct Hch |].
  destruct s as [| b s]; simpl in H, Hch; [discriminate |].
  destruct (ascii_dec a b) as [<- | _]; [| discriminate].
  destruct Hch as [<- | Hch]; simpl; [left; reflexivity |].
  right. apply (IH s H ch Hch).
Qed.

(** A text includes only what is made of its own characters. *)
Lemma includes_chars (s sub : string) :
  JS.includes s sub = true -> forall ch, In ch (chars sub) -> In ch (chars s).
Proof.
  induction s as [| c s IH]; simpl; intros H ch Hch.
  - rewrite orb_false_r in H. apply (prefix_chars sub "" H ch Hch).
  - apply orb_true_iff in H as [H | H].
    + apply (prefix_chars sub (String c s) H ch Hch).
    + right. apply (IH H ch Hch).
Qed.

Lemma replace_chars_free (set : list ascii) (by_ s : string) (ch : ascii) :
  (forall c, In c (chars by_) -> existsb (Ascii.eqb c) set = false) ->
  In ch (chars (JS.replace_chars set by_ s)) ->
  existsb (Ascii.eqb ch) set = false.
Proof.
  intros Hby. induction s as [| c s IH]; simpl; [intros [] |].
  destruct (existsb (Ascii.eqb c) set) eqn:Hc.
  - rewrite chars_app, in_app_iff. intros [H | H]; [apply Hby; exact H | auto].
  - simpl. intros [<- | H]; [exact Hc | auto].
Qed.

Lemma collapse_chars (s : string) :
  forall skip in_ws ch,
    In ch (chars (JS.collapse_from skip in_ws s)) ->
    In ch (chars s) \/ ch = " "%char.
Proof.
  induction s as [| c s IH]; intros skip in_ws ch; simpl; [intros [] |].
  destruct skip as [| k].
  - destruct (JS.ws_len (String c s)) as [| k].
    + simpl. intros [<- | H]; [left; left; reflexivity |].
      destruct (IH _ _ _ H); auto.
    + destruct in_ws; simpl.
      * intros H. destruct (IH _ _ _ H); auto.
      * intros [<- | H]; [right; reflexivity |].
        destruct (IH _ _ _ H); auto.
  - intros H. destruct (IH _ _ _ H); auto.
Qed.

Lemma trimStart_chars (s : string) :
  forall skip ch, In ch (chars (JS.trimStart_from skip s)) -> In ch (chars s).
Proof.
  induction s as [| c s IH]; intros skip ch; simpl; [intros [] |].
  destruct skip as [| k].
  - destruct (JS.ws_len (String c s)); [simpl; tauto |].
    intros H. right. apply (IH _ _ H).
  - intros H. right. apply (IH _ _ H).
Qed.

Lemma trimEnd_chars (s : string) :
  forall ch, In ch (chars (JS.trimEnd s)) -> In ch (chars s).
Proof.
  induction s as [| c s IH]; intros ch; simpl; [intros [] |].
  destruct (JS.all_white (String c s)); simpl; [intros [] |].
  intros [<- | H]; [left; reflexivity | right; apply (IH _ H)].
Qed.

Lemma normalizeText_chars toLowerCase text ch :
  In ch (chars (normalizeText toLowerCase text)) ->
  existsb (Ascii.eqb ch) punctuation = false.
Proof.
  unfold normalizeText, JS.trim, JS.trimStart, JS.collapse_white. intros H.
  apply trimEnd_chars, trimStart_chars, collapse_chars in H.
  destruct H as [H | ->]; [| reflexivity].
  apply (replace_chars_free punctuation " " (toLowerCase text) ch);
    [| exact H].
  intros c [<- | []]. reflexivity.
Qed.

(** X19.  The normalized text has none of the punctuation characters that
    the parser replaces by spaces.  So a keyword or a lower-cased column
    name that contains one of them (a name such as "Price ($)" or
    "Q1.Sales") never occurs in it, and such a column is never bound by
    being named in the prompt. *)
Theorem punctuated_name_never_matches toLowerCase text sub ch :
  In ch punctuation ->
  In ch (chars sub) ->
  JS.includes (normalizeText toLowerCase text) sub = false.
Proof.
  intros Hp Hsub. apply not_true_iff_false. intros Hinc.
  pose proof (includes_chars _ _ Hinc ch Hsub) as Hin.
  apply normalizeText_chars in Hin.
  assert (Ht : existsb (Ascii.eqb ch) punctuation = true)
    by (apply existsb_exists; exists ch; split;
        [exact Hp | apply Ascii.eqb_refl]).
  congruence.
Qed.
End Normalized.

(** ** The insight list *)

Section InsightList.
Import InsightGenerator Spec Notions.

Lemma calculateStats_max_min (values : list JS.num) :
  let sorted := JS.sort (fun a b => PrimFloat.ltb 0 (PrimFloat.sub a b)) values in
  max (calculateStats values) = at_ sorted (List.length sorted - 1)
  /\ min (calculateStats values) = at_ sorted 0.
Proof.
  unfold calculateStats. destruct (regression _ _ _) as [[[sx sy] sxy] sx2].
  split; reflexivity.
Qed.

(** The extremes that are reported are values of the array. *)
Lemma calculateStats_extremes_In (values : list JS.num) :
  values <> [] ->
  In (max (calculateStats values)) values
  /\ In (min (calculateStats values)) values.
Proof.
  intros Hne. destruct (calculateStats_max_min values) as [-> ->].
  set (gt := fun a b => PrimFloat.ltb 0 (PrimFloat.sub a b)).
  assert (Hlen : List.length (JS.sort gt values) = List.length values)
    by (apply Permutation_length, sort_perm).
  assert (Hpos : (0 < List.length values)%nat)
    by (destruct values; [contradiction | simpl; lia]).
  split; apply (sort_In gt); unfold at_; apply nth_In;
    unfold JS.num in *; lia.
Qed.

Lemma extractValues_spec data target v :
  In v (extractValues data target)
  <-> JS.isNaN v = false
      /\ exists row, In row data /\ numeric_of (get row (name target)) = v.
Proof.
  unfold extractValues. rewrite filter_In, in_map_iff, negb_true_iff.
  split.
  - intros [(row & <- & Hrow) Hn]. eauto.
  - intros [Hn (row & Hrow & <-)]. eauto.
Qed.




(** X21.  The highest and the lowest value that are reported are values of
    rows of the dataset in the target column, read as numbers, and are
    never [NaN]. *)
Theorem reported_extremes_are_row_values data schema xField yField out i :
  generateInsights data schema xField yField = Returned out ->
  In i out ->
  itype i = IMax \/ itype i = IMin ->
  exists target v row,
    targetColumn schema yField = Some target
    /\ ivalue i = Some v
    /\ JS.isNaN v = false
    /\ In row data
    /\ numeric_of (get row (name target)) = v.
Proof.
  intros Hout Hi Hty.
  destruct (targetColumn schema yField) as [target |] eqn:Ht.
  2:{ rewrite (generateInsights_no_target _ _ _ _ Ht) in Hout.
      apply Returned_inj in Hout. subst out. destruct Hi. }
  destruct (extractValues data target) as [| v0 vs] eqn:Hv.
  { exfalso. revert Hout. unfold generateInsights. rewrite Ht, Hv.
    destruct (Nat.eqb _ _); intros Hout; apply Returned_inj in Hout;
      subst out; destruct Hi. }
  assert (Hne : extractValues data target <> []) by (rewrite Hv; discriminate).
  destruct (generateInsights_unfold data schema xField yField target out
              Ht Hne Hout)
    as (tp & dp & cp & Heq & Htp & Hdp & Hcp).
  rewrite Heq in Hi. clear Heq.
  destruct (calculateStats_extremes_In _ Hne) as [Hmax Hmin].
  apply extractValues_spec in Hmax as (Hmax1 & rmax & Hrmax & Hmaxv).
  apply extractValues_spec in Hmin as (Hmin1 & rmin & Hrmin & Hminv).
  cbn [List.concat] in Hi. rewrite !in_app_iff in Hi.
  rewrite Forall_forall in Htp, Hdp, Hcp.
  destruct Hi as [[<- | [<- | []]] | [Hi | [Hi | [Hi | [Hi | []]]]]].
  - exists target; eexists; exists rmax.
    split; [reflexivity |]. split; [reflexivity |]. auto.
  - exists target; eexists; exists rmin.
    split; [reflexivity |]. split; [reflexivity |]. auto.
  - rewrite (Htp _ Hi) in Hty. destruct Hty; discriminate.
  - destruct (0 <? _)%nat; [| destruct Hi].
    destruct Hi as [<- | []]. destruct Hty; discriminate.
  - rewrite (Hdp _ Hi) in Hty. destruct Hty; discriminate.
  - rewrite (Hcp _ Hi) in Hty. destruct Hty; discriminate.
Qed.

(** The key of an inherited function is neither [__proto__] nor an array
    index. *)
Lemma inherits_key k :
  inherits k = true ->
  String.eqb k "__proto__" = false /\ array_index k = None.
Proof.
  unfold inherits, prototype_functions. cbn [existsb].
  rewrite !orb_true_iff.
  intros H.
  repeat (destruct H as [H | H];
          [apply String.eqb_eq in H; subst k; split; vm_compute; reflexivity |]).
  discriminate H.
Qed.

(** Rows of one category that is an inherited name: the total is text from
    the first row that counts. *)
Lemma totals_inherited target categorical k data :
  inherits k = true ->
  (forall row, In row data -> ToString (get row (name categorical)) = k) ->
  fold_left (addRow target categorical) data [(k, Text)] = [(k, Text)]
  /\ (extractValues data target <> [] ->
      fold_left (addRow target categorical) data [] = [(k, Text)]).
Proof.
  intros Hk. destruct (inherits_key k Hk) as [Hproto _].
  assert (Hstep : forall row t,
            ToString (get row (name categorical)) = k ->
            (t = [] \/ t = [(k, Text)]) ->
            addRow target categorical t row
            = if JS.isNaN (numeric_of (get row (name target)))
              then t else [(k, Text)]).
  { intros row t Hcat Ht. unfold addRow. rewrite Hcat.
    destruct (JS.isNaN _); cbn [negb]; [reflexivity |].
    unfold assign, lookup. rewrite Hproto.
    destruct Ht as [-> | ->]; cbn [own put].
    - rewrite Hk. reflexivity.
    - rewrite String.eqb_refl. reflexivity. }
  induction data as [| row data IH]; intros Hrows.
  - split; [reflexivity |]. intros H. contradiction H. reflexivity.
  - assert (Hcat : ToString (get row (name categorical)) = k)
      by (apply Hrows; left; reflexivity).
    destruct IH as [IH1 IH2]; [intros r Hr; apply Hrows; right; exact Hr |].
    cbn [fold_left]. split.
    + rewrite (Hstep row _ Hcat (or_intror eq_refl)).
      destruct (JS.isNaN _); exact IH1.
    + rewrite (Hstep row _ Hcat (or_introl eq_refl)).
      rewrite extractValues_cons. unfold extractValues at 1. cbn [map filter].
      destruct (JS.isNaN _); cbn [negb app]; [exact IH2 | intros _; exact IH1].
Qed.

(** X30.  When the x field names a string column and every row holds, in
    that column, one and the same name of a function that a plain object
    inherits ("constructor", "toString", "valueOf", ...), and some row has
    a numeric value in the target column, [generateInsights] throws: the
    total of that category is text, which [formatNumber] cannot format. *)
Theorem inherited_category_throws data schema xField yField target
    categorical k :
  targetColumn schema yField = Some target ->
  extractValues data target <> [] ->
  find (is_named_string xField) (columns schema) = Some categorical ->
  inherits k = true ->
  (forall row, In row data -> ToString (get row (name categorical)) = k) ->
  generateInsights data schema xField yField = Thrown.
Proof.
  intros Ht Hv Hf Hk Hrows.
  destruct (totals_inherited target categorical k data Hk Hrows) as [_ Htot].
  specialize (Htot Hv).
  destruct (inherits_key k Hk) as [_ Hindex].
  assert (Htop : topCategory data target categorical
                 = Returned (Some (k, Text))).
  { unfold topCategory. rewrite Htot.
    assert (He : entries [(k, Text)] = [(k, Text)]).
    { unfold entries, is_index. cbn [filter fst]. rewrite Hindex.
      reflexivity. }
    rewrite He. reflexivity. }
  unfold generateInsights. rewrite Ht.
  destruct data as [| row data]; [exfalso; apply Hv; reflexivity |].
  change (Nat.eqb (List.length (row :: data)) 0) with false. cbv iota.
  destruct (extractValues (row :: data) target) as [| v vs];
    [exfalso; apply Hv; reflexivity |].
  change (Nat.eqb (List.length (v :: vs)) 0) with false. cbv iota zeta.
  rewrite Hf, Htop. reflexivity.
Qed.
End InsightList.

(** ** The hooks: what is shown after a selection or a prompt *)

Section Selection.
Import ChartRecommender InsightGenerator VegaSpecBuilder ChartGeneration.
Import Spec Notions.

Lemma generateInsights_target data schema xField yField yField' :
  targetColumn schema yField = targetColumn schema yField' ->
  generateInsights data schema xField yField
  = generateInsights data schema xField yField'.
Proof. unfold generateInsights. intros ->. reflexivity. Qed.

Lemma find_refines {A : Type} (p q : A -> bool) (l : list A) (a : A) :
  find p l = Some a ->
  (forall b, q b = true -> p b = true) ->
  q a = true ->
  find q l = Some a.
Proof.
  intros Hf Hqp Ha. induction l as [| b l IH]; simpl in *; [discriminate |].
  destruct (p b) eqn:Hb.
  - injection Hf as ->. rewrite Ha. reflexivity.
  - destruct (q b) eqn:Hq; [| apply IH; exact Hf].
    rewrite (Hqp b Hq) in Hb. discriminate.
Qed.

(** Hinting at the first numeric column by its name selects it. *)
Lemma targetColumn_first schema c :
  firstNumeric schema = Some c ->
  targetColumn schema (Some (name c)) = Some c.
Proof.
  unfold firstNumeric, targetColumn. intros Hc.
  destruct (JS.truthy (Some (name c))) eqn:Ht.
  - rewrite find_filter.
    unfold JS.or_str, JS.or_else. rewrite Ht.
    apply (find_refines _ _ _ _ Hc).
    + intros b Hb. apply andb_true_iff in Hb. tauto.
    + apply find_some in Hc as [_ Hn]. rewrite Hn, String.eqb_refl.
      reflexivity.
  - rewrite head_filter. exact Hc.
Qed.

(** X22.  The insights shown for a selected recommendation are computed
    over the first numeric column of the schema, whatever the archetype:
    the y hint the hook passes on is that column's name, so the result is
    the one obtained without a hint. *)
Theorem insights_of_selection d r st :
  In r (recommendations (Some d)) ->
  targetColumn (schema d) (enc_y (suggestedEncodings r))
  = firstNumeric (schema d)
  /\ insights (Some d) (selectChart r st)
     = generateInsights (data d) (schema d)
         (enc_x (suggestedEncodings r)) None.
Proof.
  intros Hr. simpl in Hr.
  destruct (recommended_y _ _ _ Hr) as (c & Hc & Hy).
  assert (Ht : targetColumn (schema d) (enc_y (suggestedEncodings r))
               = targetColumn (schema d) None).
  { rewrite Hy, (targetColumn_first _ _ Hc).
    unfold targetColumn. cbn [JS.truthy]. rewrite head_filter.
    symmetry. exact Hc. }
  split.
  - rewrite Ht. unfold targetColumn. cbn [JS.truthy]. apply head_filter.
  - unfold insights, selectChart. simpl.
    apply generateInsights_target. exact Ht.
Qed.

(** The x binding of a recommendation is the name of a column. *)
Lemma recommended_x data schema r :
  In r (recommendCharts data schema) ->
  exists c, In c (columns schema)
            /\ enc_x (suggestedEncodings r) = Some (name c).
Proof.
  intros Hr. apply recommended_In in Hr as (info & Hin & Hrec).
  destruct (recommend_inv _ _ _ _ Hrec) as (spec & _ & -> & Hg).
  cbn [suggestedEncodings enc_x suggest].
  pose proof (catalog_needs_numeric info Hin) as Hmin.
  unfold gate_closed in Hg. apply orb_false_iff in Hg as [Hg _].
  apply orb_false_iff in Hg as [Hg _]. apply Z.ltb_ge in Hg.
  unfold numericCount in Hg.
  assert (Hsub : forall f c l,
             filter f (columns schema) = c :: l -> In c (columns schema)).
  { intros f c l Hf.
    assert (Hc : In c (filter f (columns schema)))
      by (rewrite Hf; left; reflexivity).
    apply filter_In in Hc. tauto. }
  unfold name_at.
  destruct (filter is_numeric (columns schema)) as [| n ns] eqn:Hn;
    [simpl in Hg; lia |].
  destruct (filter is_datetime (columns schema)) as [| t ts] eqn:Ht;
    destruct (filter is_categorical (columns schema)) as [| k ks] eqn:Hk;
    destruct (needsDatetime (requirements info)); simpl; eauto.
Qed.

(** X23.  The intent recorded when a recommendation is selected compiles,
    through [buildSpecFromIntent], to the very specification the
    recommender built, for the bar, line, area, histogram, box plot and pie
    families, provided the x binding is not the empty name; with the empty
    name the intent compiles to nothing.  The two dispatch tables agree on
    these archetypes. *)
Theorem selected_intent_recompiles d r st intent :
  In r (recommendations (Some d)) ->
  In (rtype r) [Bar; BarHorizontal; BarStacked; Line; Area; AreaStacked;
                Histogram; Boxplot; Pie; Donut] ->
  currentIntent (selectChart r st) = Some intent ->
  buildSpecFromIntent (data d) (schema d) intent
  = (if JS.truthy (enc_x (suggestedEncodings r))
     then Some (vegaLiteSpec r) else None)
  /\ ((forall c, In c (columns (schema d)) -> name c <> "") ->
      buildSpecFromIntent (data d) (schema d) intent
      = Some (vegaLiteSpec r)).
Proof.
  intros Hr Hty [= <-]. simpl in Hr.
  assert (Hmain : buildSpecFromIntent (data d) (schema d)
                    (mkIntent (Some (rtype r))
                       (enc_x (suggestedEncodings r))
                       (enc_y (suggestedEncodings r))
                       (enc_color (suggestedEncodings r))
                       None None None None None)
                  = (if JS.truthy (enc_x (suggestedEncodings r))
                     then Some (vegaLiteSpec r) else None)).
  { apply recommended_In in Hr as (info & Hin & Hrec).
    destruct (recommend_inv _ _ _ _ Hrec) as (spec & Hc & Hreq & _).
    assert (Ht : rtype r = ctype info) by (rewrite Hreq; reflexivity).
    assert (Hs : vegaLiteSpec r = spec) by (rewrite Hreq; reflexivity).
    rewrite Hs. rewrite Ht in *. clear Hreq Hrec Hin Ht Hs.
    unfold buildSpecFromIntent. unfold compile in Hc.
    cbn [chartType xField yField colorField sizeField].
    destruct (JS.truthy (enc_x (suggestedEncodings r))); cbn [negb];
      [| reflexivity].
    destruct (ctype info); try exact Hc;
      exfalso; simpl in Hty; intuition discriminate. }
  split; [exact Hmain |].
  intros Hnames. rewrite Hmain.
  destruct (recommended_x _ _ _ Hr) as (c & Hc & ->).
  unfold JS.truthy. destruct (String.eqb_spec (name c) ""); [| reflexivity].
  exfalso. eapply Hnames; eassumption.
Qed.

(** X24.  A prompt always replaces the recorded intent by the parsed one.
    When it compiles, the prompt chart is displayed, the selection is
    dropped and with it the insights; selecting a recommendation afterwards
    displays that recommendation again.  When it does not compile, the
    displayed chart and the insights stay as they were, although the
    recorded intent is now the one of the failed prompt. *)
Theorem prompt_chart_replaces_selection toLowerCase d prompt st :
  let intent := PromptParser.parsePrompt toLowerCase prompt (schema d) in
  let st' := fst (generateFromPrompt toLowerCase (Some d) prompt st) in
  let result := snd (generateFromPrompt toLowerCase (Some d) prompt st) in
  currentIntent st' = Some intent
  /\ result = buildSpecFromIntent (data d) (schema d) intent
  /\ match result with
     | Some spec =>
         currentSpec st' = Some spec
         /\ insights (Some d) st' = Returned []
         /\ forall r, currentSpec (selectChart r st') = Some (vegaLiteSpec r)
     | None =>
         currentSpec st' = currentSpec st
         /\ insights (Some d) st' = insights (Some d) st
     end.
Proof.
  cbv zeta. unfold generateFromPrompt.
  destruct (buildSpecFromIntent _ _ _) as [spec |]; simpl; auto.
Qed.
End Selection.

(** ** The prompt history and the favorites *)

Section Stores.
Import PromptHistory Favorites.

Lemma firstn_subset {A : Type} (n : nat) (l : list A) (x : A) :
  In x (firstn n l) -> In x l.
Proof.
  revert l. induction n as [| n IH]; intros [| a l]; simpl; try tauto.
  intros [-> | H]; auto.
Qed.

Lemma firstn_NoDup {A : Type} (n : nat) (l : list A) :
  NoDup l -> NoDup (firstn n l).
Proof.
  revert l. induction n as [| n IH]; intros [| a l] H; simpl;
    try apply NoDup_nil.
  inversion H as [| ? ? Hn Hd]; subst. apply NoDup_cons.
  - intros Hin. apply Hn. eapply firstn_subset. exact Hin.
  - apply IH. exact Hd.
Qed.

(** Dropping the items of one prompt keeps the prompts of a history
    pairwise distinct. *)
Lemma kept_prompts_distinct (prompt : string) (prev : list PromptHistoryItem) :
  NoDup (map hprompt prev) ->
  NoDup (map hprompt
           (filter (fun item => negb (String.eqb (hprompt item) prompt)) prev)).
Proof.
  intros Hdistinct.
  induction prev as [| item prev IH]; cbn [filter map]; [constructor |].
  inversion Hdistinct as [| ? ? Hfresh Hrest]; subst.
  destruct (negb (String.eqb (hprompt item) prompt)); cbn [map];
    [| exact (IH Hrest)].
  constructor; [| exact (IH Hrest)].
  intros Hold. apply Hfresh.
  apply in_map_iff in Hold as (older & Hsame & Hkept).
  apply filter_In in Hkept as [Hkept _].
  apply in_map_iff. exists older. split; assumption.
Qed.

(** X25.  Adding a prompt to the history puts the new item first and drops
    every earlier item with the same prompt text; the history never exceeds
    twenty items, prompts stay pairwise distinct, and while there is room
    no other item is lost. *)
Theorem addPrompt_history id now prompt chartType prev :
  let newItem := mkHistoryItem id prompt now chartType in
  let next := addPrompt id now prompt chartType prev in
  (List.length next <= 20)%nat
  /\ (exists rest,
        next = newItem :: rest
        /\ forall item, In item rest ->
                        In item prev /\ hprompt item <> prompt)
  /\ (NoDup (map hprompt prev) -> NoDup (map hprompt next))
  /\ ((List.length prev < 20)%nat ->
      forall item, In item prev -> hprompt item <> prompt -> In item next).
Proof.
  cbv zeta. unfold addPrompt, MAX_HISTORY.
  set (newItem := mkHistoryItem id prompt now chartType).
  set (keep := fun item => negb (String.eqb (hprompt item) prompt)).
  assert (Hkeep : forall item, In item (filter keep prev) ->
                               In item prev /\ hprompt item <> prompt).
  { intros item Hi. apply filter_In in Hi as [Hi Hk]. split; [exact Hi |].
    unfold keep in Hk. apply negb_true_iff in Hk.
    apply String.eqb_neq. exact Hk. }
  split; [| split; [| split]].
  - apply firstn_le_length.
  - exists (firstn 19 (filter keep prev)). split; [reflexivity |].
    intros item Hi. apply Hkeep. eapply firstn_subset. exact Hi.
  - intros Hnd. rewrite <- firstn_map. apply firstn_NoDup.
    cbn [map]. apply NoDup_cons.
    + intros Hin. apply in_map_iff in Hin as (b & Hb & Hin).
      apply Hkeep in Hin as [_ Hin]. apply Hin. exact Hb.
    + apply kept_prompts_distinct. exact Hnd.
  - intros Hlen item Hi Hp.
    rewrite firstn_all2.
    + right. apply filter_In. split; [exact Hi |].
      unfold keep. apply negb_true_iff, String.eqb_neq. exact Hp.
    + cbn [List.length].
      pose proof (filter_length keep prev). lia.
Qed.

(** X26.  Removing the identifier a favorite was just saved under gives
    back the earlier list without the favorites of that identifier: the
    earlier list itself when the identifier was fresh.  Removing another
    identifier keeps the new favorite at the front. *)
Theorem favorite_add_remove id now name prompt spec datasetName prev :
  removeFavorite id (addFavorite id now name prompt spec datasetName prev)
  = removeFavorite id prev
  /\ ((forall f, In f prev -> fid f <> id) ->
      removeFavorite id (addFavorite id now name prompt spec datasetName prev)
      = prev)
  /\ (forall other, other <> id ->
      removeFavorite other
        (addFavorite id now name prompt spec datasetName prev)
      = mkFavorite id name prompt spec now datasetName
        :: removeFavorite other prev).
Proof.
  unfold removeFavorite, addFavorite. cbn [filter fid].
  rewrite String.eqb_refl. cbn [negb].
  split; [reflexivity |]. split.
  - intros Hfresh. apply filter_all. intros f Hf.
    apply negb_true_iff, String.eqb_neq. apply Hfresh. exact Hf.
  - intros other Ho.
    destruct (String.eqb_spec id other) as [-> |]; [contradiction | reflexivity].
Qed.
End Stores.

(** ** Matching an image: the detection, the check and the page handler *)

Section ImageMatch.
Import ChartRecommender ChartGeneration ImageMatcher IndexPage Spec Notions.

(** X27.  The detected type is the pattern with the highest score; on equal
    scores the pie pattern wins over the bar pattern, and the bar pattern
    over the line pattern.  No other type is ever detected, and the features
    reported are those of the detected pattern. *)
Theorem detected_by_highest_score circularScore verticalScore lineScore :
  dtype (detected circularScore verticalScore lineScore)
  = (if (verticalScore <=? circularScore) && (lineScore <=? circularScore)
     then Pie
     else if lineScore <=? verticalScore then Bar else Line)
  /\ dHasPieSegments (dfeatures (detected circularScore verticalScore lineScore))
     = (if (verticalScore <=? circularScore) && (lineScore <=? circularScore)
        then Some true else None).
Proof.
  unfold detected, JS.sort. cbn [JS.sort fold_right JS.insert score].
  destruct (Z.leb_spec verticalScore circularScore);
    destruct (Z.leb_spec lineScore circularScore);
    destruct (Z.leb_spec lineScore verticalScore);
    repeat match goal with
           | |- context [0 <? ?a - ?b] =>
               destruct (Z.ltb_spec 0 (a - b)); try lia;
               cbn [JS.sort fold_right JS.insert score]
           end;
    cbn; split; reflexivity.
Qed.

Lemma detected_type_cases circularScore verticalScore lineScore :
  let t := dtype (detected circularScore verticalScore lineScore) in
  t = Pie \/ t = Bar \/ t = Line.
Proof.
  unfold detected, JS.sort. cbn [JS.sort fold_right JS.insert score].
  repeat match goal with
         | |- context [0 <? ?a - ?b] =>
             destruct (0 <? a - b); cbn [JS.sort fold_right JS.insert score]
         end;
    cbn; auto.
Qed.

(** An archetype is recommended exactly when the catalog has it and the
    schema opens its gate. *)
Lemma recommended_type_iff data schema t :
  (exists r, In r (recommendCharts data schema) /\ rtype r = t)
  <-> exists info, In info CHART_TYPES /\ ctype info = t
                   /\ gate_closed info (numericCount schema)
                        (categoricalCount schema) (hasDatetime schema) = false.
Proof.
  split.
  - intros (r & Hr & Ht). apply recommended_In in Hr as (info & Hin & Hrec).
    destruct (recommend_inv _ _ _ _ Hrec) as (spec & _ & Hreq & Hg).
    exists info. repeat split; try assumption.
    rewrite <- Ht, Hreq. reflexivity.
  - intros (info & Hin & Ht & Hg).
    destruct (recommend_open data schema info Hin Hg) as (r & Hrec).
    exists r. split.
    + apply recommended_In. eauto.
    + destruct (recommend_inv _ _ _ _ Hrec) as (spec & _ & Hreq & _).
      rewrite <- Ht, Hreq. reflexivity.
Qed.

(** The verdict of the check, by detected type. *)
Lemma canCreate_eq det schema :
  canCreate (analyzeChartImage det schema)
  = let n := List.length (filter is_numeric (columns schema)) in
    let k := List.length (filter is_categorical (columns schema)) in
    let d := List.length (filter is_datetime (columns schema)) in
    match dtype det with
    | Bar | Pie => (1 <=? n)%nat && (1 <=? k)%nat
    | Line | Area => (1 <=? n)%nat && ((1 <=? d)%nat || (1 <=? k)%nat)
    | Scatter => (2 <=? n)%nat
    | _ => false
    end.
Proof. unfold analyzeChartImage. destruct (dtype det); reflexivity. Qed.

Lemma reason_empty_iff det schema :
  reason (analyzeChartImage det schema) = "" 
  <-> canCreate (analyzeChartImage det schema) = true.
Proof.
  unfold analyzeChartImage.
  destruct (dtype det); cbv zeta;
    repeat match goal with
           | |- context [(?a <=? ?b)%nat] => destruct (a <=? b)%nat
           end;
    cbn [reason canCreate andb orb negb append];
    split; intros H; try reflexivity; discriminate H.
Qed.

(** The gate of an archetype of the catalog, in the counts of the check. *)
Lemma gate_in_counts schema info :
  gate_closed info (numericCount schema) (categoricalCount schema)
    (hasDatetime schema)
  = negb ((Z.to_nat (minNumeric (requirements info))
           <=? List.length (filter is_numeric (columns schema)))%nat
          && (Z.to_nat (minCategorical (requirements info))
              <=? List.length (filter is_categorical (columns schema)))%nat
          && (negb (needsDatetime (requirements info))
              || (1 <=? List.length (filter is_datetime (columns schema)))%nat))
  \/ minNumeric (requirements info) < 0
  \/ minCategorical (requirements info) < 0.
Proof.
  destruct (Z.ltb_spec (minNumeric (requirements info)) 0); [auto |].
  destruct (Z.ltb_spec (minCategorical (requirements info)) 0); [auto |].
  left. unfold gate_closed, numericCount, categoricalCount, hasDatetime.
  set (n := List.length (filter is_numeric (columns schema))).
  set (k := List.length (filter is_categorical (columns schema))).
  set (d := List.length (filter is_datetime (columns schema))).
  destruct (needsDatetime (requirements info)); cbn [negb andb orb];
    destruct (Z.ltb_spec (Z.of_nat n) (minNumeric (requirements info)));
    destruct (Z.ltb_spec (Z.of_nat k) (minCategorical (requirements info)));
    destruct (Nat.leb_spec (Z.to_nat (minNumeric (requirements info))) n);
    destruct (Nat.leb_spec (Z.to_nat (minCategorical (requirements info))) k);
    try lia; cbn [negb andb orb]; try reflexivity;
    destruct (Nat.ltb_spec 0 d); destruct (Nat.leb_spec 1 d);
    try lia; reflexivity.
Qed.

(** The requirements of the archetypes the check knows. *)
Lemma catalog_entry info :
  In info CHART_TYPES ->
  In (ctype info) [Bar; Pie; Scatter; Line; Area] ->
  requirements info
  = match ctype info with
    | Bar | Pie => mkReq 1 1 false
    | Scatter => mkReq 2 0 false
    | _ => mkReq 1 0 true
    end.
Proof.
  unfold CHART_TYPES. simpl. intros Hin.
  repeat (destruct Hin as [<- | Hin];
          [simpl; intros Ht; try reflexivity; exfalso; intuition discriminate |]).
  destruct Hin.
Qed.

Lemma catalog_has t :
  In t [Bar; Pie; Scatter; Line; Area] ->
  exists info, In info CHART_TYPES /\ ctype info = t.
Proof.
  simpl. intros [<- | [<- | [<- | [<- | [<- | []]]]]];
    [ exists (nth 0 CHART_TYPES Examples.bar_info)
    | exists (nth 11 CHART_TYPES Examples.bar_info)
    | exists (nth 6 CHART_TYPES Examples.bar_info)
    | exists (nth 3 CHART_TYPES Examples.bar_info)
    | exists (nth 4 CHART_TYPES Examples.bar_info) ];
    (split; [unfold CHART_TYPES; simpl; tauto | reflexivity]).
Qed.

Ltac by_counts :=
  repeat match goal with
         | H : context [(?a <=? ?b)%nat] |- _ => destruct (Nat.leb_spec a b)
         | |- context [(?a <=? ?b)%nat] => destruct (Nat.leb_spec a b)
         end;
  simpl in *; try lia; try reflexivity; try discriminate.

(** The archetypes of the catalog the check knows, and their gates. *)
Lemma recommended_by_counts data schema t :
  In t [Bar; Pie; Scatter; Line; Area] ->
  (exists r, In r (recommendCharts data schema) /\ rtype r = t)
  <-> (let n := List.length (filter is_numeric (columns schema)) in
       let k := List.length (filter is_categorical (columns schema)) in
       let d := List.length (filter is_datetime (columns schema)) in
       match t with
       | Bar | Pie => (1 <=? n)%nat && (1 <=? k)%nat
       | Scatter => (2 <=? n)%nat
       | _ => (1 <=? n)%nat && (1 <=? d)%nat
       end) = true.
Proof.
  intros Ht. rewrite recommended_type_iff. cbv zeta.
  set (n := List.length (filter is_numeric (columns schema))).
  set (k := List.length (filter is_categorical (columns schema))).
  set (d := List.length (filter is_datetime (columns schema))).
  assert (Hgate : forall info, In info CHART_TYPES -> ctype info = t ->
            gate_closed info (numericCount schema) (categoricalCount schema)
              (hasDatetime schema)
            = negb match t with
                   | Bar | Pie => (1 <=? n)%nat && (1 <=? k)%nat
                   | Scatter => (2 <=? n)%nat
                   | _ => (1 <=? n)%nat && (1 <=? d)%nat
                   end).
  { intros info Hin Hty.
    pose proof (catalog_entry info Hin) as Hreq. rewrite Hty in Hreq.
    specialize (Hreq Ht).
    destruct (gate_in_counts schema info) as [-> | Hneg].
    - rewrite Hreq. fold n k d. clear Hreq Hty Hin.
      simpl in Ht.
      destruct Ht as [<- | [<- | [<- | [<- | [<- | []]]]]];
        cbn [minNumeric minCategorical needsDatetime negb orb];
        change (Z.to_nat 1) with 1%nat; change (Z.to_nat 2) with 2%nat;
        change (Z.to_nat 0) with 0%nat; by_counts.
    - exfalso. rewrite Hreq in Hneg. clear Hreq.
      simpl in Ht.
      destruct Ht as [<- | [<- | [<- | [<- | [<- | []]]]]]; simpl in Hneg; lia. }
  split.
  - intros (info & Hin & Hty & Hg). rewrite (Hgate info Hin Hty) in Hg.
    apply negb_false_iff in Hg. exact Hg.
  - intros Hok. destruct (catalog_has t Ht) as (info & Hin & Hty).
    exists info. repeat split; try assumption.
    rewrite (Hgate info Hin Hty), Hok. reflexivity.
Qed.

(** X28.  The image check and the recommender: for a detected bar, pie or
    scatter chart the check allows creation exactly when the recommender
    lists that archetype for the schema.  For a detected line or area chart
    the check is the weaker one: it also passes on a categorical column
    where the recommender insists on a datetime column.  Any other detected
    type is refused although it is reported compatible.  A reason is given
    exactly when creation is refused. *)
Theorem image_check_and_recommender det data schema :
  let result := analyzeChartImage det schema in
  let recommended :=
    exists r, In r (recommendCharts data schema) /\ rtype r = dtype det in
  (In (dtype det) [Bar; Pie; Scatter] ->
   (canCreate result = true <-> recommended)
   /\ isCompatible result = canCreate result)
  /\ (In (dtype det) [Line; Area] ->
      (recommended
       <-> canCreate result = true /\ hasDatetime schema = true)
      /\ isCompatible result = canCreate result)
  /\ (~ In (dtype det) [Bar; Pie; Scatter; Line; Area] ->
      canCreate result = false /\ isCompatible result = true)
  /\ (reason result = "" <-> canCreate result = true).
Proof.
  cbv zeta. split; [| split; [| split]].
  - intros Ht. split.
    + rewrite recommended_by_counts by (simpl in *; tauto).
      rewrite canCreate_eq. cbv zeta. simpl in Ht.
      destruct Ht as [<- | [<- | [<- | []]]]; reflexivity.
    + unfold analyzeChartImage. simpl in Ht.
      destruct Ht as [<- | [<- | [<- | []]]]; reflexivity.
  - intros Ht. split.
    + rewrite recommended_by_counts by (simpl in *; tauto).
      rewrite canCreate_eq. cbv zeta. unfold hasDatetime.
      simpl in Ht.
      destruct Ht as [<- | [<- | []]];
        (destruct (Nat.ltb_spec 0
                     (List.length (filter is_datetime (columns schema))));
         (split; [intros Hrec | intros [Hrec1 Hrec2]]); by_counts).
    + unfold analyzeChartImage. simpl in Ht.
      destruct Ht as [<- | [<- | []]]; reflexivity.
  - intros Ht. unfold analyzeChartImage.
    destruct (dtype det); simpl in Ht; try (exfalso; tauto);
      split; reflexivity.
  - apply reason_empty_iff.
Qed.

Lemma find_exists {A : Type} (p : A -> bool) (l : list A) (a : A) :
  In a l -> p a = true -> exists b, find p l = Some b.
Proof.
  intros Ha Hp. destruct (find p l) as [b |] eqn:Hf; [eauto |].
  rewrite (find_none _ _ Hf a Ha) in Hp. discriminate.
Qed.

(** X29.  What the page does with an image match, the detection being
    decided by the three pattern scores.  A refused match changes nothing
    and shows the reason of the check.  An allowed match of a bar or pie
    chart, and of a line chart when the schema has a datetime column,
    selects the first recommendation of the detected type, which is then
    displayed; the prompt route is taken only for a line chart on a schema
    without datetime column. *)
Theorem image_match_selects_recommendation toLowerCase
    circularScore verticalScore lineScore d st :
  let det := detected circularScore verticalScore lineScore in
  let result := analyzeChartImage det (schema d) in
  let out := onMatchComplete toLowerCase result (Some d) st in
  (canCreate result = false ->
   out = (st, Some (CannotCreateChart (reason result))))
  /\ (canCreate result = true ->
      dtype det <> Line \/ hasDatetime (schema d) = true ->
      exists r,
        In r (recommendations (Some d))
        /\ rtype r = dtype det
        /\ fst out = selectChart r st
        /\ currentSpec (fst out) = Some (vegaLiteSpec r))
  /\ (canCreate result = true ->
      find (fun r => ChartType_eqb (rtype r) (dtype det))
           (recommendations (Some d)) = None ->
      dtype det = Line /\ hasDatetime (schema d) = false
      /\ fst out
         = fst (generateFromPrompt toLowerCase (Some d)
                  "create a line chart" st)).
Proof.
  cbv zeta.
  set (det := detected circularScore verticalScore lineScore).
  assert (Hcases : dtype det = Pie \/ dtype det = Bar \/ dtype det = Line)
    by apply detected_type_cases.
  assert (Hfound : canCreate (analyzeChartImage det (schema d)) = true ->
            dtype det <> Line \/ hasDatetime (schema d) = true ->
            exists r, In r (recommendCharts (data d) (schema d))
                      /\ rtype r = dtype det).
  { intros Hok Hline.
    rewrite canCreate_eq in Hok. cbv zeta in Hok.
    unfold hasDatetime in Hline.
    destruct Hcases as [Ht | [Ht | Ht]]; rewrite Ht in *;
      (apply recommended_by_counts; [simpl; tauto |]); cbv zeta;
      [exact Hok | exact Hok |].
    destruct Hline as [Hline | Hline]; [congruence |].
    apply Nat.ltb_lt in Hline. by_counts. }
  assert (Hres : detectedType (analyzeChartImage det (schema d))
                 = Some (dtype det))
    by (unfold analyzeChartImage; destruct (dtype det); reflexivity).
  split; [| split].
  - intros Hno. unfold onMatchComplete. rewrite Hno. cbn [negb].
    assert (Hr : reason (analyzeChartImage det (schema d)) <> "").
    { intros Hr. apply reason_empty_iff in Hr. congruence. }
    unfold JS.or_str, JS.or_else, JS.truthy.
    destruct (String.eqb_spec (reason (analyzeChartImage det (schema d))) "");
      [contradiction | reflexivity].
  - intros Hok Hline. destruct (Hfound Hok Hline) as (r & Hr & Hty).
    destruct (find_exists (fun r => ChartType_eqb (rtype r) (dtype det))
                _ r Hr) as (m & Hm).
    { unfold ChartType_eqb. rewrite Hty.
      destruct (ChartType_eq_dec (dtype det) (dtype det)); congruence. }
    exists m. pose proof (find_some _ _ Hm) as [Hin Heq].
    split; [exact Hin |]. split.
    + unfold ChartType_eqb in Heq.
      destruct (ChartType_eq_dec (rtype m) (dtype det)); congruence.
    + unfold onMatchComplete. rewrite Hok, Hres.
      cbn [recommendations]. rewrite Hm. split; reflexivity.
  - intros Hok Hnone.
    assert (Hnot : ~ (dtype det <> Line \/ hasDatetime (schema d) = true)).
    { intros Hline. destruct (Hfound Hok Hline) as (r & Hr & Hty).
      pose proof (find_none _ _ Hnone r Hr) as Hneq. cbv beta in Hneq.
      unfold ChartType_eqb in Hneq. rewrite Hty in Hneq.
      destruct (ChartType_eq_dec (dtype det) (dtype det)); congruence. }
    assert (Ht : dtype det = Line).
    { destruct (ChartType_eq_dec (dtype det) Line); tauto. }
    assert (Hd : hasDatetime (schema d) = false).
    { destruct (hasDatetime (schema d)); tauto. }
    split; [exact Ht |]. split; [exact Hd |].
    unfold onMatchComplete. rewrite Hok, Hres, Hnone, Ht.
    cbn [ChartType_name replace]. 
    destruct (generateFromPrompt toLowerCase (Some d) _ st) as [st' [spec |]];
      reflexivity.
Qed.
End ImageMatch.

(** ** Instances of the properties that carry a hypothesis *)

Section Instances.
Import Examples Samples Spec Notions.

(** X4 on the two ISO dates. *)
Lemma date_pattern_column_is_number_witness :
  DataAnalyzer.inferColumnType rejecting iso_dates = TNumber.
Proof.
  apply (date_pattern_column_is_number rejecting iso_dates).
  - discriminate.
  - intros v [<- | [<- | []]]; eexists; (split; [reflexivity |]);
      vm_compute; reflexivity.
Defined.

(** X8 on the bar chart and the schema with one category and one measure. *)
Lemma open_gate_is_recommended_witness :
  exists r,
    In r (ChartRecommender.recommendCharts region_rows region_schema)
    /\ rtype r = Bar
    /\ suitabilityScore r
       = ChartRecommender.calculateSuitability bar_info
           (numericCount region_schema) (categoricalCount region_schema)
           (hasDatetime region_schema)
    /\ 50 <= suitabilityScore r.
Proof.
  apply (open_gate_is_recommended region_rows region_schema bar_info).
  - left. reflexivity.
  - intros [H | [H | [H _]]]; vm_compute in H; discriminate.
Defined.

(** X10 on the schema that has a string column only. *)
Lemma no_numeric_no_recommendation_witness :
  ChartRecommender.recommendCharts region_rows labels_schema = [].
Proof.
  apply (no_numeric_no_recommendation region_rows labels_schema).
  intros c [<- | []]. discriminate.
Defined.

(** The first recommendation for the regions. *)
Lemma regions_first_recommendation :
  exists r rest,
    ChartRecommender.recommendCharts region_rows region_schema = r :: rest
    /\ rtype r = Bar.
Proof. vm_compute. do 2 eexists. split; reflexivity. Qed.

(** X11 on the first recommendation for the regions. *)
Lemma recommended_bindings_witness :
  exists r,
    In r (ChartRecommender.recommendCharts region_rows region_schema)
    /\ enc_y (suggestedEncodings r) = Some "Sales"
    /\ enc_x (suggestedEncodings r) <> None.
Proof.
  destruct regions_first_recommendation as (r & rest & Hr & _).
  assert (Hin : In r (ChartRecommender.recommendCharts region_rows
                        region_schema)) by (rewrite Hr; left; reflexivity).
  exists r. split; [exact Hin |].
  destruct (recommended_bindings region_rows region_schema r Hin)
    as (Hy & _ & Hx & _).
  split; [exact Hy | exact Hx].
Defined.

(** X13 on a bar chart without color field. *)
Lemma color_channel_follows_intent_witness :
  has_channel
    (VegaSpecBuilder.buildBarSpec region_rows "Region" "Sales" None false false)
    "color" = false
  /\ field_of
       (channel_of
          (VegaSpecBuilder.buildBarSpec region_rows "Region" "Sales" None
             false false) "color") = None.
Proof.
  exact (color_channel_follows_intent region_rows region_schema
           (intent Bar (Some "Region") (Some "Sales") None) _ eq_refl).
Defined.

(** X17 on the dataset with one measure and no other column. *)
Lemma generateFromPrompt_without_axis_witness :
  snd (ChartGeneration.generateFromPrompt JS.toLowerCase_ascii (Some sales)
         "show sales" ChartGeneration.initial) = None.
Proof.
  assert (Hno : forall c, In c (columns (schema sales)) ->
                  type c <> TDatetime /\ type c <> TString).
  { intros c [<- | []]. split; discriminate. }
  destruct (generateFromPrompt_without_axis JS.toLowerCase_ascii sales
              "show sales" ChartGeneration.initial Hno) as (_ & -> & _).
  reflexivity.
Defined.

(** X18 on the regions. *)
Lemma generateFromPrompt_with_axis_witness :
  exists spec,
    snd (ChartGeneration.generateFromPrompt JS.toLowerCase_ascii (Some regions)
           "sales by region" ChartGeneration.initial) = Some spec
    /\ complete spec.
Proof.
  assert (Hnames : forall c, In c (columns (schema regions)) -> name c <> "").
  { intros c [<- | [<- | []]]; discriminate. }
  assert (Haxis : exists c, In c (columns (schema regions))
                            /\ (type c = TDatetime \/ type c = TString)).
  { exists (column "Region" TString 2). split; [left; reflexivity |].
    right. reflexivity. }
  destruct (generateFromPrompt_with_axis JS.toLowerCase_ascii regions
              "sales by region" ChartGeneration.initial Hnames Haxis)
    as (spec & Hgen & Hc & _).
  exists spec. rewrite Hgen. split; [reflexivity | exact Hc].
Defined.

(** X19 on a name that holds a comma. *)
Lemma punctuated_name_never_matches_witness :
  JS.includes
    (PromptParser.normalizeText JS.toLowerCase_ascii "Sales, by region")
    "sales," = false.
Proof.
  apply (punctuated_name_never_matches JS.toLowerCase_ascii
           "Sales, by region" "sales," ","%char).
  - simpl. tauto.
  - simpl. tauto.
Defined.

(** The first insight for the sales. *)
Lemma sales_first_insight :
  exists i rest,
    InsightGenerator.generateInsights sales_rows sales_schema None None
    = Returned (i :: rest)
    /\ itype i = IMax.
Proof. vm_compute. do 2 eexists. split; reflexivity. Qed.

(** X21 on the sales. *)
Lemma reported_extremes_are_row_values_witness :
  exists out i target v row,
    InsightGenerator.generateInsights sales_rows sales_schema None None
    = Returned out
    /\ In i out
    /\ InsightGenerator.targetColumn sales_schema None = Some target
    /\ ivalue i = Some v
    /\ JS.isNaN v = false
    /\ In row sales_rows
    /\ InsightGenerator.numeric_of (get row (name target)) = v.
Proof.
  destruct sales_first_insight as (i & rest & Hout & Hty).
  assert (Hin : In i (i :: rest)) by (left; reflexivity).
  destruct (reported_extremes_are_row_values sales_rows sales_schema None None
              (i :: rest) i Hout Hin (or_introl Hty))
    as (target & v & row & H).
  exists (i :: rest), i, target, v, row.
  split; [exact Hout | split; [exact Hin | exact H]].
Defined.

(** X30 on the dataset whose only region is named constructor. *)
Lemma inherited_category_throws_witness :
  InsightGenerator.generateInsights inherited_rows region_schema
    (Some "Region") None = Thrown.
Proof.
  apply (inherited_category_throws inherited_rows region_schema
           (Some "Region") None (column "Sales" TNumber 2)
           (column "Region" TString 2) "constructor").
  - reflexivity.
  - vm_compute. discriminate.
  - reflexivity.
  - reflexivity.
  - intros row [<- | [<- | []]]; reflexivity.
Defined.

(** X22 on the first recommendation for the regions. *)
Lemma insights_of_selection_witness :
  exists r,
    In r (ChartGeneration.recommendations (Some regions))
    /\ InsightGenerator.targetColumn region_schema
         (enc_y (suggestedEncodings r))
       = firstNumeric region_schema.
Proof.
  destruct regions_first_recommendation as (r & rest & Hr & _).
  assert (Hin : In r (ChartGeneration.recommendations (Some regions)))
    by (change (In r (ChartRecommender.recommendCharts region_rows
                          region_schema)); rewrite Hr; left; reflexivity).
  exists r. split; [exact Hin |].
  exact (proj1 (insights_of_selection regions r ChartGeneration.initial Hin)).
Defined.

(** X23 on the bar chart recommended for the regions. *)
Lemma selected_intent_recompiles_witness :
  exists r intent,
    In r (ChartGeneration.recommendations (Some regions))
    /\ currentIntent (ChartGeneration.selectChart r ChartGeneration.initial)
       = Some intent
    /\ VegaSpecBuilder.buildSpecFromIntent region_rows region_schema intent
       = Some (vegaLiteSpec r).
Proof.
  destruct regions_first_recommendation as (r & rest & Hr & Hty).
  assert (Hin : In r (ChartGeneration.recommendations (Some regions)))
    by (change (In r (ChartRecommender.recommendCharts region_rows
                          region_schema)); rewrite Hr; left; reflexivity).
  assert (Hfam : In (rtype r)
                   [Bar; BarHorizontal; BarStacked; Line; Area; AreaStacked;
                    Histogram; Boxplot; Pie; Donut])
    by (rewrite Hty; left; reflexivity).
  assert (Hnames : forall c, In c (columns (schema regions)) -> name c <> "").
  { intros c [<- | [<- | []]]; discriminate. }
  eexists r, _. split; [exact Hin |]. split; [reflexivity |].
  exact (proj2 (selected_intent_recompiles regions r ChartGeneration.initial
                  _ Hin Hfam eq_refl) Hnames).
Defined.
End Instances.
